(** * ASR6501 LoRaWAN driver: a shallow embedding of [ASR6501.py]

    The driver talks to the modem over a serial line with textual AT
    commands.  The embedding keeps the shape of the Python code: the
    driver object is a record, the methods are functions in a small
    state-and-exception monad, the polling loops are bounded iterations
    whose bound is shown to be sufficient, and the serial port and the
    wall clock are an explicit world.

    Conventions.
    - A Python [str] is represented by the bytes of its UTF-8 encoding
      (a [string]); slicing at an offset that follows a compared ASCII
      prefix, comparison with ASCII literals and splitting on an ASCII
      separator act the same on both representations.
    - [time.time()] reads a clock counted in ticks, [hz] ticks to the
      second, and every reading lets [tick] ticks pass.
    - The serial port delivers whole lines; the modem is a function
      from the bytes written so far to the lines it answers, each with
      the delay after which it is ready. *)

From Stdlib Require Import ZArith List String Ascii Bool Lia Arith.
From Stdlib Require Import DecimalString.
Import ListNotations.
Open Scope string_scope.
Open Scope Z_scope.

Set Implicit Arguments.

(** ** Python runtime: strings *)

Module Py.

(** [s[:n]] *)
Fixpoint take (n : nat) (s : string) : string :=
  match n, s with
  | S n', String c s' => String c (take n' s')
  | _, _ => EmptyString
  end.

(** [s[n:]] *)
Fixpoint drop (n : nat) (s : string) : string :=
  match n, s with
  | S n', String _ s' => drop n' s'
  | _, _ => s
  end.

(** The bytes removed by [bytes.rstrip()]: space, tab, newline, vertical
    tab, form feed, carriage return. *)
Definition is_space (c : ascii) : bool :=
  let n := nat_of_ascii c in
  (n =? 32)%nat || ((9 <=? n)%nat && (n <=? 13)%nat).

Fixpoint rstrip (s : string) : string :=
  match s with
  | EmptyString => EmptyString
  | String c r =>
      match rstrip r with
      | EmptyString => if is_space c then EmptyString else String c EmptyString
      | r' => String c r'
      end
  end.

(** [bytes.decode("utf-8")]: the strict decoder accepts exactly the
    well-formed sequences.  [pending] lists the ranges the next bytes
    must fall in. *)
Definition in_range (r : nat * nat) (c : ascii) : bool :=
  let n := nat_of_ascii c in ((fst r <=? n) && (n <=? snd r))%nat.

Definition cont : nat * nat := (128, 191)%nat.

Definition lead (c : ascii) : option (list (nat * nat)) :=
  let n := nat_of_ascii c in
  if (n <=? 127)%nat then Some []
  else if (n <=? 193)%nat then None
  else if (n <=? 223)%nat then Some [cont]
  else if (n =? 224)%nat then Some [(160, 191)%nat; cont]
  else if (n =? 237)%nat then Some [(128, 159)%nat; cont]
  else if (n <=? 239)%nat then Some [cont; cont]
  else if (n =? 240)%nat then Some [(144, 191)%nat; cont; cont]
  else if (n <=? 243)%nat then Some [cont; cont; cont]
  else if (n =? 244)%nat then Some [(128, 143)%nat; cont; cont]
  else None.

Fixpoint utf8_valid (pending : list (nat * nat)) (s : string) : bool :=
  match s with
  | EmptyString => match pending with [] => true | _ => false end
  | String c r =>
      match pending with
      | [] => match lead c with Some p => utf8_valid p r | None => false end
      | rg :: p => in_range rg c && utf8_valid p r
      end
  end.

Definition decode (b : string) : option string :=
  if utf8_valid [] b then Some b else None.

(** First occurrence of a one-character separator. *)
Fixpoint cut (sep : ascii) (s : string) : option (string * string) :=
  match s with
  | EmptyString => None
  | String c r =>
      if Ascii.eqb c sep then Some (EmptyString, r)
      else match cut sep r with
           | Some (a, b) => Some (String c a, b)
           | None => None
           end
  end.

(** [s.split(sep, maxsplit)]: at most [maxsplit] cuts, hence at most
    [maxsplit + 1] pieces. *)
Fixpoint split (sep : ascii) (maxsplit : nat) (s : string) : list string :=
  match maxsplit with
  | O => [s]
  | S k =>
      match cut sep s with
      | Some (a, b) => a :: split sep k b
      | None => [s]
      end
  end.

(** Decimal digits, for [int(...)] and for formatting integers. *)
Definition digit (c : ascii) : option Z :=
  let n := nat_of_ascii c in
  if ((48 <=? n) && (n <=? 57))%nat then Some (Z.of_nat (n - 48)) else None.

(** Digits with single underscores between them, as [int] accepts.
    [acc] is the value read so far, [after_digit] tells whether the
    previous character was a digit. *)
Fixpoint digits (acc : Z) (after_digit : bool) (s : string) : option Z :=
  match s with
  | EmptyString => if after_digit then Some acc else None
  | String c r =>
      match digit c with
      | Some d => digits (10 * acc + d) true r
      | None =>
          if Ascii.eqb c "_" && after_digit
          then match r with
               | String c' _ => match digit c' with
                                | Some _ => digits acc false r
                                | None => None
                                end
               | EmptyString => None
               end
          else None
      end
  end.

(** White space of a [str] in the ASCII range: that of [bytes] and the
    four separators 28 to 31. *)
Definition is_str_space (c : ascii) : bool :=
  let n := nat_of_ascii c in
  is_space c || ((28 <=? n)%nat && (n <=? 31)%nat).

Fixpoint strip_right (s : string) : string :=
  match s with
  | EmptyString => EmptyString
  | String c r =>
      match strip_right r with
      | EmptyString => if is_str_space c then EmptyString else String c EmptyString
      | r' => String c r'
      end
  end.

Fixpoint strip_left (s : string) : string :=
  match s with
  | String c r => if is_str_space c then strip_left r else s
  | EmptyString => EmptyString
  end.

(** [int(s)] for a string of ASCII characters: surrounding white space,
    an optional sign, decimal digits.  [None] stands for [ValueError]. *)
Definition int (s : string) : option Z :=
  match strip_left (strip_right s) with
  | String "-" r => option_map Z.opp (digits 0 false r)
  | String "+" r => digits 0 false r
  | r => digits 0 false r
  end.

(** [f"{n}"] for an integer. *)
Definition str (n : Z) : string := NilZero.string_of_int (Z.to_int n).

Definition hexdigit (n : nat) : ascii :=
  ascii_of_nat (if (n <? 10)%nat then 48 + n else 87 + n).

(** [bytes.hex()] *)
Fixpoint hex (b : string) : string :=
  match b with
  | EmptyString => EmptyString
  | String c r =>
      let n := nat_of_ascii c in
      String (hexdigit (n / 16)) (String (hexdigit (n mod 16)) (hex r))
  end.

End Py.

(** ** The regular expressions of the module *)

(** Text of [s] up to its first newline: [.] does not match a newline. *)
Fixpoint first_line (s : string) : string :=
  match s with
  | EmptyString => EmptyString
  | String c r => if Ascii.eqb c "010" then EmptyString else String c (first_line r)
  end.

(** Text after the last [:] or [=] of [s], if there is one. *)
Fixpoint after_last_sep (s : string) : option string :=
  match s with
  | EmptyString => None
  | String c r =>
      match after_last_sep r with
      | Some v => Some v
      | None => if Ascii.eqb c ":" || Ascii.eqb c "=" then Some r else None
      end
  end.

(** [re.match(reply_pat, s).group(2)]: the pattern is any text, a colon
    or an equals sign, any text; the first group is greedy, so the
    second one is what follows the last separator of the first line. *)
Definition reply_pat (s : string) : option string :=
  after_last_sep (first_line s).

Definition is_upper_hex (c : ascii) : bool :=
  let n := nat_of_ascii c in
  ((48 <=? n) && (n <=? 57) || (65 <=? n) && (n <=? 70))%nat.

Fixpoint all_upper_hex (s : string) : bool :=
  match s with
  | EmptyString => true
  | String c r => is_upper_hex c && all_upper_hex r
  end.

(** The key patterns: [n] pairs of upper-case hexadecimal characters
    between the anchors; the end anchor of [re] also matches just
    before a final newline. *)
Definition hex_pairs (n : nat) (s : string) : bool :=
  let body := Py.take (2 * n) s in
  let rest := Py.drop (2 * n) s in
  (String.length body =? 2 * n)%nat && all_upper_hex body
  && (String.eqb rest "" || String.eqb rest (String "010" "")).

Definition hex8char := hex_pairs 4.
Definition hex16char := hex_pairs 8.
Definition hex32char := hex_pairs 16.

(** ** Exceptions and values *)

(** The exception classes of the module and the built-in ones the code
    can meet.  [SystemExit] carries the argument given to [exit]. *)
Inductive exn : Type :=
| ASRUnsupported | ASRNoPayload | ASRReceiveTimeout | ASRTomlConfigKeyError
| ASRPatternMatchFailed | ASRCMEError | ASRERRSend | ASRERRSent
| ASRErrorUnexpected | ASRUnsupportedManuf | _ASRShortReply
| ASRInvalidDevEui | ASRInvalidAppEui | ASRInvalidAppKey
| ASRInvalidDevAddr | ASRInvalidNwkSKey | ASRInvalidAppSKey
| ASRUnknownClassCombination | ASRSerialError | ASRInvalidBootMode
| AssertionError | ValueError | TypeError | UnicodeDecodeError
| KeyboardInterrupt
| SystemExit (code : exn).

(** [isinstance(e, Exception)]: everything but the two that derive from
    [BaseException] only. *)
Definition is_Exception (e : exn) : bool :=
  match e with
  | KeyboardInterrupt | SystemExit _ => false
  | _ => true
  end.

(** The dynamically typed values the driver stores and returns. *)
Inductive pyval : Type :=
| PyNone
| PyInt (n : Z)
| PyStr (s : string)
| PyList (l : list string).

(** The dictionary built by [getLastATError]. *)
Record ATError : Type := mkATError {
  AtCmd : pyval;
  Type_ : pyval;
  Num : pyval
}.

Definition OTAA : Z := 0.
Definition ABP : Z := 1.

(** ** The world: clock, serial line, modem, downlink handler *)

(** A downlink handler receives four strings and either returns or
    raises. *)
Definition Callback : Type := string -> string -> string -> string -> option exn.

(** What does not change while the driver runs. *)
Record Env : Type := mkEnv {
  hz : positive;                               (* ticks per second *)
  tick : positive;                             (* ticks that pass at each clock reading *)
  device : list string -> list (Z * string)    (* writes so far |-> (delay, line) answers to the last one *)
}.

(** [rxq] is the receive line as a queue: each line with the time from
    which it can be read; a line cannot overtake the one before it. *)
Record World : Type := mkWorld {
  now : Z;
  rxq : list (Z * string);
  written : list string;
  calls : list (string * string * string * string)
}.

(** The attributes of an [asr6501] object.  [_clearLastError] assigns
    [LastErrorType] and [LastErrorNum], the accessor and the parsers use
    [lastErrorType] and [lastErrorNum]: these are different attributes. *)
Record asr6501 : Type := mk_asr6501 {
  downlinkCallback : option Callback;
  downlinkRecvd : bool;
  lastErrorNum : pyval;
  lastErrorType : pyval;
  lastATCmd : pyval;
  LastErrorType : pyval;
  LastErrorNum : pyval;
  joined : bool;
  joinMode : pyval
}.

Record St : Type := mkSt { self : asr6501; world : World }.

(** ** The monad: state, exceptions, and running out of iterations *)

Inductive outcome (A : Type) : Type :=
| Return (a : A)
| Raise (e : exn).
Arguments Raise {A} e.

(** [None] is a loop that used up its bound. *)
Definition M (A : Type) : Type := St -> option (outcome A * St).

Definition ret {A} (a : A) : M A := fun s => Some (Return a, s).
Definition raise {A} (e : exn) : M A := fun s => Some (Raise e, s).

Definition bind {A B} (m : M A) (k : A -> M B) : M B :=
  fun s =>
    match m s with
    | Some (Return a, s') => k a s'
    | Some (Raise e, s') => Some (Raise e, s')
    | None => None
    end.

Notation "x <- m ;; k" := (bind m (fun x => k))
  (at level 61, m at next level, right associativity).
Notation "m ;; k" := (bind m (fun _ => k))
  (at level 61, right associativity).

(** Python's [==] on strings *)
Infix "==" := String.eqb (at level 70, no associativity).

(** [try: m except Exception as e: h e] *)
Definition try_except {A} (m : M A) (h : exn -> M A) : M A :=
  fun s =>
    match m s with
    | Some (Raise e, s') => if is_Exception e then h e s' else Some (Raise e, s')
    | r => r
    end.

(** [try: m finally: return v]: the [return] of the [finally] clause
    replaces whatever [m] returned or raised. *)
Definition finally_return {A B} (m : M A) (v : B) : M B :=
  fun s =>
    match m s with
    | Some (_, s') => Some (Return v, s')
    | None => None
    end.

Definition assert (b : bool) : M unit :=
  if b then ret tt else raise AssertionError.

(** A loop: the body either goes round again with new local variables
    ([inl]) or leaves the function with a value ([inr]). *)
Fixpoint while {L A} (bound : nat) (body : L -> M (L + A)) (l : L) : M A :=
  match bound with
  | O => fun _ => None
  | S n =>
      r <- body l ;;
      match r with
      | inl l' => while n body l'
      | inr a => ret a
      end
  end.

Definition continue {L A} (l : L) : M (L + A) := ret (inl l).
Definition leave {L A} (a : A) : M (L + A) := ret (inr a).

(** State access *)
Definition get_self : M asr6501 := fun s => Some (Return (self s), s).
Definition get_world : M World := fun s => Some (Return (world s), s).
Definition put_world (w : World) : M unit :=
  fun s => Some (Return tt, mkSt (self s) w).
Definition modify_self (f : asr6501 -> asr6501) : M unit :=
  fun s => Some (Return tt, mkSt (f (self s)) (world s)).

Definition set_downlinkCallback v d :=
  mk_asr6501 v (downlinkRecvd d) (lastErrorNum d) (lastErrorType d) (lastATCmd d)
             (LastErrorType d) (LastErrorNum d) (joined d) (joinMode d).
Definition set_downlinkRecvd v d :=
  mk_asr6501 (downlinkCallback d) v (lastErrorNum d) (lastErrorType d) (lastATCmd d)
             (LastErrorType d) (LastErrorNum d) (joined d) (joinMode d).
Definition set_lastErrorNum v d :=
  mk_asr6501 (downlinkCallback d) (downlinkRecvd d) v (lastErrorType d) (lastATCmd d)
             (LastErrorType d) (LastErrorNum d) (joined d) (joinMode d).
Definition set_lastErrorType v d :=
  mk_asr6501 (downlinkCallback d) (downlinkRecvd d) (lastErrorNum d) v (lastATCmd d)
             (LastErrorType d) (LastErrorNum d) (joined d) (joinMode d).
Definition set_lastATCmd v d :=
  mk_asr6501 (downlinkCallback d) (downlinkRecvd d) (lastErrorNum d) (lastErrorType d) v
             (LastErrorType d) (LastErrorNum d) (joined d) (joinMode d).
Definition set_LastErrorType v d :=
  mk_asr6501 (downlinkCallback d) (downlinkRecvd d) (lastErrorNum d) (lastErrorType d)
             (lastATCmd d) v (LastErrorNum d) (joined d) (joinMode d).
Definition set_LastErrorNum v d :=
  mk_asr6501 (downlinkCallback d) (downlinkRecvd d) (lastErrorNum d) (lastErrorType d)
             (lastATCmd d) (LastErrorType d) v (joined d) (joinMode d).
Definition set_joined v d :=
  mk_asr6501 (downlinkCallback d) (downlinkRecvd d) (lastErrorNum d) (lastErrorType d)
             (lastATCmd d) (LastErrorType d) (LastErrorNum d) v (joinMode d).
Definition set_joinMode v d :=
  mk_asr6501 (downlinkCallback d) (downlinkRecvd d) (lastErrorNum d) (lastErrorType d)
             (lastATCmd d) (LastErrorType d) (LastErrorNum d) (joined d) v.

(** The end of a command line, and the carriage return that ends the
    text of an answer line. *)
Definition CR : string := String "013" "".
Definition CRLF : string := String "013" (String "010" "").

Section Driver.

Variable env : Env.

(** ** [time] and the [serial] object *)

(** [time.time()] *)
Definition time_time : M Z :=
  fun s =>
    let w := world s in
    Some (Return (now w),
          mkSt (self s) (mkWorld (now w + Zpos (tick env)) (rxq w) (written w) (calls w))).

(** Bytes of the lines that can be read at time [t]; every line counts
    its newline. *)
Fixpoint ready_bytes (t : Z) (q : list (Z * string)) : Z :=
  match q with
  | (a, l) :: q' =>
      if a <=? t then Z.of_nat (String.length l) + 1 + ready_bytes t q' else 0
  | [] => 0
  end.

Fixpoint drop_ready (t : Z) (q : list (Z * string)) : list (Z * string) :=
  match q with
  | (a, l) :: q' => if a <=? t then drop_ready t q' else q
  | [] => []
  end.

(** [serial.in_waiting] *)
Definition in_waiting : M Z :=
  fun s => Some (Return (ready_bytes (now (world s)) (rxq (world s))), s).

(** [serial.readline()]: the next line with its newline; the empty
    byte string when none is there (a read that timed out). *)
Definition readline : M string :=
  fun s =>
    let w := world s in
    match rxq w with
    | (a, l) :: q =>
        if a <=? now w
        then Some (Return (l ++ String "010" ""),
                   mkSt (self s) (mkWorld (now w) q (written w) (calls w)))
        else Some (Return "", s)
    | [] => Some (Return "", s)
    end.

(** [serial.reset_input_buffer()] *)
Definition reset_input_buffer : M unit :=
  fun s =>
    let w := world s in
    Some (Return tt,
          mkSt (self s) (mkWorld (now w) (drop_ready (now w) (rxq w)) (written w) (calls w))).

(** [serial.write(data)]: the modem sees the bytes and queues its
    answer. *)
Definition serial_write (data : string) : M unit :=
  fun s =>
    let w := world s in
    let sent := (written w ++ [data])%list in
    let answer := map (fun dl => (now w + fst dl, snd dl)) (device env sent) in
    Some (Return tt, mkSt (self s) (mkWorld (now w) (rxq w ++ answer)%list sent (calls w))).

(** Calling the registered handler. *)
Definition call (cb : Callback) (a b c d : string) : M unit :=
  fun s =>
    let w := world s in
    let s' := mkSt (self s) (mkWorld (now w) (rxq w) (written w) (calls w ++ [(a, b, c, d)])%list) in
    match cb a b c d with
    | None => Some (Return tt, s')
    | Some e => Some (Raise e, s')
    end.

(** Seconds to ticks, and the number of polls that is always enough for
    a wait of [secs] seconds. *)
Definition ticks (secs : Z) : Z := secs * Zpos (hz env).
Definition polls (secs : Z) : nat := S (Z.to_nat (ticks secs)).

(** ** Methods not intended for public use *)

Definition _clearLastError : M unit :=
  modify_self (fun d => set_LastErrorNum PyNone (set_LastErrorType PyNone d)).

(** [a, b = text.split(":", 2)] into the two error attributes *)
Definition store_error (text : string) : M unit :=
  match Py.split ":" 2 text with
  | [a; b] => modify_self (fun d => set_lastErrorNum (PyStr b) (set_lastErrorType (PyStr a) d))
  | _ => raise ValueError
  end.

Definition drain_line (rx : string) : M (unit + unit) :=
  if rx == "+CJOIN:OK" then modify_self (set_joined true) ;; continue tt
  else if rx == "+CJOIN:FAIL" then modify_self (set_joined false) ;; continue tt
  else if Py.take 8 rx == "OK+SENT:" then continue tt
  else if Py.take 8 rx == "OK+RECV:" then
    d <- get_self ;;
    match downlinkCallback d with
    | Some cb =>
        modify_self (set_downlinkRecvd true) ;;
        match Py.split "," 4 (Py.drop 8 rx) with
        | [type; port; msglen; msg] => call cb type port msglen msg ;; continue tt
        | _ => raise ValueError
        end
    | None => continue tt
    end
  else if Py.take 8 rx == "OK+SEND:" then continue tt
  else if Py.take 9 rx == "ERR+SEND:" then
    modify_self (set_lastErrorType (PyStr "ERR+SEND")) ;;
    match Py.int (Py.drop 9 rx) with
    | Some n => modify_self (set_lastErrorNum (PyInt n)) ;; raise ASRERRSend
    | None => raise ValueError
    end
  else if Py.take 9 rx == "ERR+SENT:" then
    modify_self (set_lastErrorType (PyStr "ERR+SENT")) ;;
    match Py.int (Py.drop 9 rx) with
    | Some n => modify_self (set_lastErrorNum (PyInt n)) ;; raise ASRERRSent
    | None => raise ValueError
    end
  else continue tt.

Definition _getDelayedReplies : M unit :=
  _clearLastError ;;
  w <- get_world ;;
  while (S (List.length (rxq w)))
    (fun _ : unit =>
       n <- in_waiting ;;
       if n >? 0 then
         raw <- readline ;;
         let rx := Py.rstrip raw in
         if rx == "" then continue tt
         else match Py.decode rx with
              | Some rx => drain_line rx
              | None => raise UnicodeDecodeError
              end
       else leave tt)
    tt.

(** The local variables of the loop of [_inquire]. *)
Record inquire_locals : Type := mkLocals {
  rssiData : list string;
  kvp : option string;
  doingRssiList : bool
}.

Definition inquire_line (l : inquire_locals) (rxData : string) : M (inquire_locals + pyval) :=
  if Py.take 3 rxData == "AT+" then continue l
  else if rxData == "+CRSSI:" then continue (mkLocals (rssiData l) (kvp l) true)
  else if rxData == "OK" then
    if doingRssiList l then leave (PyList (rssiData l))
    else match kvp l with
         | None => raise TypeError
         | Some k =>
             match reply_pat k with
             | Some v => leave (PyStr v)
             | None => raise ASRPatternMatchFailed
             end
         end
  else if Py.take 11 rxData == "+CME ERROR:" then
    store_error rxData ;; raise ASRCMEError
  else if doingRssiList l
       then continue (mkLocals (rssiData l ++ [rxData])%list (kvp l) (doingRssiList l))
       else continue (mkLocals (rssiData l) (Some rxData) (doingRssiList l)).

Definition inquire_poll (start rxTimeout : Z) (l : inquire_locals) : M (inquire_locals + pyval) :=
  t <- time_time ;;
  if t - start >=? ticks rxTimeout then raise ASRReceiveTimeout
  else
    n <- in_waiting ;;
    if n >? 0 then
      raw <- readline ;;
      let rxData := Py.rstrip raw in
      if rxData == "" then continue l
      else match Py.decode rxData with
           | Some rxData => inquire_line l rxData
           | None => raise UnicodeDecodeError
           end
    else continue l.

Definition _inquire (cmd : string) (rxTimeout : Z) : M pyval :=
  _clearLastError ;;
  modify_self (set_lastATCmd (PyStr cmd)) ;;
  reset_input_buffer ;;
  serial_write ("AT+" ++ cmd ++ "?" ++ CRLF) ;;
  start <- time_time ;;
  while (polls rxTimeout) (inquire_poll start rxTimeout) (mkLocals [] None false).

Definition setCmd_line (rxData : string) : M (unit + bool) :=
  if rxData == "OK" then leave true
  else if Py.take 8 rxData == "OK+SEND:" then leave true
  else if Py.take 11 rxData == "+CME ERROR:" then
    store_error rxData ;; raise ASRCMEError
  else continue tt.

Definition setCmd_poll (start rxTimeout : Z) (_ : unit) : M (unit + bool) :=
  t <- time_time ;;
  if t - start >=? ticks rxTimeout then raise ASRReceiveTimeout
  else
    n <- in_waiting ;;
    if n >? 0 then
      raw <- readline ;;
      let rxData := Py.rstrip raw in
      if rxData == "" then continue tt
      else match Py.decode rxData with
           | Some rxData => setCmd_line rxData
           | None => raise UnicodeDecodeError
           end
    else continue tt.

Definition _setCmd (cmd : string) (rxTimeout : Z) : M bool :=
  _clearLastError ;;
  modify_self (set_lastATCmd (PyStr cmd)) ;;
  reset_input_buffer ;;
  serial_write ("AT+" ++ cmd ++ CRLF) ;;
  start <- time_time ;;
  while (polls rxTimeout) (setCmd_poll start rxTimeout) tt.

Definition _noneOrInt (value : pyval) : M (option Z) :=
  match value with
  | PyNone => ret None
  | PyInt n => ret (Some n)
  | PyStr s => match Py.int s with
               | Some n => ret (Some n)
               | None => raise ValueError
               end
  | PyList _ => raise TypeError
  end.

(** ** General commands *)

Definition getLastATError (d : asr6501) : option ATError :=
  match lastErrorType d with
  | PyNone => None
  | _ => Some (mkATError (lastATCmd d) (lastErrorType d) (lastErrorNum d))
  end.

Definition setDownlinkCallback (func : option Callback) : M bool :=
  match func with
  | Some f => modify_self (set_downlinkCallback (Some f)) ;; ret true
  | None => ret false
  end.

Definition checkForDownlink : M unit :=
  n <- in_waiting ;;
  if n =? 0 then ret tt
  else
    raw <- readline ;;
    match Py.decode (Py.rstrip raw) with
    | None => raise UnicodeDecodeError
    | Some rx =>
        if Py.take 8 rx == "OK+RECV:" then
          d <- get_self ;;
          match downlinkCallback d with
          | Some cb =>
              match Py.split "," 4 (Py.drop 8 rx) with
              | [type; port; msglen; msg] => call cb type port msglen msg
              | _ => raise ValueError
              end
          | None => ret tt
          end
        else ret tt
    end.

Definition getManufId : M pyval := _inquire "CGMI" 2.

Definition setBaud (baud : Z) : M bool := _setCmd ("CGBR=" ++ Py.str baud) 2.

(** ** Network related *)

Definition setJoinMode (mode : Z) : M bool :=
  assert ((0 <=? mode) && (mode <=? 1)) ;;
  b <- _setCmd ("CJOINMODE=" ++ Py.str mode) 2 ;;
  if b then modify_self (set_joinMode (PyInt mode)) ;; ret true
  else ret false.


(** [self.joinMode is m] for one of the two mode constants *)
Definition joinMode_is (m : Z) : M bool :=
  d <- get_self ;;
  ret (match joinMode d with PyInt n => n =? m | _ => false end).

Definition setDevEui (deveui : string) : M bool :=
  ok <- joinMode_is OTAA ;;
  assert ok ;;
  if hex16char deveui then _setCmd ("CDEVEUI=" ++ deveui) 2
  else raise ASRInvalidDevEui.

Definition setAppEui (appeui : string) : M bool :=
  ok <- joinMode_is OTAA ;;
  assert ok ;;
  if hex16char appeui then _setCmd ("CAPPEUI=" ++ appeui) 2
  else raise ASRInvalidAppEui.

Definition setAppKey (appkey : string) : M bool :=
  ok <- joinMode_is OTAA ;;
  assert ok ;;
  if hex32char appkey then _setCmd ("CAPPKEY=" ++ appkey) 2
  else raise ASRInvalidAppKey.

Definition setDevAddr (devaddr : string) : M bool :=
  if hex16char devaddr then _setCmd ("CDEVADDR=" ++ devaddr) 2
  else raise ASRInvalidDevAddr.

Definition setAppSKey (appskey : string) : M bool :=
  ok <- joinMode_is ABP ;;
  assert ok ;;
  if hex32char appskey then _setCmd ("CAPPSKEY=" ++ appskey) 2
  else raise ASRInvalidAppSKey.

Definition setNwkSKey (nwkskey : string) : M bool :=
  if hex32char nwkskey then _setCmd ("CNWKSKEY=" ++ nwkskey) 2
  else raise ASRInvalidNwkSKey.

Definition setLogLevel (level : Z) : M bool :=
  assert ((0 <=? level) && (level <=? 5)) ;;
  _setCmd ("ILOGLVL=" ++ Py.str level) 2.

Definition getRX1Delay : M (option Z) :=
  v <- _inquire "CRX1DELAY" 2 ;;
  _noneOrInt v.

(** [x + n] where [x] may be [None] *)
Definition plus_int (x : option Z) (n : Z) : M Z :=
  match x with
  | Some v => ret (v + n)
  | None => raise TypeError
  end.

(** ** Join *)

Definition join_cmd (start autojoin interval retries : Z) : string :=
  "CJOIN=" ++ Py.str start ++ "," ++ Py.str autojoin ++ ","
           ++ Py.str interval ++ "," ++ Py.str retries.

Definition join_wait (start rxTimeout : Z) (_ : unit) : M (unit + unit) :=
  n <- in_waiting ;;
  if n =? 0 then
    t <- time_time ;;
    if t - start >=? ticks rxTimeout then raise ASRReceiveTimeout
    else continue tt
  else leave tt.

Definition join (start autojoin interval retries : Z) : M bool :=
  assert ((0 <=? start) && (start <=? 1)) ;;
  assert ((0 <=? autojoin) && (autojoin <=? 1)) ;;
  assert ((1 <=? interval) && (interval <=? 255)) ;;
  assert ((1 <=? retries) && (retries <=? 256)) ;;
  d <- get_self ;;
  if joined d && negb (start =? 0) then ret false
  else
    _clearLastError ;;
    reset_input_buffer ;;
    let cmd := join_cmd start autojoin interval retries in
    ok <- _setCmd cmd 2 ;;
    if negb ok then ret false
    else
      RX1Delay <- getRX1Delay ;;
      RX1Delay1 <- plus_int RX1Delay 1 ;;
      let rxTimeout := retries * RX1Delay1 in
      start <- time_time ;;
      while (polls rxTimeout) (join_wait start rxTimeout) tt ;;
      _getDelayedReplies ;;
      d <- get_self ;;
      ret (joined d).

(** ** Send *)

Definition send_wait (start delay : Z) (_ : unit) : M (unit + unit) :=
  t <- time_time ;;
  if t - start <=? ticks delay then _getDelayedReplies ;; continue tt
  else leave tt.

(** The body of the [try] of [sendPayload]; its value is the value of
    its [return] statement. *)
Definition send_try (confirm nbtrials : Z) (hexPayload : string) : M (option bool) :=
  let lenHexPayload := Z.of_nat (String.length hexPayload) in
  modify_self (set_downlinkRecvd false) ;;
  _setCmd ("DTRX=" ++ Py.str confirm ++ "," ++ Py.str nbtrials ++ ","
                   ++ Py.str lenHexPayload ++ "," ++ hexPayload) 2 ;;
  RX1Delay <- getRX1Delay ;;
  delay <- plus_int RX1Delay 2 ;;
  start <- time_time ;;
  while (polls delay) (send_wait start delay) tt ;;
  ret (Some true).

Definition sendPayload (payload : option string) (confirm nbtrials : Z) : M bool :=
  match payload with
  | None => raise AssertionError
  | Some payload =>
      let hexPayload := Py.hex payload in
      finally_return
        (try_except (send_try confirm nbtrials hexPayload) (fun e => ret None))
        false
  end.

(** ** Construction *)

Definition new_object : asr6501 :=
  mk_asr6501 None false PyNone PyNone PyNone PyNone PyNone false PyNone.



End Driver.

(** ** The other commands

    The getters and setters that go through [_inquire] and [_setCmd]
    without work of their own, and the few that add a check. *)

Section Commands.

Variable env : Env.

Definition getModelRevision : M pyval := _inquire env "CGMR" 2.
Definition getSerialNumber : M pyval := _inquire env "CGSN" 2.

Definition getBaud : M (option Z) :=
  v <- _inquire env "CGBR" 2 ;; _noneOrInt v.

Definition getDevEui : M pyval := _inquire env "CDEVEUI" 2.
Definition getAppEui : M pyval := _inquire env "CAPPEUI" 2.
Definition getAppKey : M pyval := _inquire env "CAPPKEY" 2.

Definition getDevAddr : M pyval :=
  ok <- joinMode_is ABP ;;
  assert ok ;;
  _inquire env "CDEVADDR" 2.

Definition getAppSKey : M pyval := _inquire env "CAPPSKEY" 2.
Definition getNwkSKey : M pyval := _inquire env "CNWKSKEY" 2.

(** No [return]: the result of [_setCmd] is dropped. *)
Definition setFreqBandMask (mask : Z) : M unit :=
  _setCmd env ("CFREQBANDMASK=000" ++ Py.str mask) 2 ;; ret tt.

Definition getFreqBandMask : M (option Z) :=
  v <- _inquire env "CFREQBANDMASK" 2 ;; _noneOrInt v.

Definition setULDLmode (mode : Z) : M bool :=
  assert ((1 <=? mode) && (mode <=? 2)) ;;
  _setCmd env ("CULDLMODE=" ++ Py.str mode) 2.

Definition getULDLmode : M (option Z) :=
  v <- _inquire env "CULDLMODE" 2 ;; _noneOrInt v.

Definition getNumberOfMulticastAddr : M (option Z) :=
  v <- _inquire env "CNUMMUTICAST" 2 ;; _noneOrInt v.

Definition setWorkMode (mode : Z) : M bool :=
  _setCmd env ("CWORKMODE=" ++ Py.str mode) 2.

Definition getWorkMode : M (option Z) :=
  v <- _inquire env "CWORKMODE" 2 ;; _noneOrInt v.

(** [f"{param}"] for a parameter that is an integer or [None] *)
Definition fmt (param : option Z) : string :=
  match param with
  | Some n => Py.str n
  | None => "None"
  end.

Definition setClass (loraClass branch : Z) (param1 param2 param3 param4 : option Z) : M bool :=
  if (branch =? 0) && (loraClass =? 0)
  then _setCmd env ("CCLASS=" ++ Py.str loraClass) 2
  else if (branch =? 0) && (loraClass =? 1)
  then _setCmd env ("CCLASS=" ++ Py.str loraClass ++ "," ++ fmt param1) 2
  else if (branch =? 1) && (loraClass =? 1)
  then _setCmd env ("CCLASS=" ++ Py.str loraClass ++ "," ++ fmt param1 ++ "," ++ fmt param2
                              ++ "," ++ fmt param3 ++ "," ++ fmt param4) 2
  else raise ASRUnknownClassCombination.

Definition getClass : M (option Z) :=
  v <- _inquire env "CCLASS" 2 ;; _noneOrInt v.

Definition getBatteryLevel : M (option Z) :=
  v <- _inquire env "CBL" 2 ;; _noneOrInt v.

Definition getStatus : M (option Z) :=
  v <- _inquire env "CSTATUS" 2 ;; _noneOrInt v.

Definition setSendMessageConfirm (confirm : Z) : M bool :=
  assert ((0 <=? confirm) && (confirm <=? 1)) ;;
  _setCmd env ("CCONFIRM=" ++ Py.str confirm) 2.

Definition getMessageType : M (option Z) :=
  v <- _inquire env "CCONFIRM" 2 ;; _noneOrInt v.

Definition setApplicationPort (port : Z) : M bool :=
  assert ((1 <=? port) && (port <=? 223)) ;;
  _setCmd env ("CAPPPORT=" ++ Py.str port) 2.

Definition getApplicationPort : M (option Z) :=
  v <- _inquire env "CAPPPORT" 2 ;; _noneOrInt v.

Definition setDataRate (DR : Z) : M bool :=
  assert ((0 <=? DR) && (DR <=? 5)) ;;
  _setCmd env ("CDATARATE=" ++ Py.str DR) 2.

Definition getDataRate : M (option Z) :=
  v <- _inquire env "CDATARATE" 2 ;; _noneOrInt v.

Definition setNbTrials (Mtype nbTrials : Z) : M bool :=
  assert ((0 <=? Mtype) && (Mtype <=? 1)) ;;
  assert ((1 <=? nbTrials) && (nbTrials <=? 15)) ;;
  _setCmd env ("CNBTRIALS=" ++ Py.str Mtype ++ "," ++ Py.str nbTrials) 2.

Definition setReportMode (reportmode interval : Z) : M bool :=
  if reportmode =? 0
  then _setCmd env ("CRM=" ++ Py.str reportmode) 2
  else _setCmd env ("CRM=" ++ Py.str reportmode ++ "," ++ Py.str interval) 2.

Definition setTxPower (power : Z) : M bool :=
  assert ((0 <=? power) && (power <=? 7)) ;;
  _setCmd env ("CTXP=" ++ Py.str power) 2.

Definition getTxPower : M (option Z) :=
  v <- _inquire env "CTXP" 2 ;; _noneOrInt v.

Definition enableLinkCheck (mode : Z) : M bool :=
  _setCmd env ("CLINKCHECK=" ++ Py.str mode) 2.

Definition enableADR (enable : Z) : M bool :=
  assert ((0 <=? enable) && (enable <=? 1)) ;;
  _setCmd env ("CADR=" ++ Py.str enable) 2.

Definition disableADR : M bool := enableADR 0.

Definition getADR : M (option Z) :=
  v <- _inquire env "CADR" 2 ;; _noneOrInt v.

Definition setReceiveWindowParameters (RX1DRoffset RX2DataRate RX2Frequency : Z) : M bool :=
  assert ((0 <=? RX1DRoffset) && (RX1DRoffset <=? 5)) ;;
  assert ((0 <=? RX2DataRate) && (RX2DataRate <=? 5)) ;;
  assert ((433000000 <=? RX2Frequency) && (RX2Frequency <=? 999000000)) ;;
  _setCmd env ("CRXP=" ++ Py.str RX1DRoffset ++ "," ++ Py.str RX2DataRate ++ ","
                       ++ Py.str RX2Frequency) 2.

Definition setFrequencyTable (ULDL method number : Z) (freqlist : string) : M unit :=
  raise ASRUnsupported.

Definition setRX1Delay (delay : Z) : M bool :=
  assert (delay <=? 5) ;;
  _setCmd env ("CRX1DELAY=" ++ Py.str delay) 2.

Definition saveMacConfiguration : M bool := _setCmd env "CSAVE" 2.
Definition restoreMacConfiguration : M bool := _setCmd env "CRESTORE" 2.

Definition getPingSlotInfo : M (option Z) :=
  v <- _inquire env "CPINGSLOTINFOREQ" 2 ;; _noneOrInt v.


Definition reboot (mode : Z) : M unit :=
  if (mode =? 0) || (mode =? 1) || (mode =? 7)
  then _setCmd env ("IREBOOT=" ++ Py.str mode) 2 ;; _getDelayedReplies
  else raise ASRInvalidBootMode.

Definition getLogLevel : M (option Z) :=
  v <- _inquire env "ILOGLVL" 2 ;; _noneOrInt v.

Definition enableLowPower (enable : Z) : M bool :=
  _setCmd env ("CLPM=" ++ Py.str enable) 2.

Definition setKeysProtect (protect : Z) : M bool :=
  assert ((0 <=? protect) && (protect <=? 1)) ;;
  _setCmd env ("CKEYSPROTECT=" ++ Py.str protect) 2.

Definition getKeysProtect : M (option Z) :=
  v <- _inquire env "CKEYSPROTECT" 2 ;; _noneOrInt v.

(** The [if] chain ends without an [else]: [None] would be returned,
    but the assertion leaves no other case. *)
Definition lowPowerTest (which : string) : M (option bool) :=
  assert ((which == "sleep") || (which == "MCU") || (which == "standby")) ;;
  if which == "sleep" then b <- _setCmd env "CSLEEP" 2 ;; ret (Some b)
  else if which == "MCU" then b <- _setCmd env "CMCU" 2 ;; ret (Some b)
  else if which == "standby" then b <- _setCmd env "CSTDBY" 2 ;; ret (Some b)
  else ret None.

Definition loraRxTest (freq datarate : Z) : M bool :=
  assert ((150000000 <=? freq) && (freq <=? 960000000)) ;;
  assert ((0 <=? datarate) && (datarate <=? 5)) ;;
  _setCmd env ("CRX=" ++ Py.str freq ++ "," ++ Py.str datarate) 2.

Definition loraTxTest (freq datarate power : Z) : M bool :=
  assert ((150000000 <=? freq) && (freq <=? 960000000)) ;;
  assert ((0 <=? datarate) && (datarate <=? 5)) ;;
  assert ((0 <=? power) && (power <=? 22)) ;;
  _setCmd env ("CTX=" ++ Py.str freq ++ "," ++ Py.str datarate ++ "," ++ Py.str power) 2.

Definition loraTxContinuousTest (freq power paOpt : Z) : M bool :=
  assert ((150000000 <=? freq) && (freq <=? 960000000)) ;;
  assert ((0 <=? power) && (power <=? 22)) ;;
  assert ((0 <=? paOpt) && (paOpt <=? 3)) ;;
  _setCmd env ("CTXCW=" ++ Py.str freq ++ "," ++ Py.str power ++ "," ++ Py.str paOpt) 2.

(** ** The example program [TTN_test.py]

    The functions that configure the keys and join.  The entries of the
    configuration file are their arguments. *)

Definition THIS_JOIN_MODE : Z := OTAA.

(** [None] is the bare [return]. *)
Definition configureOTAA (devEui appEui appKey : string) : M (option bool) :=
  if negb (THIS_JOIN_MODE =? OTAA) then ret None
  else
    try_except
      (setJoinMode env OTAA ;;
       setDevEui env devEui ;;
       setAppEui env appEui ;;
       setAppKey env appKey ;;
       ret (Some true))
      (fun e => ret (Some false)).

Definition configureABP (devaddr nwkSKey appSKey : string) : M (option bool) :=
  if negb (THIS_JOIN_MODE =? ABP) then ret None
  else
    try_except
      (setJoinMode env ABP ;;
       setDevAddr env devaddr ;;
       setNwkSKey env nwkSKey ;;
       setAppSKey env appSKey ;;
       ret (Some true))
      (fun e => ret (Some false)).


End Commands.

(** ** Signal strengths *)

(** The characters of a [str], each as the bytes of its encoding: a
    byte and the continuation bytes that follow it. *)
Definition is_cont (c : ascii) : bool := Py.in_range Py.cont c.

Fixpoint chars (s : string) : list string :=
  match s with
  | EmptyString => []
  | String c r =>
      let cs := chars r in
      match r with
      | String c' _ =>
          if is_cont c'
          then match cs with
               | h :: t => String c h :: t
               | [] => [String c ""]
               end
          else String c "" :: cs
      | EmptyString => [String c ""]
      end
  end.

(** The longest prefix of decimal digits, and what follows it. *)
Fixpoint span_digits (s : string) : string * string :=
  match s with
  | EmptyString => (EmptyString, EmptyString)
  | String c r =>
      match Py.digit c with
      | Some _ => let (k, rest) := span_digits r in (String c k, rest)
      | None => (EmptyString, s)
      end
  end.


(** [re.match(kv_pat, s)] with its two groups: one digit or more, a
    colon, any text.  The digits are matched greedily, and giving one
    back leaves a digit where the colon must be, so the first group is
    the longest prefix of digits; the second one ends with the line. *)
Definition kv_pat (s : string) : option (string * string) :=
  match span_digits s with
  | (String c k, String ":" r) => Some (String c k, first_line r)
  | _ => None
  end.

(** [d[k] = v] on a dictionary kept in the order of insertion: a key
    that is there keeps its place. *)
Fixpoint dict_set (k : string) (v : Z) (d : list (string * Z)) : list (string * Z) :=
  match d with
  | [] => [(k, v)]
  | (k', v') :: r => if k' == k then (k, v) :: r else (k', v') :: dict_set k v r
  end.

(** The loop over the entries; [d] is the dictionary so far. *)
Fixpoint rssi_entries (entries : list string) (d : list (string * Z)) : M (list (string * Z)) :=
  match entries with
  | [] => ret d
  | entry :: rest =>
      match kv_pat entry with
      | Some (k, v) =>
          match Py.int v with
          | Some n => rssi_entries rest (dict_set k n d)
          | None => raise ValueError
          end
      | None => rssi_entries rest d
      end
  end.

(** [for entry in rssiList] goes over the items of a list and over the
    characters of a text. *)
Definition getRSSI (env : Env) (freqBandIdx : Z) : M (list (string * Z)) :=
  rssiList <- _inquire env ("CRSSI 000" ++ Py.str freqBandIdx) 2 ;;
  match rssiList with
  | PyList l => rssi_entries l []
  | PyStr t => rssi_entries (chars t) []
  | _ => raise TypeError
  end.

(** ** Scripted modems

    A scripted modem answers the last command written from a table; a
    command that is not in the table gets no answer.  The lines of an
    answer are ready at once. *)

Definition answer (lines : list string) : list (Z * string) :=
  map (fun l => (0, l ++ CR)) lines.

Definition scripted (table : list (string * list string)) (sent : list string)
  : list (Z * string) :=
  match find (fun row => fst row ++ CRLF == last sent "") table with
  | Some row => answer (snd row)
  | None => []
  end.

(** Ten ticks to the second, one tick for each reading of the clock. *)
Definition bench (table : list (string * list string)) : Env :=
  mkEnv 10 1 (scripted table).

Definition power_on : St := mkSt new_object (mkWorld 0 [] [] []).

(** A modem that never answers. *)
Definition silent : Env := bench [].

(** A modem that only echoes the inquiry. *)
Definition echo_only : Env := bench [("AT+CGMI?", ["AT+CGMI?"])].


(** A modem that rejects the revision inquiry and answers the serial
    number inquiry. *)
Definition rejecting : Env :=
  bench [("AT+CGMR?", ["AT+CGMR?"; "+CME ERROR:1"]);
         ("AT+CGSN?", ["AT+CGSN?"; "+CGSN=0D39FFCD00031E43"; "OK"]);
         ("AT+CGBR?", ["AT+CGBR?"; "+CME ERROR:1:2"])].

(** A modem that accepts every command of the table, never gets an
    answer from the network, and reports an RX1 delay of 5 seconds. *)
Definition accepting : Env :=
  bench [("AT+CJOIN=1,0,8,8", ["OK"]);
         ("AT+CRX1DELAY?", ["AT+CRX1DELAY?"; "+CRX1DELAY:5"; "OK"]);
         ("AT+CDEVADDR=0011223344556677", ["OK"]);
         ("AT+CJOINMODE=1", ["OK"]);
         ("AT+DTRX=0,8,4,6869", ["OK+SEND:02"])].

(** A handler that accepts every downlink. *)
Definition accept_downlink : Callback := fun _ _ _ _ => None.

(** A driver with a handler registered and one line waiting. *)
Definition listening (line : string) : St :=
  mkSt (set_downlinkCallback (Some accept_downlink) new_object)
       (mkWorld 0 [(0, line ++ CR)] [] []).

(** ** Weakest preconditions for total correctness *)

(** [wp m Q s]: run from [s], [m] ends, and its outcome and final state
    satisfy [Q]. *)
Definition wp {A} (m : M A) (Q : outcome A -> St -> Prop) (s : St) : Prop :=
  exists o s', m s = Some (o, s') /\ Q o s'.

(** The state with the first line of the queue taken. *)
Definition pop_line (s : St) : St :=
  mkSt (self s)
       (mkWorld (now (world s)) (tl (rxq (world s))) (written (world s)) (calls (world s))).

(** A line the loop of [_inquire] passes over: blank once stripped, or
    a command echo. *)
Definition skipped (l : string) : bool :=
  let rx := Py.rstrip (l ++ String "010" "") in
  (rx == "")
  || match Py.decode rx with
     | Some t => Py.take 3 t == "AT+"
     | None => false
     end.


(** The state after a reading of the clock. *)
Definition tock (env : Env) (s : St) : St :=
  mkSt (self s)
       (mkWorld (now (world s) + Zpos (tick env)) (rxq (world s))
                (written (world s)) (calls (world s))).

(** What a transaction preserves: the join flag and mode, the handler
    and the calls made to it are left alone, and an error type that is
    recorded stays recorded. *)
Definition kept (s s' : St) : Prop :=
  joined (self s') = joined (self s)
  /\ joinMode (self s') = joinMode (self s)
  /\ downlinkCallback (self s') = downlinkCallback (self s)
  /\ calls (world s') = calls (world s)
  /\ (lastErrorType (self s) <> PyNone -> lastErrorType (self s') <> PyNone).

(** The outcome of a transaction: a value that satisfies [P], or an
    exception of the [Exception] family. *)
Definition value_or_Exception {A} (P : A -> Prop) (o : outcome A) : Prop :=
  match o with
  | Return a => P a
  | Raise e => is_Exception e = true
  end.

(** One turn of a polling loop that reads the clock first: what the
    loop needs from the processing of a line. *)
Definition turn (env : Env) {L A} (P : A -> Prop) (start T : Z) (s : St)
           (o : outcome (L + A)) (s' : St) : Prop :=
  kept s s'
  /\ now (world s') = now (world s) + Zpos (tick env)
  /\ match o with
     | Return (inl _) => now (world s) - start < ticks env T
     | Return (inr a) => P a
     | Raise e => is_Exception e = true
     end.

(** A run that ends by returning [True] or by raising, never by
    returning [False]. *)
Definition True_or_raises (r : option (outcome bool * St)) : Prop :=
  exists s', r = Some (Return true, s') \/ exists e, r = Some (Raise e, s').


(** Every line of the queue, or of an answer of the modem, is one the
    loop of [_inquire] passes over. *)
Definition only_echo {T} (q : list (T * string)) : Prop :=
  Forall (fun al => skipped (snd al) = true) q.

(** Ticks between two readings of the clock, the first of which left
    the state [s] and the second of which led to the state [s']; a
    reading returns the time and lets a tick pass. *)
Definition elapsed (env : Env) (s s' : St) : Z :=
  (now (world s') - Zpos (tick env)) - now (world s).


(** ** Lines, as the loops see them *)

(** What the loops make of a line of the queue: its bytes with the
    newline that [readline] returns, stripped on the right. *)
Definition text_of (x : string) : string := Py.rstrip (x ++ String "010" "").

(** A stripped line that is not blank and that [decode] accepts. *)
Definition is_text (r : string) : bool := negb (r == "") && Py.utf8_valid [] r.

(** A stripped line that the loop of [_inquire] keeps as data: it is
    not an echo, not the RSSI header, not OK, not a command error. *)
Definition plain (r : string) : bool :=
  negb (Py.take 3 r == "AT+") && negb (r == "+CRSSI:") && negb (r == "OK")
  && negb (Py.take 11 r == "+CME ERROR:").

(** A line that the loop of [_setCmd] passes over. *)
Definition passed_by_setCmd (x : string) : bool :=
  let r := text_of x in
  (r == "")
  || (Py.utf8_valid [] r && negb (r == "OK") && negb (Py.take 8 r == "OK+SEND:")
      && negb (Py.take 11 r == "+CME ERROR:")).

(** A line that the loop of [_setCmd] takes as the acknowledgement. *)
Definition acknowledges (x : string) : bool :=
  let r := text_of x in
  is_text r && ((r == "OK") || (Py.take 8 r == "OK+SEND:")).

(** The answer of a modem that sends these lines without delay. *)
Definition at_once (lines : list string) : list (Z * string) :=
  map (fun x => (0, x)) lines.

(** Every line of the queue can already be read: the next transaction
    discards them all. *)
Definition nothing_on_its_way (s : St) : Prop :=
  drop_ready (now (world s)) (rxq (world s)) = [].

(** The bytes a transaction writes. *)
Definition inquiry (cmd : string) : string := "AT+" ++ cmd ++ "?" ++ CRLF.
Definition command (cmd : string) : string := "AT+" ++ cmd ++ CRLF.

(** The state in which a transaction ends that read [k] lines of an
    answer sent at once: the command is recorded and written, [k + 1]
    readings of the clock have passed, the rest of the answer is still
    in the queue. *)
Definition answered (env : Env) (cmd sent : string) (k : nat) (rest : list string)
           (s : St) : St :=
  mkSt (set_lastATCmd (PyStr cmd)
          (set_LastErrorNum PyNone (set_LastErrorType PyNone (self s))))
       (mkWorld (now (world s) + Z.of_nat (S k) * Zpos (tick env))
                (map (fun x => (now (world s) + 0, x)) rest)
                (written (world s) ++ [sent])%list
                (calls (world s))).

(** The state with an error recorded. *)
Definition with_error (kind num : string) (s : St) : St :=
  mkSt (set_lastErrorNum (PyStr num) (set_lastErrorType (PyStr kind) (self s))) (world s).

(** [P] is kept by every run of [m] that ends. *)
Definition stable {A} (P : St -> Prop) (m : M A) : Prop :=
  forall s o s', P s -> m s = Some (o, s') -> P s'.

(** The bytes written so far and the command on record. *)
Definition wire (w : list string) (c : pyval) (s : St) : Prop :=
  written (world s) = w /\ lastATCmd (self s) = c.


(** A line that is not one of the two join notices. *)
Definition no_join_notice (x : string) : bool :=
  negb (text_of x == "+CJOIN:OK") && negb (text_of x == "+CJOIN:FAIL").




(** A modem that answers the inquiry of the signal strengths of band 1
    with two channels, reports class B, and rejects a change of the
    data rate. *)
Definition surveying : Env :=
  bench [("AT+CRSSI 0001?", ["AT+CRSSI 0001?"; "+CRSSI:"; "0:-101"; "1:-99"; "OK"]);
         ("AT+CCLASS?", ["AT+CCLASS?"; "+CCLASS:1"; "OK"]);
         ("AT+CSTATUS?", ["AT+CSTATUS?"; "+CSTATUS:03"; "OK"]);
         ("AT+CDATARATE=3", ["+CME ERROR:1"])].

(** The getters that inquire a value and turn it into an integer, each
    with the command it inquires. *)
Definition numeric_getters (env : Env) : list (string * M (option Z)) :=
  [("CGBR", getBaud env); ("CFREQBANDMASK", getFreqBandMask env);
   ("CULDLMODE", getULDLmode env); ("CNUMMUTICAST", getNumberOfMulticastAddr env);
   ("CWORKMODE", getWorkMode env); ("CCLASS", getClass env); ("CBL", getBatteryLevel env);
   ("CSTATUS", getStatus env); ("CCONFIRM", getMessageType env);
   ("CAPPPORT", getApplicationPort env); ("CDATARATE", getDataRate env);
   ("CTXP", getTxPower env); ("CADR", getADR env); ("CRX1DELAY", getRX1Delay env);
   ("CPINGSLOTINFOREQ", getPingSlotInfo env); ("ILOGLVL", getLogLevel env);
   ("CKEYSPROTECT", getKeysProtect env)].



(** A modem that answers every command with a line of its log. *)
Definition chatty : Env := mkEnv 10 1 (fun _ => [(0, "[LOG] busy" ++ CR)]).

(** Every line of the queue, or of an answer of the modem, is one the
    loop of [_setCmd] passes over. *)
Definition only_passed {T} (q : list (T * string)) : Prop :=
  Forall (fun al => passed_by_setCmd (snd al) = true) q.

(** ** Rules of the monad *)

Lemma wp_ret {A} (a : A) (Q : outcome A -> St -> Prop) s :
  Q (Return a) s -> wp (ret a) Q s.
Proof. intros H. exists (Return a), s. split; [reflexivity | exact H]. Qed.

Lemma wp_raise {A} (e : exn) (Q : outcome A -> St -> Prop) s :
  Q (Raise e) s -> wp (raise e) Q s.
Proof. intros H. exists (Raise e), s. split; [reflexivity | exact H]. Qed.

Lemma wp_bind {A B} (m : M A) (k : A -> M B) (Q : outcome B -> St -> Prop) s :
  wp m (fun o s' => match o with
                    | Return a => wp (k a) Q s'
                    | Raise e => Q (Raise e) s'
                    end) s ->
  wp (bind m k) Q s.
Proof.
  intros (o & s' & Hm & H). unfold wp, bind. rewrite Hm.
  destruct o as [a | e].
  - exact H.
  - exists (Raise e), s'. split; [reflexivity | exact H].
Qed.

(** A step of the serial port or of the clock under [bind]: it is run
    by computation. *)
Ltac wp_prim := apply wp_bind; eexists _, _; split; [reflexivity | cbn beta iota].

Lemma wp_mono {A} (m : M A) (Q Q' : outcome A -> St -> Prop) s :
  wp m Q s -> (forall o s', Q o s' -> Q' o s') -> wp m Q' s.
Proof. intros (o & s' & Hm & H) HQ. exists o, s'. split; [exact Hm | apply HQ, H]. Qed.

Lemma wp_run {A} (m : M A) (Q : outcome A -> St -> Prop) s o s' :
  wp m Q s -> m s = Some (o, s') -> Q o s'.
Proof.
  intros (o1 & s1 & Hm & H) E. rewrite E in Hm. inversion Hm; subst. exact H.
Qed.

(** A loop ends when a measure of the state goes down at every turn
    and the bound is above it; [I] is the invariant. *)
Lemma wp_while {L A} (I : L -> St -> Prop) (mu : L -> St -> nat)
      (body : L -> M (L + A)) (Q : outcome A -> St -> Prop) :
  (forall l s, I l s ->
     wp (body l) (fun o s' => match o with
                              | Return (inl l') => I l' s' /\ (mu l' s' < mu l s)%nat
                              | Return (inr a) => Q (Return a) s'
                              | Raise e => Q (Raise e) s'
                              end) s) ->
  forall n l s, I l s -> (mu l s < n)%nat -> wp (while n body l) Q s.
Proof.
  intros Hbody n. induction n as [| n IH]; intros l s HI Hmu; [lia |].
  cbn [while]. apply wp_bind.
  eapply wp_mono; [apply Hbody, HI |].
  intros [[l' | a] | e] s' H; cbn in *.
  - destruct H as [HI' Hlt]. apply IH; [exact HI' | lia].
  - apply wp_ret, H.
  - exact H.
Qed.

Lemma wp_assert (b : bool) (Q : outcome unit -> St -> Prop) s :
  (b = true -> Q (Return tt) s) -> (b = false -> Q (Raise AssertionError) s) ->
  wp (assert b) Q s.
Proof.
  intros Ht Hf. destruct b; [apply wp_ret | apply wp_raise]; auto.
Qed.

Lemma wp_modify_self (f : asr6501 -> asr6501) (Q : outcome unit -> St -> Prop) s :
  Q (Return tt) (mkSt (f (self s)) (world s)) -> wp (modify_self f) Q s.
Proof. intros H. eexists _, _. split; [reflexivity | exact H]. Qed.

Lemma wp_get_self (Q : outcome asr6501 -> St -> Prop) s :
  Q (Return (self s)) s -> wp get_self Q s.
Proof. intros H. eexists _, _. split; [reflexivity | exact H]. Qed.

Lemma wp_get_world (Q : outcome World -> St -> Prop) s :
  Q (Return (world s)) s -> wp get_world Q s.
Proof. intros H. eexists _, _. split; [reflexivity | exact H]. Qed.

Lemma wp_try_except {A} (m : M A) (h : exn -> M A) (Q : outcome A -> St -> Prop) s :
  wp m (fun o s' => match o with
                    | Return a => Q (Return a) s'
                    | Raise e => if is_Exception e then wp (h e) Q s' else Q (Raise e) s'
                    end) s ->
  wp (try_except m h) Q s.
Proof.
  intros (o & s' & Hm & H). unfold wp, try_except. rewrite Hm.
  destruct o as [a | e].
  - exists (Return a), s'. split; [reflexivity | exact H].
  - destruct (is_Exception e).
    + exact H.
    + exists (Raise e), s'. split; [reflexivity | exact H].
Qed.

Lemma wp_finally_return {A B} (m : M A) (v : B) (Q : outcome B -> St -> Prop) s :
  wp m (fun _ s' => Q (Return v) s') s -> wp (finally_return m v) Q s.
Proof.
  intros (o & s' & Hm & H). unfold wp, finally_return. rewrite Hm.
  exists (Return v), s'. split; [reflexivity | exact H].
Qed.

(** ** The serial line and the clock *)

Lemma ready_bytes_nonneg t q : 0 <= ready_bytes t q.
Proof.
  induction q as [| [a l] q IH]; cbn; [lia |].
  destruct (a <=? t); lia.
Qed.

Lemma ready_bytes_pos t q :
  ready_bytes t q > 0 -> exists a l q', q = (a, l) :: q' /\ a <= t.
Proof.
  destruct q as [| [a l] q']; cbn; [lia |].
  destruct (a <=? t) eqn:E; [| lia].
  intros _. exists a, l, q'. split; [reflexivity | lia].
Qed.



Lemma drop_ready_Forall (P : Z * string -> Prop) t q :
  Forall P q -> Forall P (drop_ready t q).
Proof.
  induction 1 as [| [a l] q Hx Hq IH]; cbn; [constructor |].
  destruct (a <=? t); [exact IH | constructor; assumption].
Qed.

Section Primitives.

Variable env : Env.

Lemma wp_time_time (Q : outcome Z -> St -> Prop) s :
  Q (Return (now (world s))) (tock env s) -> wp (time_time env) Q s.
Proof. intros H. eexists _, _. split; [reflexivity | exact H]. Qed.

(** The usual poll: look at [in_waiting], read a line if there is one. *)
Lemma wp_poll {A} (k_line : string -> M A) (k_none : M A)
      (Q : outcome A -> St -> Prop) s :
  (forall a l q, rxq (world s) = (a, l) :: q -> a <= now (world s) ->
                 wp (k_line (l ++ String "010" "")) Q (pop_line s)) ->
  (ready_bytes (now (world s)) (rxq (world s)) = 0 -> wp k_none Q s) ->
  wp (n <- in_waiting ;; if n >? 0 then raw <- readline ;; k_line raw else k_none) Q s.
Proof.
  intros Hline Hnone. apply wp_bind.
  eexists _, _. split; [reflexivity |]. cbn beta iota.
  destruct (ready_bytes (now (world s)) (rxq (world s)) >? 0) eqn:E.
  - apply Z.gtb_lt in E.
    destruct (ready_bytes_pos (now (world s)) (rxq (world s))) as (a & l & q & Hq & Ha);
      [lia |].
    apply wp_bind. unfold wp at 1, readline. rewrite Hq.
    apply Z.leb_le in Ha. rewrite Ha.
    eexists _, _. split; [reflexivity |]. cbn beta iota.
    replace (mkSt _ _) with (pop_line s) by (unfold pop_line; rewrite Hq; reflexivity).
    apply (Hline a l q Hq). apply Z.leb_le, Ha.
  - apply Hnone. pose proof (ready_bytes_nonneg (now (world s)) (rxq (world s))).
    rewrite Z.gtb_ltb in E. apply Z.ltb_ge in E. lia.
Qed.

End Primitives.

(** ** What a transaction leaves alone *)

Lemma kept_refl s : kept s s.
Proof. repeat split. intros H. exact H. Qed.

Lemma kept_trans s1 s2 s3 : kept s1 s2 -> kept s2 s3 -> kept s1 s3.
Proof.
  unfold kept. intros (a1 & b1 & c1 & d1 & e1) (a2 & b2 & c2 & d2 & e2).
  repeat split; try congruence. intros H. apply e2, e1, H.
Qed.

Lemma kept_tock env s : kept s (tock env s).
Proof. repeat split. intros H. exact H. Qed.

Lemma kept_pop_line s : kept s (pop_line s).
Proof. repeat split. intros H. exact H. Qed.

(** Goals about a state reached by assignments to attributes. *)
Ltac framed :=
  repeat match goal with
         | |- kept ?s ?s => apply kept_refl
         | |- kept _ _ =>
             solve [unfold kept; cbn; repeat split;
                    solve [reflexivity | intros H; exact H | intros _; discriminate]]
         | |- value_or_Exception _ _ => unfold value_or_Exception
         | |- _ /\ _ => split
         | |- _ = _ => reflexivity
         | |- True => exact I
         end.

Lemma store_error_spec text s :
  wp (store_error text)
     (fun o s' => world s' = world s /\ kept s s' /\ value_or_Exception (fun _ => True) o) s.
Proof.
  unfold store_error.
  destruct (Py.split ":" 2 text) as [| a [| b [| c r]]];
    try (apply wp_raise; framed).
  apply wp_modify_self. framed.
Qed.

Lemma setCmd_line_spec rx s :
  wp (setCmd_line rx)
     (fun o s' => world s' = world s /\ kept s s'
                  /\ match o with
                     | Return (inl _) => True
                     | Return (inr b) => b = true
                     | Raise e => is_Exception e = true
                     end) s.
Proof.
  unfold setCmd_line.
  destruct (rx == "OK"); [apply wp_ret; framed |].
  destruct (Py.take 8 rx == "OK+SEND:"); [apply wp_ret; framed |].
  destruct (Py.take 11 rx == "+CME ERROR:"); [| apply wp_ret; framed].
  apply wp_bind. eapply wp_mono; [apply store_error_spec |].
  intros [[] | e] s' (Hw & Hk & Ho); cbn in *.
  - apply wp_raise. split; [exact Hw | split; [exact Hk | reflexivity]].
  - split; [exact Hw | split; [exact Hk | exact Ho]].
Qed.

Lemma inquire_line_spec l rx s :
  wp (inquire_line l rx)
     (fun o s' => world s' = world s /\ kept s s'
                  /\ match o with
                     | Return (inl _) => True
                     | Return (inr v) => v <> PyNone
                     | Raise e => is_Exception e = true
                     end) s.
Proof.
  unfold inquire_line.
  destruct (Py.take 3 rx == "AT+"); [apply wp_ret; framed |].
  destruct (rx == "+CRSSI:"); [apply wp_ret; framed |].
  destruct (rx == "OK").
  { destruct (doingRssiList l); [apply wp_ret; framed; discriminate |].
    destruct (kvp l) as [k |]; [| apply wp_raise; framed].
    destruct (reply_pat k); [apply wp_ret | apply wp_raise]; framed; discriminate. }
  destruct (Py.take 11 rx == "+CME ERROR:").
  { apply wp_bind. eapply wp_mono; [apply store_error_spec |].
    intros [[] | e] s' (Hw & Hk & Ho); cbn in *.
    - apply wp_raise. split; [exact Hw | split; [exact Hk | reflexivity]].
    - split; [exact Hw | split; [exact Hk | exact Ho]]. }
  destruct (doingRssiList l); apply wp_ret; framed.
Qed.

Section Transactions.

Variable env : Env.

Lemma setCmd_poll_spec start T s :
  wp (setCmd_poll env start T tt) (turn env (fun b => b = true) start T s) s.
Proof.
  unfold setCmd_poll, turn. apply wp_bind, wp_time_time.
  destruct (now (world s) - start >=? ticks env T) eqn:E.
  { apply wp_raise. framed. }
  rewrite Z.geb_leb in E. apply Z.leb_gt in E.
  apply wp_poll.
  - intros a l q Hq Ha. cbn zeta.
    destruct (Py.rstrip (l ++ String "010" "") == "");
      [apply wp_ret; framed; exact E |].
    destruct (Py.decode _) as [rx |]; [| apply wp_raise; framed].
    eapply wp_mono; [apply setCmd_line_spec |].
    intros o s' (Hw & Hk & Ho). rewrite Hw. split; [| split].
    + eapply kept_trans; [| exact Hk]. framed.
    + reflexivity.
    + destruct o as [[[] | b] | e]; auto.
  - intros _. apply wp_ret. framed. exact E.
Qed.

Lemma inquire_poll_spec start T l s :
  wp (inquire_poll env start T l) (turn env (fun v => v <> PyNone) start T s) s.
Proof.
  unfold inquire_poll, turn. apply wp_bind, wp_time_time.
  destruct (now (world s) - start >=? ticks env T) eqn:E.
  { apply wp_raise. framed. }
  rewrite Z.geb_leb in E. apply Z.leb_gt in E.
  apply wp_poll.
  - intros a l0 q Hq Ha. cbn zeta.
    destruct (Py.rstrip (l0 ++ String "010" "") == "");
      [apply wp_ret; framed; exact E |].
    destruct (Py.decode _) as [rx |]; [| apply wp_raise; framed].
    eapply wp_mono; [apply inquire_line_spec |].
    intros o s' (Hw & Hk & Ho). rewrite Hw. split; [| split].
    + eapply kept_trans; [| exact Hk]. framed.
    + reflexivity.
    + destruct o as [[l' | b] | e]; auto.
  - intros _. apply wp_ret. framed. exact E.
Qed.

(** A polling loop with a deadline ends: the time left goes down at
    every turn. *)
Lemma wp_deadline_loop {L A} (P : A -> Prop) (body : L -> M (L + A)) start T :
  (forall l s, wp (body l) (turn env P start T s) s) ->
  forall l s, start < now (world s) ->
    wp (while (polls env T) body l)
       (fun o s' => kept s s' /\ now (world s) < now (world s') /\ value_or_Exception P o) s.
Proof.
  intros Hbody l s Hs.
  apply (wp_while
           (fun _ s1 => kept s s1 /\ now (world s) <= now (world s1))
           (fun _ s1 => Z.to_nat (start + ticks env T - now (world s1)))).
  - intros l1 s1 (Hk & Hn). eapply wp_mono; [apply Hbody |].
    intros o s' (Hk' & Hn' & Ho). pose proof (Pos2Z.is_pos (tick env)).
    destruct o as [[l' | a] | e]; cbn.
    + split; [split |]; [eapply kept_trans; eassumption | lia | lia].
    + split; [| split]; [eapply kept_trans; eassumption | lia | exact Ho].
    + split; [| split]; [eapply kept_trans; eassumption | lia | exact Ho].
  - split; [apply kept_refl | lia].
  - unfold polls. lia.
Qed.

Theorem _setCmd_spec cmd T s :
  wp (_setCmd env cmd T)
     (fun o s' => kept s s' /\ now (world s) < now (world s')
                  /\ value_or_Exception (fun b => b = true) o) s.
Proof.
  unfold _setCmd, _clearLastError.
  apply wp_bind, wp_modify_self. apply wp_bind, wp_modify_self.
  wp_prim. wp_prim. apply wp_bind, wp_time_time.
  eapply wp_mono.
  - apply wp_deadline_loop with (P := fun b => b = true) (start := now (world s)).
    + intros []. apply setCmd_poll_spec.
    + cbn. pose proof (Pos2Z.is_pos (tick env)). lia.
  - cbn. intros o s' (Hk & Hn & Ho). split; [| split]; [| | exact Ho].
    + eapply kept_trans; [| exact Hk]. framed.
    + pose proof (Pos2Z.is_pos (tick env)). lia.
Qed.

Theorem _inquire_spec cmd T s :
  wp (_inquire env cmd T)
     (fun o s' => kept s s' /\ now (world s) < now (world s')
                  /\ value_or_Exception (fun v => v <> PyNone) o) s.
Proof.
  unfold _inquire, _clearLastError.
  apply wp_bind, wp_modify_self. apply wp_bind, wp_modify_self.
  wp_prim. wp_prim. apply wp_bind, wp_time_time.
  eapply wp_mono.
  - apply wp_deadline_loop with (P := fun v => v <> PyNone) (start := now (world s)).
    + intros l s1. apply inquire_poll_spec.
    + cbn. pose proof (Pos2Z.is_pos (tick env)). lia.
  - cbn. intros o s' (Hk & Hn & Ho). split; [| split]; [| | exact Ho].
    + eapply kept_trans; [| exact Hk]. framed.
    + pose proof (Pos2Z.is_pos (tick env)). lia.
Qed.

End Transactions.

(** ** The delayed replies *)

Lemma call_spec cb a b c d s :
  wp (call cb a b c d)
     (fun _ s' => now (world s') = now (world s) /\ rxq (world s') = rxq (world s)) s.
Proof.
  unfold wp, call. destruct (cb a b c d); eexists _, _; (split; [reflexivity |]); split; reflexivity.
Qed.

Lemma drain_line_spec rx s :
  wp (drain_line rx)
     (fun _ s' => now (world s') = now (world s) /\ rxq (world s') = rxq (world s)) s.
Proof.
  unfold drain_line.
  destruct (rx == "+CJOIN:OK").
  { apply wp_bind, wp_modify_self. apply wp_ret. split; reflexivity. }
  destruct (rx == "+CJOIN:FAIL").
  { apply wp_bind, wp_modify_self. apply wp_ret. split; reflexivity. }
  destruct (Py.take 8 rx == "OK+SENT:"); [apply wp_ret; split; reflexivity |].
  destruct (Py.take 8 rx == "OK+RECV:").
  { apply wp_bind, wp_get_self.
    destruct (downlinkCallback (self s)) as [cb |]; [| apply wp_ret; split; reflexivity].
    apply wp_bind, wp_modify_self.
    destruct (Py.split "," 4 (Py.drop 8 rx)) as [| a [| b [| c [| d [| e r]]]]];
      try (apply wp_raise; split; reflexivity).
    apply wp_bind. eapply wp_mono; [apply call_spec |].
    intros [[] | e] s' H; [apply wp_ret |]; exact H. }
  destruct (Py.take 8 rx == "OK+SEND:"); [apply wp_ret; split; reflexivity |].
  destruct (Py.take 9 rx == "ERR+SEND:").
  { apply wp_bind, wp_modify_self.
    destruct (Py.int (Py.drop 9 rx)); [| apply wp_raise; split; reflexivity].
    apply wp_bind, wp_modify_self. apply wp_raise. split; reflexivity. }
  destruct (Py.take 9 rx == "ERR+SENT:").
  { apply wp_bind, wp_modify_self.
    destruct (Py.int (Py.drop 9 rx)); [| apply wp_raise; split; reflexivity].
    apply wp_bind, wp_modify_self. apply wp_raise. split; reflexivity. }
  apply wp_ret. split; reflexivity.
Qed.

(** The drain ends, whatever is in the queue, and takes no time. *)
Theorem _getDelayedReplies_spec s :
  wp _getDelayedReplies (fun _ s' => now (world s') = now (world s)) s.
Proof.
  unfold _getDelayedReplies, _clearLastError.
  apply wp_bind, wp_modify_self. apply wp_bind, wp_get_world.
  apply (wp_while (fun (_ : unit) s1 => now (world s1) = now (world s))
                  (fun (_ : unit) s1 => List.length (rxq (world s1)))).
  - intros [] s1 Hn. apply wp_poll.
    + intros a l q Hq Ha. cbn zeta.
      destruct (Py.rstrip (l ++ String "010" "") == "").
      { apply wp_ret. cbn. rewrite Hq. cbn. split; [exact Hn | lia]. }
      destruct (Py.decode _) as [rx |]; [| apply wp_raise; exact Hn].
      eapply wp_mono; [apply drain_line_spec |].
      intros o s' (Hn' & Hq'). cbn in Hn', Hq'.
      destruct o as [[[] | []] | e]; try congruence.
      split; [congruence |]. rewrite Hq', Hq. cbn. lia.
    + intros _. apply wp_ret. exact Hn.
  - reflexivity.
  - cbn. lia.
Qed.

Section Uplink.

Variable env : Env.

Lemma _noneOrInt_spec v s :
  wp (_noneOrInt v) (fun o s' => s' = s /\ value_or_Exception (fun _ => True) o) s.
Proof.
  destruct v as [| n | t | l]; cbn.
  - apply wp_ret. split; [reflexivity | exact I].
  - apply wp_ret. split; [reflexivity | exact I].
  - destruct (Py.int t); [apply wp_ret | apply wp_raise]; split; reflexivity || exact I.
  - apply wp_raise. split; reflexivity.
Qed.

Lemma getRX1Delay_spec s :
  wp (getRX1Delay env)
     (fun o s' => kept s s' /\ now (world s) < now (world s')
                  /\ value_or_Exception (fun _ => True) o) s.
Proof.
  unfold getRX1Delay. apply wp_bind.
  eapply wp_mono; [apply _inquire_spec |].
  intros [v | e] s' (Hk & Hn & Ho); [| exact (conj Hk (conj Hn Ho))].
  eapply wp_mono; [apply _noneOrInt_spec |].
  intros o s'' (-> & Ho'). exact (conj Hk (conj Hn Ho')).
Qed.

Lemma send_wait_spec start delay s :
  wp (send_wait env start delay tt)
     (fun o s' => match o with
                  | Return (inl _) =>
                      now (world s') = now (world s) + Zpos (tick env)
                      /\ now (world s) - start <= ticks env delay
                  | _ => True
                  end) s.
Proof.
  unfold send_wait. apply wp_bind, wp_time_time.
  destruct (now (world s) - start <=? ticks env delay) eqn:E; [| apply wp_ret; exact I].
  apply Z.leb_le in E. apply wp_bind.
  eapply wp_mono; [apply _getDelayedReplies_spec |].
  intros [[] | e] s' Hn; [| exact I].
  apply wp_ret. split; [exact Hn | exact E].
Qed.

(** The [try] block of [sendPayload] always ends. *)
Lemma send_try_ends confirm nbtrials hexPayload s :
  wp (send_try env confirm nbtrials hexPayload) (fun _ _ => True) s.
Proof.
  unfold send_try. cbn zeta. apply wp_bind, wp_modify_self. apply wp_bind.
  eapply wp_mono; [apply _setCmd_spec |].
  intros [b | e] s1 _; [| exact I]. apply wp_bind.
  eapply wp_mono; [apply getRX1Delay_spec |].
  intros [d | e] s2 _; [| exact I]. apply wp_bind.
  destruct d as [d |]; [| apply wp_raise; exact I].
  apply wp_ret. apply wp_bind, wp_time_time. apply wp_bind.
  pose proof (Pos2Z.is_pos (tick env)) as Htick.
  apply (wp_while
           (fun (_ : unit) (_ : St) => True)
           (fun (_ : unit) s3 =>
              Z.to_nat (now (world s2) + ticks env (d + 2) + 1 - now (world s3)))).
  - intros [] s3 _. eapply wp_mono; [apply send_wait_spec |].
    intros [[[] | []] | e] s4 H; try exact I.
    + destruct H as [Hn Hle]. split; [exact I | lia].
    + apply wp_ret. exact I.
  - exact I.
  - unfold polls. cbn. lia.
Qed.

End Uplink.

(** ** The result of [sendPayload] *)


(** The success path: the modem accepts the uplink, the drain meets no
    error, the [try] block reaches its [return True], and the caller
    still gets [False]. *)
Example sendPayload_success_path :
  option_map fst (send_try accepting 0 8 (Py.hex "hi") power_on) = Some (Return (Some true))
  /\ option_map fst (sendPayload accepting (Some "hi") 0 8 power_on) = Some (Return false).
Proof. split; vm_compute; reflexivity. Qed.

(** ** Set commands *)

Lemma wp_True_or_raises (m : M bool) s :
  wp m (fun o _ => o = Return true \/ exists e, o = Raise e) s -> True_or_raises (m s).
Proof.
  intros (o & s' & E & [-> | [e ->]]); exists s'; [left | right; exists e]; exact E.
Qed.

Lemma _setCmd_True_or_raises env cmd T s :
  wp (_setCmd env cmd T) (fun o _ => o = Return true \/ exists e, o = Raise e) s.
Proof.
  eapply wp_mono; [apply _setCmd_spec |].
  intros [b | e] s' (_ & _ & Ho); cbn in Ho.
  - left. rewrite Ho. reflexivity.
  - right. exists e. reflexivity.
Qed.

Lemma checked_True_or_raises env (valid : bool) cmd T e s :
  wp (if valid then _setCmd env cmd T else raise e)
     (fun o _ => o = Return true \/ exists e, o = Raise e) s.
Proof.
  destruct valid; [apply _setCmd_True_or_raises |].
  apply wp_raise. right. exists e. reflexivity.
Qed.

Lemma guarded_True_or_raises (guard : M bool) (m : M bool) s :
  (forall s1, wp guard (fun o s' => s' = s1) s1) ->
  (forall s1, wp m (fun o _ => o = Return true \/ exists e, o = Raise e) s1) ->
  wp (ok <- guard ;; assert ok ;; m)
     (fun o _ => o = Return true \/ exists e, o = Raise e) s.
Proof.
  intros Hg Hm. apply wp_bind. eapply wp_mono; [apply Hg |].
  intros [ok | e] s' ->; [| right; exists e; reflexivity].
  apply wp_bind, wp_assert; intros _; [apply Hm |].
  right. exists AssertionError. reflexivity.
Qed.

(** C10.  [_setCmd] ends by returning [True] or by raising, whatever the
    command, the timeout and the modem; so do the setters that return
    its result, and the [return False] of [setJoinMode] is never
    reached. *)
Theorem setCmd_never_returns_False env cmd T mode baud level key s :
  True_or_raises (_setCmd env cmd T s)
  /\ True_or_raises (setJoinMode env mode s)
  /\ True_or_raises (setBaud env baud s)
  /\ True_or_raises (setLogLevel env level s)
  /\ True_or_raises (setDevAddr env key s)
  /\ True_or_raises (setNwkSKey env key s)
  /\ True_or_raises (setDevEui env key s)
  /\ True_or_raises (setAppEui env key s)
  /\ True_or_raises (setAppKey env key s)
  /\ True_or_raises (setAppSKey env key s).
Proof.
  assert (Hmode : forall m s1, wp (joinMode_is m) (fun _ s' => s' = s1) s1).
  { intros m s1. unfold joinMode_is. apply wp_bind, wp_get_self. apply wp_ret. reflexivity. }
  repeat match goal with |- _ /\ _ => split end;
    match goal with
    | |- True_or_raises (?m _) => apply (wp_True_or_raises (m := m))
    end.
  - apply _setCmd_True_or_raises.
  - unfold setJoinMode. apply wp_bind, wp_assert; intros _.
    + apply wp_bind. eapply wp_mono; [apply _setCmd_spec |].
      intros [b | e] s' (_ & _ & Ho); cbn in Ho.
      * subst b. apply wp_bind, wp_modify_self. apply wp_ret. left. reflexivity.
      * right. exists e. reflexivity.
    + right. exists AssertionError. reflexivity.
  - unfold setBaud. apply _setCmd_True_or_raises.
  - unfold setLogLevel. apply wp_bind, wp_assert; intros _.
    + apply _setCmd_True_or_raises.
    + right. exists AssertionError. reflexivity.
  - unfold setDevAddr. apply checked_True_or_raises.
  - unfold setNwkSKey. apply checked_True_or_raises.
  - unfold setDevEui.
    apply guarded_True_or_raises; [apply Hmode | intros; apply checked_True_or_raises].
  - unfold setAppEui.
    apply guarded_True_or_raises; [apply Hmode | intros; apply checked_True_or_raises].
  - unfold setAppKey.
    apply guarded_True_or_raises; [apply Hmode | intros; apply checked_True_or_raises].
  - unfold setAppSKey.
    apply guarded_True_or_raises; [apply Hmode | intros; apply checked_True_or_raises].
Qed.

(** ** Construction *)

(** The inquiry never returns [None]: the test of the constructor that
    raises ASRSerialError cannot succeed. *)
Lemma getManufId_never_returns_None env s v s' :
  getManufId env s = Some (Return v, s') -> v <> PyNone.
Proof.
  intros Hrun.
  pose proof (wp_run (_inquire_spec env "CGMI" 2 s) Hrun) as (_ & _ & Ho).
  exact Ho.
Qed.




(** ** Time-outs *)

(** C7.  When everything the channel yields during an inquiry is a
    command echo or a blank line, the inquiry raises ASRReceiveTimeout.
    The clock is compared with the timeout at every turn of the polling
    loop, so the exception comes with the first reading at which the
    timeout has elapsed: at least the timeout after the start, and no
    more than one step of the clock later. *)
Theorem inquire_times_out_on_echo env cmd T s :
  (forall sent, only_echo (device env sent)) ->
  only_echo (rxq (world s)) ->
  exists s',
    _inquire env cmd T s = Some (Raise ASRReceiveTimeout, s')
    /\ ticks env T <= elapsed env s s' <= Z.max 0 (ticks env T) + Zpos (tick env).
Proof.
  intros Hdev Hq. pose proof (Pos2Z.is_pos (tick env)) as Htick.
  assert (H : wp (_inquire env cmd T)
                 (fun o s' => o = Raise ASRReceiveTimeout
                              /\ ticks env T <= elapsed env s s'
                                 <= Z.max 0 (ticks env T) + Zpos (tick env)) s).
  { unfold _inquire, _clearLastError, elapsed.
    apply wp_bind, wp_modify_self. apply wp_bind, wp_modify_self.
    wp_prim. wp_prim. apply wp_bind, wp_time_time.
    cbn [world self now]. set (start := now (world s)).
    apply (wp_while
             (fun (_ : inquire_locals) s1 =>
                only_echo (rxq (world s1))
                /\ (now (world s1) - Zpos (tick env) - start < ticks env T
                    \/ now (world s1) = start + Zpos (tick env)))
             (fun (_ : inquire_locals) s1 =>
                Z.to_nat (start + ticks env T - now (world s1)))).
    - intros l s1 (HF & Hprev). unfold inquire_poll.
      apply wp_bind, wp_time_time.
      destruct (now (world s1) - start >=? ticks env T) eqn:E.
      { rewrite Z.geb_leb in E. apply Z.leb_le in E.
        apply wp_raise. split; [reflexivity |]. cbn. lia. }
      rewrite Z.geb_leb in E. apply Z.leb_gt in E.
      apply wp_poll.
      + intros a l0 q Hrx _. cbn zeta. cbn in Hrx.
        unfold only_echo in HF. rewrite Hrx in HF.
        inversion HF as [| ? ? Hsk HFq]; subst. cbn in Hsk.
        assert (Hnext : only_echo (rxq (world (pop_line (tock env s1))))
                        /\ (now (world (pop_line (tock env s1))) - Zpos (tick env) - start
                              < ticks env T
                            \/ now (world (pop_line (tock env s1))) = start + Zpos (tick env))).
        { cbn. rewrite Hrx. cbn. split; [exact HFq | left; lia]. }
        unfold skipped in Hsk. cbn zeta in Hsk.
        destruct (Py.rstrip (l0 ++ String "010" "") == "").
        { apply wp_ret. split; [exact Hnext | cbn; lia]. }
        rewrite orb_false_l in Hsk.
        destruct (Py.decode _) as [t |]; [| discriminate].
        unfold inquire_line. rewrite Hsk.
        apply wp_ret. split; [exact Hnext | cbn; lia].
      + intros _. apply wp_ret. cbn. split; [split; [exact HF | left; lia] | lia].
    - cbn. split; [| right; reflexivity].
      apply Forall_app. split.
      + apply drop_ready_Forall, Hq.
      + apply Forall_map. cbn. apply Hdev.
    - cbn. unfold polls. lia. }
  destruct H as (o & s' & E & -> & Ht). exists s'. split; assumption.
Qed.

Lemma inquire_times_out_on_echo_witness :
  exists s',
    _inquire echo_only "CGMI" 2 power_on = Some (Raise ASRReceiveTimeout, s')
    /\ 20 <= elapsed echo_only power_on s' <= 21.
Proof.
  apply (inquire_times_out_on_echo echo_only "CGMI" 2 power_on).
  - intros sent. unfold only_echo.
    change (device echo_only sent) with (scripted [("AT+CGMI?", ["AT+CGMI?"])] sent).
    unfold scripted, find.
    destruct (fst _ ++ CRLF == last sent ""); [vm_compute |]; repeat constructor.
  - constructor.
Defined.

(** ** Join *)


(** [join] always ends. *)
Lemma join_ends env start autojoin interval retries s :
  wp (join env start autojoin interval retries) (fun _ _ => True) s.
Proof.
  pose proof (Pos2Z.is_pos (tick env)) as Htick.
  unfold join.
  do 4 (apply wp_bind, wp_assert; [intros _ | intros _; exact I]).
  apply wp_bind, wp_get_self.
  destruct (joined (self s) && negb (start =? 0)); [apply wp_ret; exact I |].
  unfold _clearLastError. apply wp_bind, wp_modify_self. wp_prim. cbn zeta.
  apply wp_bind. eapply wp_mono; [apply _setCmd_spec |].
  intros [ok | e] s1 _; [| exact I].
  destruct (negb ok); [apply wp_ret; exact I |].
  apply wp_bind. eapply wp_mono; [apply getRX1Delay_spec |].
  intros [d | e] s2 _; [| exact I].
  apply wp_bind. destruct d as [d |]; [| apply wp_raise; exact I].
  apply wp_ret. apply wp_bind, wp_time_time. apply wp_bind.
  set (B := ticks env (retries * (d + 1))).
  apply (wp_while (fun (_ : unit) (_ : St) => True)
                  (fun (_ : unit) s3 => Z.to_nat (now (world s2) + B - now (world s3)))).
  - intros [] s3 _. unfold join_wait.
    apply wp_bind. eexists _, _. split; [reflexivity |]. cbn beta iota.
    destruct (_ =? 0).
    + apply wp_bind, wp_time_time. fold B.
      destruct (now (world s3) - now (world s2) >=? B) eqn:E; [apply wp_raise; exact I |].
      rewrite Z.geb_leb in E. apply Z.leb_gt in E.
      apply wp_ret. cbn. split; [exact I | lia].
    + apply wp_ret. apply wp_bind.
      eapply wp_mono; [apply _getDelayedReplies_spec |].
      intros [[] | e] s4 _; [| exact I].
      apply wp_bind, wp_get_self. apply wp_ret. exact I.
  - exact I.
  - cbn. unfold polls. fold B. lia.
Qed.



(** ** The last error *)

(** [_clearLastError] assigns [LastErrorType] and [LastErrorNum]; the
    attributes read by [getLastATError] are not touched. *)
Lemma _clearLastError_keeps_last_error s :
  exists s', _clearLastError s = Some (Return tt, s')
             /\ getLastATError (self s') = getLastATError (self s).
Proof. eexists. split; reflexivity. Qed.

Lemma getLastATError_None d : getLastATError d = None <-> lastErrorType d = PyNone.
Proof.
  unfold getLastATError. destruct (lastErrorType d); split; intros H;
    reflexivity || discriminate.
Qed.

(** Once an error is recorded, no later transaction makes
    [getLastATError] return [None] again, whatever the modem answers. *)
Lemma recorded_error_outlives_transactions env cmd T s :
  getLastATError (self s) <> None ->
  (forall o s', _inquire env cmd T s = Some (o, s') -> getLastATError (self s') <> None)
  /\ (forall o s', _setCmd env cmd T s = Some (o, s') -> getLastATError (self s') <> None).
Proof.
  intros H. rewrite getLastATError_None in H. split; intros o s' Hrun.
  - pose proof (wp_run (_inquire_spec env cmd T s) Hrun) as ((_ & _ & _ & _ & Hk) & _).
    rewrite getLastATError_None. apply Hk, H.
  - pose proof (wp_run (_setCmd_spec env cmd T s) Hrun) as ((_ & _ & _ & _ & Hk) & _).
    rewrite getLastATError_None. apply Hk, H.
Qed.

(** C2, at a failing input.  The modem rejects a first inquiry with
    +CME ERROR:1 and answers a second one.  After the second
    transaction, which met no error, [getLastATError] still reports the
    error of the first, now under the name of the second command. *)
Theorem last_error_survives_next_transaction :
  exists s1 s2,
    _inquire rejecting "CGMR" 2 power_on = Some (Raise ASRCMEError, s1)
    /\ _inquire rejecting "CGSN" 2 s1 = Some (Return (PyStr "0D39FFCD00031E43"), s2)
    /\ getLastATError (self s2)
       = Some (mkATError (PyStr "CGSN") (PyStr "+CME ERROR") (PyStr "1"))
    /\ getLastATError (self s2) <> None.
Proof.
  eexists. eexists.
  split; [vm_compute; reflexivity |].
  split; [vm_compute; reflexivity |].
  split; [vm_compute; reflexivity | discriminate].
Qed.

(** C6, at a failing input.  The inquiry that meets +CME ERROR:1 raises
    ASRCMEError and records the command and the kind, but the number it
    records is the text after the colon, not an integer; and a line
    with a second colon makes the unpacking of the split fail, so that
    ValueError is raised and nothing is recorded. *)
Theorem inquire_records_error_number_as_text :
  (exists s',
      _inquire rejecting "CGMR" 2 power_on = Some (Raise ASRCMEError, s')
      /\ getLastATError (self s')
         = Some (mkATError (PyStr "CGMR") (PyStr "+CME ERROR") (PyStr "1"))
      /\ option_map Num (getLastATError (self s')) <> Some (PyInt 1))
  /\ (exists s',
         _inquire rejecting "CGBR" 2 power_on = Some (Raise ValueError, s')
         /\ getLastATError (self s') = None).
Proof.
  split; eexists.
  - split; [vm_compute; reflexivity |].
    split; [vm_compute; reflexivity | vm_compute; discriminate].
  - split; vm_compute; reflexivity.
Qed.

(** The sibling path: the drain turns the number of ERR+SEND into an
    integer. *)
Example drain_records_error_number_as_integer :
  exists s',
    _getDelayedReplies (listening "ERR+SEND:3") = Some (Raise ASRERRSend, s')
    /\ lastErrorType (self s') = PyStr "ERR+SEND"
    /\ lastErrorNum (self s') = PyInt 3.
Proof. eexists. repeat split; vm_compute; reflexivity. Qed.

(** ** Key setters *)

(** What the validation does: an input that the pattern of the setter
    does not match is refused with the exception of the setter, and the
    state, with the bytes written so far, is as before. *)
Lemma key_setters_refuse_before_writing env key s :
  (hex16char key = false -> setDevAddr env key s = Some (Raise ASRInvalidDevAddr, s))
  /\ (hex32char key = false -> setNwkSKey env key s = Some (Raise ASRInvalidNwkSKey, s))
  /\ (hex16char key = false -> joinMode (self s) = PyInt OTAA ->
      setDevEui env key s = Some (Raise ASRInvalidDevEui, s)
      /\ setAppEui env key s = Some (Raise ASRInvalidAppEui, s))
  /\ (hex32char key = false -> joinMode (self s) = PyInt OTAA ->
      setAppKey env key s = Some (Raise ASRInvalidAppKey, s))
  /\ (hex32char key = false -> joinMode (self s) = PyInt ABP ->
      setAppSKey env key s = Some (Raise ASRInvalidAppSKey, s)).
Proof.
  unfold setDevAddr, setNwkSKey, setDevEui, setAppEui, setAppKey, setAppSKey, joinMode_is.
  repeat match goal with
         | |- _ /\ _ => split
         | |- _ -> _ => intro
         end;
    unfold bind, get_self, ret, assert;
    repeat match goal with H : _ = _ |- _ => rewrite H; clear H end;
    reflexivity.
Qed.

(** C3, at a failing input.  A string of sixteen hexadecimal characters
    is not a DevAddr of eight, yet [setDevAddr] checks it against the
    sixteen-character pattern and sends it; the eight-character address
    is the one it refuses. *)
Theorem setDevAddr_checks_sixteen_characters :
  hex8char "0011223344556677" = false
  /\ (exists s',
         setDevAddr accepting "0011223344556677" power_on = Some (Return true, s')
         /\ written (world s') = ["AT+CDEVADDR=0011223344556677" ++ CRLF])
  /\ hex8char "0123ABCD" = true
  /\ setDevAddr accepting "0123ABCD" power_on = Some (Raise ASRInvalidDevAddr, power_on).
Proof.
  split; [reflexivity |]. split; [| split; reflexivity].
  eexists. split; vm_compute; reflexivity.
Qed.

(** ** Downlinks *)

(** The explicit poll splits in the same way. *)
Example checkForDownlink_payload_with_comma :
  (exists s',
      checkForDownlink (listening "OK+RECV:1,2,4,deadbeef") = Some (Return tt, s')
      /\ calls (world s') = [("1", "2", "4", "deadbeef")])
  /\ option_map fst (checkForDownlink (listening "OK+RECV:1,2,4,dead,beef"))
     = Some (Raise ValueError)
  /\ option_map fst (setDownlinkCallback (Some accept_downlink) power_on)
     = Some (Return true).
Proof.
  split; [eexists; split; vm_compute; reflexivity |].
  split; vm_compute; reflexivity.
Qed.

(** C4, at a failing input.  The notice with a payload free of commas
    reaches the handler once, with its four fields.  With a comma in
    the payload the split gives five pieces, the unpacking into four
    names raises ValueError, and the handler is not called. *)
Theorem downlink_payload_with_comma_raises :
  (exists s',
      _getDelayedReplies (listening "OK+RECV:1,2,4,deadbeef") = Some (Return tt, s')
      /\ calls (world s') = [("1", "2", "4", "deadbeef")])
  /\ (exists s',
         _getDelayedReplies (listening "OK+RECV:1,2,4,dead,beef") = Some (Raise ValueError, s')
         /\ calls (world s') = []).
Proof. split; eexists; split; vm_compute; reflexivity. Qed.

(** The end anchor of the key patterns: a key followed by one newline
    passes the validation and is sent with it. *)
Example key_with_final_newline_is_accepted :
  hex16char ("0011223344556677" ++ String "010" "") = true
  /\ option_map fst (setDevAddr accepting ("0011223344556677" ++ String "010" "") power_on)
     = Some (Raise ASRReceiveTimeout).
Proof. split; vm_compute; reflexivity. Qed.

(** * Further properties *)

(** ** Turns of a loop *)

Lemma while_continue {L A} n (body : L -> M (L + A)) l l' s s' :
  body l s = Some (Return (inl l'), s') -> while (S n) body l s = while n body l' s'.
Proof. intros H. cbn [while]. unfold bind. rewrite H. reflexivity. Qed.

Lemma while_leave {L A} n (body : L -> M (L + A)) l a s s' :
  body l s = Some (Return (inr a), s') -> while (S n) body l s = Some (Return a, s').
Proof. intros H. cbn [while]. unfold bind. rewrite H. reflexivity. Qed.

Lemma while_raise {L A} n (body : L -> M (L + A)) l e s s' :
  body l s = Some (Raise e, s') -> while (S n) body l s = Some (Raise e, s').
Proof. intros H. cbn [while]. unfold bind. rewrite H. reflexivity. Qed.

Lemma ready_bytes_head t a x q : a <= t -> (ready_bytes t ((a, x) :: q) >? 0) = true.
Proof.
  intros Ha. cbn [ready_bytes]. apply Z.leb_le in Ha. rewrite Ha.
  pose proof (ready_bytes_nonneg t q). apply Z.gtb_lt. lia.
Qed.

Section Turns.

Variable env : Env.

(** A turn of the loop of [_setCmd] that finds a line. *)
Lemma setCmd_poll_reads start T d t a x q w c :
  a <= t + Zpos (tick env) -> t - start < ticks env T ->
  setCmd_poll env start T tt (mkSt d (mkWorld t ((a, x) :: q) w c))
  = (if text_of x == "" then continue tt
     else match Py.decode (text_of x) with
          | Some r => setCmd_line r
          | None => raise UnicodeDecodeError
          end) (mkSt d (mkWorld (t + Zpos (tick env)) q w c)).
Proof.
  intros Ha Ht. unfold setCmd_poll, bind, time_time, in_waiting, readline.
  cbn [world self now rxq written calls].
  assert (E : (t - start >=? ticks env T) = false).
  { rewrite Z.geb_leb. apply Z.leb_gt. exact Ht. }
  rewrite E. cbn [world self now rxq written calls].
  rewrite (ready_bytes_head x q Ha). cbn [world self now rxq written calls].
  apply Z.leb_le in Ha. rewrite Ha. reflexivity.
Qed.

Lemma inquire_poll_reads start T l d t a x q w c :
  a <= t + Zpos (tick env) -> t - start < ticks env T ->
  inquire_poll env start T l (mkSt d (mkWorld t ((a, x) :: q) w c))
  = (if text_of x == "" then continue l
     else match Py.decode (text_of x) with
          | Some r => inquire_line l r
          | None => raise UnicodeDecodeError
          end) (mkSt d (mkWorld (t + Zpos (tick env)) q w c)).
Proof.
  intros Ha Ht. unfold inquire_poll, bind, time_time, in_waiting, readline.
  cbn [world self now rxq written calls].
  assert (E : (t - start >=? ticks env T) = false).
  { rewrite Z.geb_leb. apply Z.leb_gt. exact Ht. }
  rewrite E. cbn [world self now rxq written calls].
  rewrite (ready_bytes_head x q Ha). cbn [world self now rxq written calls].
  apply Z.leb_le in Ha. rewrite Ha. reflexivity.
Qed.

End Turns.

(** ** Set commands that are acknowledged *)

Lemma decode_text r : Py.utf8_valid [] r = true -> Py.decode r = Some r.
Proof. intros H. unfold Py.decode. rewrite H. reflexivity. Qed.

Lemma passed_line_continues x s :
  passed_by_setCmd x = true ->
  (if text_of x == "" then continue tt
   else match Py.decode (text_of x) with
        | Some r => setCmd_line r
        | None => raise UnicodeDecodeError
        end) s = Some (Return (inl tt), s).
Proof.
  unfold passed_by_setCmd. cbn zeta.
  destruct (text_of x == ""); [reflexivity |]. cbn [orb]. intros H.
  apply andb_prop in H. destruct H as [H H3].
  apply andb_prop in H. destruct H as [H H2].
  apply andb_prop in H. destruct H as [H0 H1].
  rewrite (decode_text _ H0). unfold setCmd_line.
  apply negb_true_iff in H1, H2, H3. rewrite H1, H2, H3. reflexivity.
Qed.

Lemma acknowledging_line_leaves x s :
  acknowledges x = true ->
  (if text_of x == "" then continue tt
   else match Py.decode (text_of x) with
        | Some r => setCmd_line r
        | None => raise UnicodeDecodeError
        end) s = Some (Return (inr true), s).
Proof.
  unfold acknowledges, is_text. cbn zeta. intros H.
  apply andb_prop in H. destruct H as [H H1].
  apply andb_prop in H. destruct H as [Hb H0].
  apply negb_true_iff in Hb. rewrite Hb, (decode_text _ H0). unfold setCmd_line.
  destruct (text_of x == "OK"); [reflexivity |].
  cbn [orb] in H1. rewrite H1. reflexivity.
Qed.

Section Acknowledged.

Variable env : Env.

Lemma setCmd_loop_passes start T d w c pre :
  forall n t q,
    Forall (fun al => fst al <= t /\ passed_by_setCmd (snd al) = true) pre ->
    t - start + Z.of_nat (List.length pre) * Zpos (tick env) <= ticks env T ->
    while (List.length pre + n) (setCmd_poll env start T) tt
          (mkSt d (mkWorld t (pre ++ q) w c))
    = while n (setCmd_poll env start T) tt
            (mkSt d (mkWorld (t + Z.of_nat (List.length pre) * Zpos (tick env)) q w c)).
Proof.
  pose proof (Pos2Z.is_pos (tick env)) as Htick.
  induction pre as [| [a x] pre IH]; intros n t q HF Ht.
  - cbn [List.length Z.of_nat app plus]. rewrite Z.mul_0_l, Z.add_0_r. reflexivity.
  - inversion HF as [| ? ? [Ha Hx] HF']; subst. cbn [fst snd] in Ha, Hx.
    cbn [List.length app plus].
    rewrite while_continue
      with (l' := tt) (s' := mkSt d (mkWorld (t + Zpos (tick env)) (pre ++ q) w c)).
    + rewrite IH.
      * replace (t + Z.pos (tick env) + Z.of_nat (List.length pre) * Z.pos (tick env))
          with (t + Z.of_nat (S (List.length pre)) * Z.pos (tick env)) by lia.
        reflexivity.
      * eapply Forall_impl; [| exact HF']. cbn. intros al [H1 H2]. split; [lia | exact H2].
      * cbn [List.length] in Ht. lia.
    + rewrite setCmd_poll_reads; [apply passed_line_continues, Hx | lia |].
      cbn [List.length] in Ht. lia.
Qed.

Lemma _setCmd_acknowledged cmd T s pre ok rest :
  nothing_on_its_way s ->
  device env (written (world s) ++ [command cmd]) = at_once (pre ++ ok :: rest) ->
  Forall (fun x => passed_by_setCmd x = true) pre ->
  acknowledges ok = true ->
  Z.of_nat (List.length pre + 1) * Zpos (tick env) < ticks env T ->
  _setCmd env cmd T s
  = Some (Return true, answered env cmd (command cmd) (S (List.length pre)) rest s).
Proof.
  intros Hway Hdev Hpre Hok Ht.
  pose proof (Pos2Z.is_pos (tick env)) as Htick.
  unfold _setCmd, _clearLastError.
  unfold bind at 1 2 3 4 5, modify_self, reset_input_buffer, serial_write, time_time.
  cbn [self world now rxq written calls].
  unfold nothing_on_its_way in Hway. rewrite Hway. fold (command cmd). rewrite Hdev.
  unfold at_once. rewrite map_map, map_app. cbn [app map fst snd].
  set (t0 := now (world s)) in *.
  replace (polls env T)
    with (List.length (map (fun x : string => ((t0 + 0)%Z, x)) pre)
          + S (Z.to_nat (ticks env T) - List.length pre))%nat
    by (rewrite length_map; unfold polls; nia).
  rewrite setCmd_loop_passes.
  - rewrite length_map.
    rewrite while_leave
      with (a := true) (s' := answered env cmd (command cmd) (S (List.length pre)) rest s);
      [reflexivity |].
    rewrite setCmd_poll_reads; [| lia | nia].
    rewrite (acknowledging_line_leaves _ _ Hok).
    unfold answered. fold t0.
    replace (t0 + Z.of_nat (S (S (List.length pre))) * Z.pos (tick env))
      with (t0 + Z.pos (tick env) + Z.of_nat (List.length pre) * Z.pos (tick env)
            + Z.pos (tick env)) by lia.
    reflexivity.
  - apply Forall_forall. intros al Hin. apply in_map_iff in Hin.
    destruct Hin as (x & <- & Hin). cbn [fst snd]. split; [lia |].
    rewrite Forall_forall in Hpre. apply Hpre, Hin.
  - rewrite length_map. nia.
Qed.

End Acknowledged.

(** ** Inquiries that are answered *)

Lemma skipped_line_continues l x s :
  skipped x = true ->
  (if text_of x == "" then continue l
   else match Py.decode (text_of x) with
        | Some r => inquire_line l r
        | None => raise UnicodeDecodeError
        end) s = Some (Return (inl l), s).
Proof.
  unfold skipped. fold (text_of x). cbn zeta.
  destruct (text_of x == ""); [reflexivity |]. cbn [orb].
  destruct (Py.decode (text_of x)) as [r |]; [| discriminate].
  intros H. unfold inquire_line. rewrite H. reflexivity.
Qed.

Lemma plain_line_continues l x s :
  is_text (text_of x) = true -> plain (text_of x) = true ->
  (if text_of x == "" then continue l
   else match Py.decode (text_of x) with
        | Some r => inquire_line l r
        | None => raise UnicodeDecodeError
        end) s
  = Some (Return (inl (if doingRssiList l
                       then mkLocals (rssiData l ++ [text_of x]) (kvp l) (doingRssiList l)
                       else mkLocals (rssiData l) (Some (text_of x)) (doingRssiList l))), s).
Proof.
  unfold is_text, plain. intros Ht Hp.
  apply andb_prop in Ht. destruct Ht as [Hb Hv]. apply negb_true_iff in Hb.
  apply andb_prop in Hp. destruct Hp as [Hp H4].
  apply andb_prop in Hp. destruct Hp as [Hp H3].
  apply andb_prop in Hp. destruct Hp as [H1 H2].
  apply negb_true_iff in H1, H2, H3, H4.
  rewrite Hb, (decode_text _ Hv). unfold inquire_line. rewrite H1, H2, H3, H4.
  destruct (doingRssiList l); reflexivity.
Qed.

Lemma header_line_continues l x s :
  text_of x = "+CRSSI:" ->
  (if text_of x == "" then continue l
   else match Py.decode (text_of x) with
        | Some r => inquire_line l r
        | None => raise UnicodeDecodeError
        end) s
  = Some (Return (inl (mkLocals (rssiData l) (kvp l) true)), s).
Proof. intros ->. reflexivity. Qed.

Lemma OK_line_leaves l x s :
  text_of x = "OK" ->
  (if text_of x == "" then continue l
   else match Py.decode (text_of x) with
        | Some r => inquire_line l r
        | None => raise UnicodeDecodeError
        end) s
  = (if doingRssiList l then leave (PyList (rssiData l))
     else match kvp l with
          | None => raise TypeError
          | Some k => match reply_pat k with
                      | Some v => leave (PyStr v)
                      | None => raise ASRPatternMatchFailed
                      end
          end) s.
Proof. intros ->. reflexivity. Qed.

Section Answered.

Variable env : Env.

(** A run of lines that the loop of [_inquire] reads without leaving:
    [step] tells what each does to the local variables that satisfy
    [Inv]. *)
Lemma inquire_loop_runs (P : string -> Prop) (Inv : inquire_locals -> Prop)
      (step : inquire_locals -> string -> inquire_locals) start T d w c :
  (forall l x s, Inv l -> P x ->
     (if text_of x == "" then continue l
      else match Py.decode (text_of x) with
           | Some r => inquire_line l r
           | None => raise UnicodeDecodeError
           end) s = Some (Return (inl (step l x)), s)
     /\ Inv (step l x)) ->
  forall xs n t q l,
    Inv l ->
    Forall (fun al => fst al <= t /\ P (snd al)) xs ->
    t - start + Z.of_nat (List.length xs) * Zpos (tick env) <= ticks env T ->
    while (List.length xs + n) (inquire_poll env start T) l
          (mkSt d (mkWorld t (xs ++ q) w c))
    = while n (inquire_poll env start T) (fold_left step (map snd xs) l)
            (mkSt d (mkWorld (t + Z.of_nat (List.length xs) * Zpos (tick env)) q w c))
    /\ Inv (fold_left step (map snd xs) l).
Proof.
  intros Hstep. pose proof (Pos2Z.is_pos (tick env)) as Htick.
  induction xs as [| [a x] xs IH]; intros n t q l HI HF Ht.
  - cbn [List.length Z.of_nat app plus map fold_left].
    rewrite Z.mul_0_l, Z.add_0_r. split; [reflexivity | exact HI].
  - inversion HF as [| ? ? [Ha Hx] HF']; subst. cbn [fst snd] in Ha, Hx.
    cbn [List.length app plus map fold_left snd].
    destruct (Hstep l x (mkSt d (mkWorld (t + Zpos (tick env)) (xs ++ q) w c)) HI Hx)
      as [Hrun HI'].
    rewrite while_continue
      with (l' := step l x) (s' := mkSt d (mkWorld (t + Zpos (tick env)) (xs ++ q) w c)).
    + destruct (IH n (t + Zpos (tick env)) q (step l x)) as [E HI'']; [exact HI' | | |].
      * eapply Forall_impl; [| exact HF']. cbn. intros al [H1 H2]. split; [lia | exact H2].
      * cbn [List.length] in Ht. lia.
      * rewrite E. split; [| exact HI''].
        replace (t + Z.pos (tick env) + Z.of_nat (List.length xs) * Z.pos (tick env))
          with (t + Z.of_nat (S (List.length xs)) * Z.pos (tick env)) by lia.
        reflexivity.
    + rewrite inquire_poll_reads; [exact Hrun | lia |].
      cbn [List.length] in Ht. lia.
Qed.

Lemma fold_left_same {A B} (l : A) (xs : list B) : fold_left (fun l _ => l) xs l = l.
Proof. induction xs; [reflexivity | exact IHxs]. Qed.

(** The state before the first turn of the loop of a transaction whose
    answer comes at once. *)
Lemma inquire_starts cmd T s lines :
  nothing_on_its_way s ->
  device env (written (world s) ++ [inquiry cmd]) = at_once lines ->
  _inquire env cmd T s
  = while (polls env T) (inquire_poll env (now (world s)) T) (mkLocals [] None false)
          (mkSt (set_lastATCmd (PyStr cmd)
                   (set_LastErrorNum PyNone (set_LastErrorType PyNone (self s))))
                (mkWorld (now (world s) + Zpos (tick env))
                         (map (fun x => (now (world s) + 0, x)) lines)
                         (written (world s) ++ [inquiry cmd])%list
                         (calls (world s)))).
Proof.
  intros Hway Hdev. unfold _inquire, _clearLastError.
  unfold bind at 1 2 3 4 5, modify_self, reset_input_buffer, serial_write, time_time.
  cbn [self world now rxq written calls].
  unfold nothing_on_its_way in Hway. rewrite Hway.
  change ("AT+" ++ cmd ++ "?" ++ CRLF) with (inquiry cmd). rewrite Hdev.
  unfold at_once. rewrite map_map. reflexivity.
Qed.

End Answered.

Section Values.

Variable env : Env.

(** Echoes or blank lines, a line of data, OK: the value is returned
    and the rest of the answer stays in the queue. *)
Lemma _inquire_answered_value cmd T s pre kv ok rest v :
  nothing_on_its_way s ->
  device env (written (world s) ++ [inquiry cmd]) = at_once (pre ++ kv :: ok :: rest) ->
  Forall (fun x => skipped x = true) pre ->
  is_text (text_of kv) = true -> plain (text_of kv) = true ->
  text_of ok = "OK" ->
  reply_pat (text_of kv) = Some v ->
  Z.of_nat (List.length pre + 2) * Zpos (tick env) < ticks env T ->
  _inquire env cmd T s
  = Some (Return (PyStr v), answered env cmd (inquiry cmd) (List.length pre + 2) rest s).
Proof.
  intros Hway Hdev Hpre Hkv Hplain Hok Hv Ht.
  pose proof (Pos2Z.is_pos (tick env)) as Htick.
  rewrite (@inquire_starts env cmd T s _ Hway Hdev).
  set (t0 := now (world s)) in *. rewrite map_app. cbn [map].
  set (d := set_lastATCmd _ _). set (w := (written (world s) ++ _)%list).
  replace (polls env T)
    with (List.length (map (fun x : string => ((t0 + 0)%Z, x)) pre)
          + S (S (Z.to_nat (ticks env T) - List.length pre - 1)))%nat
    by (rewrite length_map; unfold polls; nia).
  destruct (@inquire_loop_runs env (fun x => skipped x = true) (fun _ => True) (fun l _ => l)
              t0 T d w (calls (world s))
              (fun l x s0 _ Hx => conj (@skipped_line_continues l x s0 Hx) I)
              (map (fun x : string => ((t0 + 0)%Z, x)) pre)
              (S (S (Z.to_nat (ticks env T) - List.length pre - 1)))
              (t0 + Zpos (tick env))
              ((t0 + 0, kv) :: (t0 + 0, ok) :: map (fun x : string => ((t0 + 0)%Z, x)) rest)
              (mkLocals [] None false) I) as [E _].
  { apply Forall_forall. intros al Hin. apply in_map_iff in Hin.
    destruct Hin as (x & <- & Hin). cbn [fst snd]. split; [lia |].
    rewrite Forall_forall in Hpre. apply Hpre, Hin. }
  { rewrite length_map. nia. }
  rewrite E, fold_left_same, length_map. clear E.
  set (t1 := t0 + Z.pos (tick env) + Z.of_nat (List.length pre) * Z.pos (tick env)).
  rewrite while_continue
    with (l' := mkLocals [] (Some (text_of kv)) false)
         (s' := mkSt d (mkWorld (t1 + Zpos (tick env))
                                ((t0 + 0, ok) :: map (fun x : string => ((t0 + 0)%Z, x)) rest)
                                w (calls (world s)))).
  2: { rewrite inquire_poll_reads; [| unfold t1; lia | unfold t1; nia].
       rewrite (@plain_line_continues _ _ _ Hkv Hplain). reflexivity. }
  rewrite while_leave
    with (a := PyStr v)
         (s' := answered env cmd (inquiry cmd) (List.length pre + 2) rest s);
    [reflexivity |].
  rewrite inquire_poll_reads; [| unfold t1; lia | unfold t1; nia].
  rewrite (@OK_line_leaves _ _ _ Hok). cbn [doingRssiList kvp]. rewrite Hv.
  unfold leave, ret, answered. fold t0. fold d. fold w.
  replace (t0 + Z.of_nat (S (List.length pre + 2)) * Z.pos (tick env))
    with (t1 + Z.pos (tick env) + Z.pos (tick env)) by (unfold t1; lia).
  reflexivity.
Qed.

End Values.

Lemma fold_left_collects (xs : list string) :
  forall l,
    doingRssiList l = true ->
    fold_left (fun l x => mkLocals (rssiData l ++ [text_of x]) (kvp l) (doingRssiList l))
              xs l
    = mkLocals (rssiData l ++ map text_of xs) (kvp l) true.
Proof.
  induction xs as [| x xs IH]; intros l Hl; cbn [fold_left map].
  - rewrite app_nil_r, <- Hl. destruct l; reflexivity.
  - rewrite IH by exact Hl. cbn [rssiData kvp doingRssiList].
    rewrite <- app_assoc. reflexivity.
Qed.

Lemma CME_line_raises_in_inquire l x n s :
  text_of x = "+CME ERROR:" ++ n -> Py.utf8_valid [] (text_of x) = true ->
  Py.cut ":" n = None ->
  (if text_of x == "" then continue l
   else match Py.decode (text_of x) with
        | Some r => inquire_line l r
        | None => raise UnicodeDecodeError
        end) s
  = Some (Raise ASRCMEError, with_error "+CME ERROR" n s).
Proof.
  intros Hx Hv Hn. rewrite (decode_text _ Hv), Hx.
  cbn -[inquire_line]. unfold inquire_line, store_error. cbn. rewrite Hn. reflexivity.
Qed.

Lemma CME_line_raises_in_setCmd x n s :
  text_of x = "+CME ERROR:" ++ n -> Py.utf8_valid [] (text_of x) = true ->
  Py.cut ":" n = None ->
  (if text_of x == "" then continue tt
   else match Py.decode (text_of x) with
        | Some r => setCmd_line r
        | None => raise UnicodeDecodeError
        end) s
  = Some (Raise ASRCMEError, with_error "+CME ERROR" n s).
Proof.
  intros Hx Hv Hn. rewrite (decode_text _ Hv), Hx.
  cbn -[setCmd_line]. unfold setCmd_line, store_error. cbn. rewrite Hn. reflexivity.
Qed.

Section MoreAnswers.

Variable env : Env.

Lemma ready_run (P : string -> Prop) (t0 t : Z) (xs : list string) :
  t0 + 0 <= t -> Forall P xs ->
  Forall (fun al => fst al <= t /\ P (snd al)) (map (fun x : string => ((t0 + 0)%Z, x)) xs).
Proof.
  intros Ht HF. apply Forall_forall. intros al Hin. apply in_map_iff in Hin.
  destruct Hin as (x & <- & Hin). cbn [fst snd]. split; [exact Ht |].
  rewrite Forall_forall in HF. apply HF, Hin.
Qed.

(** Echoes or blank lines, the RSSI header, lines of data, OK: the
    lines of data are returned, stripped, in their order. *)
Lemma _inquire_answered_list cmd T s pre header data ok rest :
  nothing_on_its_way s ->
  device env (written (world s) ++ [inquiry cmd])
  = at_once (pre ++ header :: data ++ ok :: rest) ->
  Forall (fun x => skipped x = true) pre ->
  text_of header = "+CRSSI:" ->
  Forall (fun x => is_text (text_of x) = true /\ plain (text_of x) = true) data ->
  text_of ok = "OK" ->
  Z.of_nat (List.length pre + List.length data + 2) * Zpos (tick env) < ticks env T ->
  _inquire env cmd T s
  = Some (Return (PyList (map text_of data)),
          answered env cmd (inquiry cmd) (List.length pre + List.length data + 2) rest s).
Proof.
  intros Hway Hdev Hpre Hhead Hdata Hok Ht.
  pose proof (Pos2Z.is_pos (tick env)) as Htick.
  assert (HP : 0 <= Z.of_nat (List.length pre) * Zpos (tick env)) by nia.
  assert (HD : 0 <= Z.of_nat (List.length data) * Zpos (tick env)) by nia.
  assert (Ht' : Z.of_nat (List.length pre) * Zpos (tick env)
                + Z.of_nat (List.length data) * Zpos (tick env)
                + 2 * Zpos (tick env) < ticks env T) by nia.
  rewrite (@inquire_starts env cmd T s _ Hway Hdev).
  set (t0 := now (world s)) in *. rewrite map_app. cbn [map]. rewrite map_app. cbn [map].
  set (d := set_lastATCmd _ _). set (w := (written (world s) ++ _)%list).
  set (at0 := fun x : string => ((t0 + 0)%Z, x)).
  change (at0 header) with ((t0 + 0)%Z, header). change (at0 ok) with ((t0 + 0)%Z, ok).
  set (m := (Z.to_nat (ticks env T) - List.length pre - List.length data - 1)%nat).
  replace (polls env T)
    with (List.length (map at0 pre) + S (List.length (map at0 data) + S m))%nat
    by (rewrite !length_map; unfold polls, m; nia).
  destruct (@inquire_loop_runs env (fun x => skipped x = true) (fun _ => True) (fun l _ => l)
              t0 T d w (calls (world s))
              (fun l x s0 _ Hx => conj (@skipped_line_continues l x s0 Hx) I)
              (map at0 pre) (S (List.length (map at0 data) + S m))
              (t0 + Zpos (tick env))
              ((t0 + 0, header) :: map at0 data ++ (t0 + 0, ok) :: map at0 rest)
              (mkLocals [] None false) I) as [E _].
  { apply (@ready_run (fun x => skipped x = true) t0 _ pre); [lia | exact Hpre]. }
  { rewrite length_map. nia. }
  rewrite E, fold_left_same, !length_map. clear E.
  set (t1 := t0 + Z.pos (tick env) + Z.of_nat (List.length pre) * Z.pos (tick env)).
  rewrite while_continue
    with (l' := mkLocals [] None true)
         (s' := mkSt d (mkWorld (t1 + Zpos (tick env))
                                (map at0 data ++ (t0 + 0, ok) :: map at0 rest)
                                w (calls (world s)))).
  2: { rewrite inquire_poll_reads; [| unfold t1; lia | unfold t1; lia].
       rewrite (@header_line_continues _ _ _ Hhead). reflexivity. }
  destruct (@inquire_loop_runs env
              (fun x => is_text (text_of x) = true /\ plain (text_of x) = true)
              (fun l => doingRssiList l = true)
              (fun l x => mkLocals (rssiData l ++ [text_of x]) (kvp l) (doingRssiList l))
              t0 T d w (calls (world s))) with
      (xs := map at0 data) (n := S m) (t := t1 + Zpos (tick env))
      (q := (t0 + 0, ok) :: map at0 rest) (l := mkLocals [] None true) as [E _].
  { intros l x s0 Hl [Hx1 Hx2]. rewrite (@plain_line_continues l x s0 Hx1 Hx2), Hl.
    split; first [reflexivity | exact Hl]. }
  { reflexivity. }
  { apply (@ready_run (fun x => is_text (text_of x) = true /\ plain (text_of x) = true) t0 _ data);
    [unfold t1; lia | exact Hdata]. }
  { rewrite ?length_map. unfold t1. lia. }
  rewrite ?length_map in E. rewrite E. clear E. rewrite map_map. cbn [snd].
  rewrite fold_left_collects by reflexivity. cbn [rssiData kvp app].
  rewrite while_leave
    with (a := PyList (map text_of data))
         (s' := answered env cmd (inquiry cmd)
                         (List.length pre + List.length data + 2) rest s);
    [reflexivity |].
  rewrite inquire_poll_reads; [| unfold t1; lia | unfold t1; lia].
  rewrite (@OK_line_leaves _ _ _ Hok). cbn [doingRssiList rssiData].
  unfold leave, ret, answered. fold t0. fold d. fold w. fold at0.
  replace (t0 + Z.of_nat (S (List.length pre + List.length data + 2)) * Z.pos (tick env))
    with (t1 + Z.pos (tick env) + Z.of_nat (List.length data) * Z.pos (tick env)
          + Z.pos (tick env)) by (unfold t1; lia).
  rewrite map_id. reflexivity.
Qed.

(** Echoes or blank lines, then a command error whose number has no
    colon: kind and number are recorded, as texts, and ASRCMEError is
    raised. *)
Lemma _inquire_rejected cmd T s pre cme rest n :
  nothing_on_its_way s ->
  device env (written (world s) ++ [inquiry cmd]) = at_once (pre ++ cme :: rest) ->
  Forall (fun x => skipped x = true) pre ->
  text_of cme = "+CME ERROR:" ++ n -> Py.utf8_valid [] (text_of cme) = true ->
  Py.cut ":" n = None ->
  Z.of_nat (List.length pre + 1) * Zpos (tick env) < ticks env T ->
  _inquire env cmd T s
  = Some (Raise ASRCMEError,
          with_error "+CME ERROR" n
            (answered env cmd (inquiry cmd) (List.length pre + 1) rest s)).
Proof.
  intros Hway Hdev Hpre Hcme Hv Hn Ht.
  pose proof (Pos2Z.is_pos (tick env)) as Htick.
  rewrite (@inquire_starts env cmd T s _ Hway Hdev).
  set (t0 := now (world s)) in *. rewrite map_app. cbn [map].
  set (d := set_lastATCmd _ _). set (w := (written (world s) ++ _)%list).
  set (at0 := fun x : string => ((t0 + 0)%Z, x)).
  change (at0 cme) with ((t0 + 0)%Z, cme).
  set (m := (Z.to_nat (ticks env T) - List.length pre)%nat).
  replace (polls env T) with (List.length (map at0 pre) + S m)%nat
    by (rewrite !length_map; unfold polls, m; nia).
  destruct (@inquire_loop_runs env (fun x => skipped x = true) (fun _ => True) (fun l _ => l)
              t0 T d w (calls (world s))
              (fun l x s0 _ Hx => conj (@skipped_line_continues l x s0 Hx) I)
              (map at0 pre) (S m) (t0 + Zpos (tick env))
              ((t0 + 0, cme) :: map at0 rest)
              (mkLocals [] None false) I) as [E _].
  { apply (@ready_run (fun x => skipped x = true) t0 _ pre); [lia | exact Hpre]. }
  { rewrite length_map. nia. }
  rewrite E, fold_left_same, length_map. clear E.
  apply while_raise.
  rewrite inquire_poll_reads; [| lia | nia].
  rewrite (@CME_line_raises_in_inquire _ _ n _ Hcme Hv Hn).
  unfold answered, with_error. cbn [self world]. fold t0. fold d. fold w. fold at0.
  replace (t0 + Z.of_nat (S (List.length pre + 1)) * Z.pos (tick env))
    with (t0 + Z.pos (tick env) + Z.of_nat (List.length pre) * Z.pos (tick env)
          + Z.pos (tick env)) by lia.
  reflexivity.
Qed.

Lemma _setCmd_rejected cmd T s pre cme rest n :
  nothing_on_its_way s ->
  device env (written (world s) ++ [command cmd]) = at_once (pre ++ cme :: rest) ->
  Forall (fun x => passed_by_setCmd x = true) pre ->
  text_of cme = "+CME ERROR:" ++ n -> Py.utf8_valid [] (text_of cme) = true ->
  Py.cut ":" n = None ->
  Z.of_nat (List.length pre + 1) * Zpos (tick env) < ticks env T ->
  _setCmd env cmd T s
  = Some (Raise ASRCMEError,
          with_error "+CME ERROR" n
            (answered env cmd (command cmd) (List.length pre + 1) rest s)).
Proof.
  intros Hway Hdev Hpre Hcme Hv Hn Ht.
  pose proof (Pos2Z.is_pos (tick env)) as Htick.
  unfold _setCmd, _clearLastError.
  unfold bind at 1 2 3 4 5, modify_self, reset_input_buffer, serial_write, time_time.
  cbn [self world now rxq written calls].
  unfold nothing_on_its_way in Hway. rewrite Hway. fold (command cmd). rewrite Hdev.
  unfold at_once. rewrite map_map, map_app. cbn [app map fst snd].
  set (t0 := now (world s)) in *.
  set (at0 := fun x : string => ((t0 + 0)%Z, x)).
  change (at0 cme) with ((t0 + 0)%Z, cme).
  replace (polls env T)
    with (List.length (map at0 pre) + S (Z.to_nat (ticks env T) - List.length pre))%nat
    by (rewrite length_map; unfold polls; nia).
  rewrite setCmd_loop_passes;
    [| apply (@ready_run (fun x => passed_by_setCmd x = true) t0 _ pre); [lia | exact Hpre]
     | rewrite length_map; nia].
  rewrite length_map. apply while_raise.
  rewrite setCmd_poll_reads; [| lia | nia].
  rewrite (@CME_line_raises_in_setCmd _ n _ Hcme Hv Hn).
  unfold answered, with_error. cbn [self world]. fold t0. fold at0.
  replace (t0 + Z.of_nat (S (List.length pre + 1)) * Z.pos (tick env))
    with (t0 + Z.pos (tick env) + Z.of_nat (List.length pre) * Z.pos (tick env)
          + Z.pos (tick env)) by lia.
  reflexivity.
Qed.

End MoreAnswers.

(** ** Invariants *)

Lemma stable_ret {A} (P : St -> Prop) (a : A) : stable P (ret a).
Proof. intros s o s' HP H. inversion H; subst. exact HP. Qed.

Lemma stable_raise {A} (P : St -> Prop) (e : exn) : stable P (@raise A e).
Proof. intros s o s' HP H. inversion H; subst. exact HP. Qed.

Lemma stable_bind {A B} (P : St -> Prop) (m : M A) (k : A -> M B) :
  stable P m -> (forall a, stable P (k a)) -> stable P (bind m k).
Proof.
  intros Hm Hk s o s' HP H. unfold bind in H.
  destruct (m s) as [[[a | e] s1] |] eqn:E; [| | discriminate].
  - eapply Hk; [eapply Hm; eassumption | exact H].
  - inversion H; subst. eapply Hm; eassumption.
Qed.

Lemma stable_while {L A} (P : St -> Prop) (body : L -> M (L + A)) :
  (forall l, stable P (body l)) -> forall n l, stable P (while n body l).
Proof.
  intros Hbody n. induction n as [| n IH]; intros l; [intros s o s' _ H; discriminate |].
  cbn [while]. apply stable_bind; [apply Hbody |].
  intros [l' | a]; [apply IH | apply stable_ret].
Qed.

Lemma stable_try_except {A} (P : St -> Prop) (m : M A) (h : exn -> M A) :
  stable P m -> (forall e, stable P (h e)) -> stable P (try_except m h).
Proof.
  intros Hm Hh s o s' HP H. unfold try_except in H.
  destruct (m s) as [[[a | e] s1] |] eqn:E; [| | discriminate].
  - inversion H; subst. eapply Hm; eassumption.
  - destruct (is_Exception e).
    + eapply Hh; [eapply Hm; eassumption | exact H].
    + inversion H; subst. eapply Hm; eassumption.
Qed.

Lemma stable_finally_return {A B} (P : St -> Prop) (m : M A) (v : B) :
  stable P m -> stable P (finally_return m v).
Proof.
  intros Hm s o s' HP H. unfold finally_return in H.
  destruct (m s) as [[o1 s1] |] eqn:E; [| discriminate].
  inversion H; subst. eapply Hm; eassumption.
Qed.

Lemma stable_assert (P : St -> Prop) (b : bool) : stable P (assert b).
Proof. destruct b; [apply stable_ret | apply stable_raise]. Qed.

(** A step that changes the state by [f], where [f] keeps [P]. *)
Lemma stable_step {A} (P : St -> Prop) (m : M A) :
  (forall s o s', m s = Some (o, s') -> P s -> P s') -> stable P m.
Proof. intros H s o s' HP E. exact (H s o s' E HP). Qed.

(** Running a step that is given by a term: every case of it is
    looked at. *)
Ltac run_cases H :=
  repeat match type of H with
         | context [match ?x with _ => _ end] =>
             lazymatch x with
             | context [match _ with _ => _ end] => fail
             | _ => destruct x
             end
         end;
  cbv beta in H; try discriminate; inversion H; subst; clear H.

(** The same, going under the functions of the state as the cases
    open them, and keeping the equations. *)
Ltac run_cases_eq H :=
  repeat first
    [ match type of H with
      | context [match ?x with _ => _ end] =>
          lazymatch x with
          | context [match _ with _ => _ end] => fail
          | _ => destruct x eqn:?
          end
      end
    | progress cbv beta in H ];
  try discriminate; inversion H; subst; clear H.

(** ** What is written *)

Ltac wire_kept HP := destruct HP as [? ?]; split; assumption.

Lemma setCmd_poll_wire env w c start T l : stable (wire w c) (setCmd_poll env start T l).
Proof.
  intros s o s' HP H.
  unfold setCmd_poll, bind, time_time, in_waiting, readline, setCmd_line, store_error,
    modify_self, raise, continue, leave, ret in H.
  run_cases H; wire_kept HP.
Qed.

Lemma inquire_poll_wire env w c start T l : stable (wire w c) (inquire_poll env start T l).
Proof.
  intros s o s' HP H.
  unfold inquire_poll, bind, time_time, in_waiting, readline, inquire_line, store_error,
    modify_self, raise, continue, leave, ret in H.
  run_cases H; wire_kept HP.
Qed.

Lemma _setCmd_wire env cmd T s o s' :
  _setCmd env cmd T s = Some (o, s') ->
  wire (written (world s) ++ [command cmd]) (PyStr cmd) s'.
Proof.
  unfold _setCmd, _clearLastError.
  unfold bind at 1 2 3 4 5, modify_self, reset_input_buffer, serial_write, time_time.
  cbn [self world now rxq written calls]. intros H.
  pose proof (@stable_while _ _ (wire (written (world s) ++ [command cmd])%list (PyStr cmd))
                (setCmd_poll env (now (world s)) T)
                (fun l => @setCmd_poll_wire env _ _ _ T l)) as Hst.
  eapply Hst; [| exact H]. split; reflexivity.
Qed.

Lemma _inquire_wire env cmd T s o s' :
  _inquire env cmd T s = Some (o, s') ->
  wire (written (world s) ++ [inquiry cmd]) (PyStr cmd) s'.
Proof.
  unfold _inquire, _clearLastError.
  unfold bind at 1 2 3 4 5, modify_self, reset_input_buffer, serial_write, time_time.
  cbn [self world now rxq written calls]. intros H.
  pose proof (@stable_while _ _ (wire (written (world s) ++ [inquiry cmd])%list (PyStr cmd))
                (inquire_poll env (now (world s)) T)
                (fun l => @inquire_poll_wire env _ _ _ T l)) as Hst.
  eapply Hst; [| exact H]. split; reflexivity.
Qed.

Lemma drain_line_wire w c rx : stable (wire w c) (drain_line rx).
Proof.
  intros s o s' HP H.
  unfold drain_line, bind, get_self, modify_self, call, raise, continue, leave, ret in H.
  run_cases H; wire_kept HP.
Qed.

Lemma _getDelayedReplies_wire w c : stable (wire w c) _getDelayedReplies.
Proof.
  unfold _getDelayedReplies, _clearLastError.
  apply stable_bind.
  { apply stable_step. intros s o s' H HP. inversion H; subst. wire_kept HP. }
  intros _. apply stable_bind.
  { apply stable_step. intros s o s' H HP. inversion H; subst. exact HP. }
  intros wd. apply stable_while. intros [].
  intros s o s' HP H.
  unfold bind at 1 2, in_waiting, readline in H.
  destruct (ready_bytes (now (world s)) (rxq (world s)) >? 0).
  - destruct (rxq (world s)) as [| [a x] q].
    + cbn zeta in H. change (Py.rstrip "" == "") with true in H.
      inversion H; subst. exact HP.
    + destruct (a <=? now (world s)).
      * cbn zeta in H.
        destruct (Py.rstrip (x ++ String "010" "") == ""); [inversion H; subst; wire_kept HP |].
        destruct (Py.decode _) as [rx |]; [| inversion H; subst; wire_kept HP].
        eapply drain_line_wire; [| exact H]. wire_kept HP.
      * cbn zeta in H. change (Py.rstrip "" == "") with true in H.
        inversion H; subst. exact HP.
  - inversion H; subst. exact HP.
Qed.

(** ** The drain *)

Lemma wp_with {A} (m : M A) (Q R : outcome A -> St -> Prop) s :
  wp m Q s -> (forall o s', m s = Some (o, s') -> R o s') ->
  wp m (fun o s' => Q o s' /\ R o s') s.
Proof.
  intros (o & s' & E & HQ) HR. exists o, s'. split; [exact E |].
  split; [exact HQ | exact (HR o s' E)].
Qed.

(** The handling of a line never ends the loop of the drain by itself. *)
Lemma drain_line_goes_on rx s o s' :
  drain_line rx s = Some (o, s') -> forall u, o <> Return (inr u).
Proof.
  intros H.
  unfold drain_line, bind, get_self, modify_self, call, raise, continue, leave, ret in H.
  run_cases H; discriminate.
Qed.

(** X1.  [_getDelayedReplies] always ends.  It writes nothing and takes
    no time, and when it returns without an exception no line that can
    be read is left in the queue. *)
Theorem drain_reads_all_that_is_ready s :
  exists o s',
    _getDelayedReplies s = Some (o, s')
    /\ written (world s') = written (world s)
    /\ now (world s') = now (world s)
    /\ (o = Return tt -> ready_bytes (now (world s')) (rxq (world s')) = 0).
Proof.
  assert (H : wp _getDelayedReplies
                 (fun o s' => o = Return tt ->
                              ready_bytes (now (world s')) (rxq (world s')) = 0) s).
  { unfold _getDelayedReplies, _clearLastError.
    apply wp_bind, wp_modify_self. apply wp_bind, wp_get_world.
    apply (wp_while (fun (_ : unit) (_ : St) => True)
                    (fun (_ : unit) s1 => List.length (rxq (world s1)))).
    - intros [] s1 _. apply wp_poll.
      + intros a l q Hq Ha. cbn zeta.
        destruct (Py.rstrip (l ++ String "010" "") == "").
        { apply wp_ret. cbn. rewrite Hq. cbn. split; [exact I | lia]. }
        destruct (Py.decode _) as [rx |]; [| apply wp_raise; discriminate].
        eapply wp_mono;
          [apply wp_with with (R := fun o (_ : St) => forall u : unit, o <> Return (inr u));
           [apply drain_line_spec | intros o0 s0 E0; eapply drain_line_goes_on; exact E0] |].
        intros o s' ((Hn' & Hq') & Hgo). cbn in Hq'.
        destruct o as [[[] | []] | e]; try discriminate.
        * split; [exact I |]. rewrite Hq', Hq. cbn. lia.
        * exfalso. exact (Hgo tt eq_refl).
      + intros H0. apply wp_ret. intros _. exact H0.
    - exact I.
    - cbn. lia. }
  destruct H as (o & s' & E & H). exists o, s'.
  destruct (@_getDelayedReplies_wire (written (world s)) (lastATCmd (self s))
              s o s' (conj eq_refl eq_refl) E) as [Hw _].
  pose proof (wp_run (_getDelayedReplies_spec s) E) as Hn.
  repeat split; assumption.
Qed.

(** X2.  Whatever the modem does, a transaction ends having written
    one command and no more: AT+, the command, a question mark for an
    inquiry, carriage return and newline ([command], [inquiry]); and
    that command is the one on record for [getLastATError]. *)
Theorem transaction_writes_one_command env cmd T s :
  (exists o s',
      _setCmd env cmd T s = Some (o, s')
      /\ written (world s') = (written (world s) ++ [command cmd])%list
      /\ lastATCmd (self s') = PyStr cmd)
  /\ (exists o s',
         _inquire env cmd T s = Some (o, s')
         /\ written (world s') = (written (world s) ++ [inquiry cmd])%list
         /\ lastATCmd (self s') = PyStr cmd).
Proof.
  split.
  - destruct (_setCmd_spec env cmd T s) as (o & s' & E & _).
    exists o, s'. split; [exact E |]. exact (_setCmd_wire _ _ _ _ E).
  - destruct (_inquire_spec env cmd T s) as (o & s' & E & _).
    exists o, s'. split; [exact E |]. exact (_inquire_wire _ _ _ _ E).
Qed.

(** ** The drain, the handler and the join flag *)

(** A step of the drain that reads a line, and what it does with it. *)
Lemma stable_drain (P : St -> Prop) :
  (forall s, P s -> P (mkSt (set_LastErrorNum PyNone (set_LastErrorType PyNone (self s)))
                            (world s))) ->
  (forall s a x q rx o s',
      P s -> rxq (world s) = (a, x) :: q ->
      Py.decode (text_of x) = Some rx -> (text_of x == "") = false ->
      drain_line rx (pop_line s) = Some (o, s') -> P s') ->
  (forall s, P s -> P (pop_line s)) ->
  stable P _getDelayedReplies.
Proof.
  intros Hclear Hline Hpop.
  unfold _getDelayedReplies, _clearLastError.
  apply stable_bind.
  { apply stable_step. intros s o s' H HP. inversion H; subst. apply Hclear, HP. }
  intros _. apply stable_bind.
  { apply stable_step. intros s o s' H HP. inversion H; subst. exact HP. }
  intros wd. apply stable_while. intros [].
  intros s o s' HP H.
  unfold bind at 1 2, in_waiting, readline in H.
  destruct (ready_bytes (now (world s)) (rxq (world s)) >? 0).
  - destruct (rxq (world s)) as [| [a x] q] eqn:Hq.
    + cbn zeta in H. change (Py.rstrip "" == "") with true in H.
      inversion H; subst. exact HP.
    + destruct (a <=? now (world s)).
      * cbn zeta in H. fold (text_of x) in H.
        assert (Hp : mkSt (self s) (mkWorld (now (world s)) q (written (world s))
                                            (calls (world s))) = pop_line s).
        { unfold pop_line. rewrite Hq. reflexivity. }
        rewrite Hp in H.
        destruct (text_of x == "") eqn:Eb; [inversion H; subst; apply Hpop, HP |].
        destruct (Py.decode (text_of x)) as [rx |] eqn:Ed;
          [| inversion H; subst; apply Hpop, HP].
        eapply Hline; eassumption.
      * cbn zeta in H. change (Py.rstrip "" == "") with true in H.
        inversion H; subst. exact HP.
  - inversion H; subst. exact HP.
Qed.

Lemma decode_same b r : Py.decode b = Some r -> r = b.
Proof. unfold Py.decode. destruct (Py.utf8_valid [] b); intros H; inversion H. reflexivity. Qed.

(** X3.  While no handler is registered, the drain calls nothing: what
    it finds is read and dropped. *)
Theorem drain_without_handler_calls_nothing s :
  downlinkCallback (self s) = None ->
  exists o s',
    _getDelayedReplies s = Some (o, s')
    /\ calls (world s') = calls (world s)
    /\ downlinkCallback (self s') = None
    /\ downlinkRecvd (self s') = downlinkRecvd (self s).
Proof.
  intros Hcb. destruct (_getDelayedReplies_spec s) as (o & s' & E & _).
  exists o, s'. split; [exact E |].
  assert (H : (fun s1 => (downlinkCallback (self s1) = None /\ calls (world s1) = calls (world s))
                         /\ downlinkRecvd (self s1) = downlinkRecvd (self s)) s').
  { eapply (@stable_drain
              (fun s1 => (downlinkCallback (self s1) = None
                          /\ calls (world s1) = calls (world s))
                         /\ downlinkRecvd (self s1) = downlinkRecvd (self s)));
      [| | | | exact E].
    - intros s1 H1. exact H1.
    - intros s1 a x q rx o1 s1' [[H1 H2] H3] _ _ _ Hrun.
      unfold drain_line, bind, get_self, modify_self, raise, continue, leave, ret in Hrun.
      run_cases_eq Hrun; cbn in *; try congruence; repeat split; assumption.
    - intros s1 H1. exact H1.
    - repeat split; assumption. }
  destruct H as [[H1 H2] H3]. repeat split; assumption.
Qed.

Lemma drain_without_handler_calls_nothing_witness :
  exists o s',
    _getDelayedReplies (mkSt new_object (mkWorld 0 [(0, "OK+RECV:1,2,4,dead,beef" ++ CR)] [] []))
    = Some (o, s')
    /\ calls (world s') = []
    /\ downlinkCallback (self s') = None
    /\ downlinkRecvd (self s') = false.
Proof.
  apply (@drain_without_handler_calls_nothing
           (mkSt new_object (mkWorld 0 [(0, "OK+RECV:1,2,4,dead,beef" ++ CR)] [] []))).
  reflexivity.
Defined.

Lemma Forall_tl {A} (P : A -> Prop) (l : list A) : Forall P l -> Forall P (tl l).
Proof. intros H. destruct H; [constructor | assumption]. Qed.

(** X4.  The join flag changes on a join notice only: when no line of
    the queue is +CJOIN:OK or +CJOIN:FAIL, the drain leaves the flag as
    it was, whatever else it reads and however it ends. *)
Theorem drain_keeps_join_flag s :
  Forall (fun al => no_join_notice (snd al) = true) (rxq (world s)) ->
  exists o s',
    _getDelayedReplies s = Some (o, s') /\ joined (self s') = joined (self s).
Proof.
  intros HF. destruct (_getDelayedReplies_spec s) as (o & s' & E & _).
  exists o, s'. split; [exact E |].
  assert (H : (fun s1 => joined (self s1) = joined (self s)
                         /\ Forall (fun al => no_join_notice (snd al) = true)
                                   (rxq (world s1))) s').
  { eapply (@stable_drain
              (fun s1 => joined (self s1) = joined (self s)
                         /\ Forall (fun al => no_join_notice (snd al) = true)
                                   (rxq (world s1))));
      [| | | | exact E].
    - intros s1 H1. exact H1.
    - intros s1 a x q rx o1 s1' [H1 H2] Hq Hd _ Hrun.
      apply decode_same in Hd. subst rx.
      rewrite Hq in H2. inversion H2 as [| ? ? Hx Hrest]; subst. cbn [snd] in Hx.
      unfold no_join_notice in Hx. apply andb_prop in Hx. destruct Hx as [Hx1 Hx2].
      apply negb_true_iff in Hx1, Hx2.
      unfold drain_line in Hrun. rewrite Hx1, Hx2 in Hrun.
      unfold bind, get_self, modify_self, call, raise, continue, leave, ret in Hrun.
      assert (Hp : rxq (world (pop_line s1)) = q) by (cbn; rewrite Hq; reflexivity).
      assert (Hjp : joined (self (pop_line s1)) = joined (self s)) by exact H1.
      revert Hrun Hp Hjp. generalize (pop_line s1). intros s2 Hrun Hp Hjp.
      run_cases_eq Hrun; cbn; rewrite ?Hp; split; assumption.
    - intros s1 [H1 H2]. split; [exact H1 | apply (Forall_tl H2)].
    - split; [reflexivity | exact HF]. }
  exact (proj1 H).
Qed.

Lemma drain_keeps_join_flag_witness :
  exists o s',
    _getDelayedReplies (mkSt (set_joined true new_object)
                             (mkWorld 0 [(0, "OK+SENT:01" ++ CR); (0, "ERR+SEND:2" ++ CR)] [] []))
    = Some (o, s')
    /\ joined (self s') = true.
Proof.
  apply (@drain_keeps_join_flag
           (mkSt (set_joined true new_object)
                 (mkWorld 0 [(0, "OK+SENT:01" ++ CR); (0, "ERR+SEND:2" ++ CR)] [] []))).
  repeat constructor.
Defined.

(** ** The wait of [join] *)

Section Waiting.

Variable env : Env.



End Waiting.


(** ** Join, to its end *)

Lemma bind_run {A B} (m : M A) (k : A -> M B) s a s' :
  m s = Some (Return a, s') -> bind m k s = k a s'.
Proof. intros H. unfold bind. rewrite H. reflexivity. Qed.

Lemma bind_raises {A B} (m : M A) (k : A -> M B) s e s' :
  m s = Some (Raise e, s') -> bind m k s = Some (Raise e, s').
Proof. intros H. unfold bind. rewrite H. reflexivity. Qed.

Lemma assert_run b s : b = true -> assert b s = Some (Return tt, s).
Proof. intros ->. reflexivity. Qed.








(** ** Answers of the modem, line by line *)

(** X7.  The modem answers a set command with lines that [_setCmd]
    passes over (blank lines, and texts that are neither OK, OK+SEND:
    nor +CME ERROR:) and then with OK or OK+SEND:.  [_setCmd] returns
    True having read up to that line, one line at each reading of the
    clock; the lines after it stay in the queue, and the error
    attributes that [_clearLastError] assigns are cleared. *)
Theorem set_command_returns_True_at_the_acknowledgement env cmd T s pre ok rest :
  nothing_on_its_way s ->
  device env (written (world s) ++ [command cmd]) = at_once (pre ++ ok :: rest) ->
  Forall (fun x => passed_by_setCmd x = true) pre ->
  acknowledges ok = true ->
  Z.of_nat (List.length pre + 1) * Zpos (tick env) < ticks env T ->
  _setCmd env cmd T s
  = Some (Return true, answered env cmd (command cmd) (S (List.length pre)) rest s).
Proof.
  intros Hway Hdev Hpre Hok Ht.
  exact (@_setCmd_acknowledged env cmd T s pre ok rest Hway Hdev Hpre Hok Ht).
Qed.

(** A log line, then the acknowledgement of the uplink; the notice that
    the uplink is sent stays in the queue. *)
Lemma set_command_returns_True_at_the_acknowledgement_witness :
  _setCmd (bench [("AT+DTRX=0,8,4,6869", ["[LOG] sending"; "OK+SEND:02"; "OK+SENT:01"])])
          "DTRX=0,8,4,6869" 2 power_on
  = Some (Return true,
          answered (bench [("AT+DTRX=0,8,4,6869", ["[LOG] sending"; "OK+SEND:02"; "OK+SENT:01"])])
                   "DTRX=0,8,4,6869" (command "DTRX=0,8,4,6869") 2
                   ["OK+SENT:01" ++ CR] power_on).
Proof.
  apply (@set_command_returns_True_at_the_acknowledgement
           (bench [("AT+DTRX=0,8,4,6869", ["[LOG] sending"; "OK+SEND:02"; "OK+SENT:01"])])
           "DTRX=0,8,4,6869" 2 power_on ["[LOG] sending" ++ CR] ("OK+SEND:02" ++ CR)
           ["OK+SENT:01" ++ CR]);
    [reflexivity | reflexivity | repeat constructor | reflexivity | reflexivity].
Defined.

(** X8.  The modem answers an inquiry with echoes or blank lines, one
    line of data and OK.  [_inquire] returns what follows the last
    colon or equals sign of the line of data, as a text. *)
Theorem inquiry_returns_the_value_of_the_data_line env cmd T s pre kv ok rest v :
  nothing_on_its_way s ->
  device env (written (world s) ++ [inquiry cmd]) = at_once (pre ++ kv :: ok :: rest) ->
  Forall (fun x => skipped x = true) pre ->
  is_text (text_of kv) = true -> plain (text_of kv) = true ->
  text_of ok = "OK" ->
  reply_pat (text_of kv) = Some v ->
  Z.of_nat (List.length pre + 2) * Zpos (tick env) < ticks env T ->
  _inquire env cmd T s
  = Some (Return (PyStr v), answered env cmd (inquiry cmd) (List.length pre + 2) rest s).
Proof.
  intros Hway Hdev Hpre Hkv Hplain Hok Hv Ht.
  exact (@_inquire_answered_value env cmd T s pre kv ok rest v
           Hway Hdev Hpre Hkv Hplain Hok Hv Ht).
Qed.

Lemma inquiry_returns_the_value_of_the_data_line_witness :
  _inquire accepting "CRX1DELAY" 2 power_on
  = Some (Return (PyStr "5"),
          answered accepting "CRX1DELAY" (inquiry "CRX1DELAY") 3 [] power_on).
Proof.
  apply (@inquiry_returns_the_value_of_the_data_line accepting "CRX1DELAY" 2 power_on
           ["AT+CRX1DELAY?" ++ CR] ("+CRX1DELAY:5" ++ CR) ("OK" ++ CR) [] "5");
    [reflexivity | reflexivity | repeat constructor | reflexivity | reflexivity
     | reflexivity | reflexivity | reflexivity].
Defined.

(** X9.  The modem answers an inquiry with echoes or blank lines, the
    header +CRSSI:, lines of data and OK.  [_inquire] returns the list
    of the lines of data, stripped, in the order of their arrival. *)
Theorem inquiry_returns_the_lines_after_the_header env cmd T s pre header data ok rest :
  nothing_on_its_way s ->
  device env (written (world s) ++ [inquiry cmd])
  = at_once (pre ++ header :: data ++ ok :: rest) ->
  Forall (fun x => skipped x = true) pre ->
  text_of header = "+CRSSI:" ->
  Forall (fun x => is_text (text_of x) = true /\ plain (text_of x) = true) data ->
  text_of ok = "OK" ->
  Z.of_nat (List.length pre + List.length data + 2) * Zpos (tick env) < ticks env T ->
  _inquire env cmd T s
  = Some (Return (PyList (map text_of data)),
          answered env cmd (inquiry cmd) (List.length pre + List.length data + 2) rest s).
Proof.
  intros Hway Hdev Hpre Hhead Hdata Hok Ht.
  exact (@_inquire_answered_list env cmd T s pre header data ok rest
           Hway Hdev Hpre Hhead Hdata Hok Ht).
Qed.

Lemma inquiry_returns_the_lines_after_the_header_witness :
  _inquire surveying "CRSSI 0001" 2 power_on
  = Some (Return (PyList ["0:-101"; "1:-99"]),
          answered surveying "CRSSI 0001" (inquiry "CRSSI 0001") 5 [] power_on).
Proof.
  apply (@inquiry_returns_the_lines_after_the_header surveying "CRSSI 0001" 2 power_on
           ["AT+CRSSI 0001?" ++ CR] ("+CRSSI:" ++ CR) ["0:-101" ++ CR; "1:-99" ++ CR]
           ("OK" ++ CR) []);
    [reflexivity | reflexivity | repeat constructor | reflexivity | repeat constructor
     | reflexivity | reflexivity].
Defined.

(** X10.  The modem rejects a set command with +CME ERROR: and a number
    (a text without a colon).  [_setCmd] raises ASRCMEError, and
    [getLastATError] then reports the command, the kind +CME ERROR and
    the number, as a text. *)
Theorem rejected_set_command_is_reported env cmd T s pre cme rest n :
  nothing_on_its_way s ->
  device env (written (world s) ++ [command cmd]) = at_once (pre ++ cme :: rest) ->
  Forall (fun x => passed_by_setCmd x = true) pre ->
  text_of cme = "+CME ERROR:" ++ n -> Py.utf8_valid [] (text_of cme) = true ->
  Py.cut ":" n = None ->
  Z.of_nat (List.length pre + 1) * Zpos (tick env) < ticks env T ->
  exists s',
    _setCmd env cmd T s = Some (Raise ASRCMEError, s')
    /\ getLastATError (self s')
       = Some (mkATError (PyStr cmd) (PyStr "+CME ERROR") (PyStr n)).
Proof.
  intros Hway Hdev Hpre Hcme Hv Hn Ht.
  eexists. split.
  - exact (@_setCmd_rejected env cmd T s pre cme rest n Hway Hdev Hpre Hcme Hv Hn Ht).
  - reflexivity.
Qed.

Lemma rejected_set_command_is_reported_witness :
  exists s',
    _setCmd surveying "CDATARATE=3" 2 power_on = Some (Raise ASRCMEError, s')
    /\ getLastATError (self s')
       = Some (mkATError (PyStr "CDATARATE=3") (PyStr "+CME ERROR") (PyStr "1")).
Proof.
  apply (@rejected_set_command_is_reported surveying "CDATARATE=3" 2 power_on
           [] ("+CME ERROR:1" ++ CR) [] "1");
    [reflexivity | reflexivity | constructor | reflexivity | reflexivity
     | reflexivity | reflexivity].
Defined.

(** ** How long a transaction takes *)

(** A polling loop with a deadline, entered right after the reading of
    its start time, ends at most one reading after the first reading
    that finds the time used up. *)
Lemma wp_deadline_loop_time env {L A} (P : A -> Prop) (body : L -> M (L + A)) start T :
  (forall l s, wp (body l) (turn env P start T s) s) ->
  forall l s, now (world s) = start + Zpos (tick env) ->
    wp (while (polls env T) body l)
       (fun _ s' => start + 2 * Zpos (tick env) <= now (world s')
                    <= start + Z.max 0 (ticks env T) + 2 * Zpos (tick env)) s.
Proof.
  intros Hbody l s Hs. pose proof (Pos2Z.is_pos (tick env)) as Htick.
  apply (wp_while
           (fun _ s1 => start + Zpos (tick env) <= now (world s1)
                        /\ (now (world s1) - Zpos (tick env) - start < ticks env T
                            \/ now (world s1) = start + Zpos (tick env)))
           (fun _ s1 => Z.to_nat (start + ticks env T - now (world s1)))).
  - intros l1 s1 (Hlo & Hhi). eapply wp_mono; [apply Hbody |].
    intros o s' (_ & Hn' & Ho).
    destruct o as [[l' | a] | e]; cbn.
    + split; [split |]; [lia | left; lia | lia].
    + lia.
    + lia.
  - split; [lia | right; exact Hs].
  - unfold polls. lia.
Qed.

(** X11.  Whatever the modem does, a transaction ends, and it ends
    between two readings of the clock after its start and two readings
    after its time-out. *)
Theorem transaction_ends_within_its_time_out env cmd T s :
  (exists o s',
      _setCmd env cmd T s = Some (o, s')
      /\ now (world s) + 2 * Zpos (tick env) <= now (world s')
         <= now (world s) + Z.max 0 (ticks env T) + 2 * Zpos (tick env))
  /\ (exists o s',
         _inquire env cmd T s = Some (o, s')
         /\ now (world s) + 2 * Zpos (tick env) <= now (world s')
            <= now (world s) + Z.max 0 (ticks env T) + 2 * Zpos (tick env)).
Proof.
  split.
  - assert (H : wp (_setCmd env cmd T)
                   (fun _ s' => now (world s) + 2 * Zpos (tick env) <= now (world s')
                                <= now (world s) + Z.max 0 (ticks env T)
                                   + 2 * Zpos (tick env)) s).
    { unfold _setCmd, _clearLastError.
      apply wp_bind, wp_modify_self. apply wp_bind, wp_modify_self.
      wp_prim. wp_prim. apply wp_bind, wp_time_time.
      apply wp_deadline_loop_time with (P := fun b => b = true).
      - intros []. apply setCmd_poll_spec.
      - reflexivity. }
    destruct H as (o & s' & E & H). exists o, s'. split; assumption.
  - assert (H : wp (_inquire env cmd T)
                   (fun _ s' => now (world s) + 2 * Zpos (tick env) <= now (world s')
                                <= now (world s) + Z.max 0 (ticks env T)
                                   + 2 * Zpos (tick env)) s).
    { unfold _inquire, _clearLastError.
      apply wp_bind, wp_modify_self. apply wp_bind, wp_modify_self.
      wp_prim. wp_prim. apply wp_bind, wp_time_time.
      apply wp_deadline_loop_time with (P := fun v => v <> PyNone).
      - intros l. apply inquire_poll_spec.
      - reflexivity. }
    destruct H as (o & s' & E & H). exists o, s'. split; assumption.
Qed.

(** ** What a transaction keeps and what it writes, together *)

Lemma _setCmd_writes env cmd T s :
  wp (_setCmd env cmd T)
     (fun o s' => kept s s'
                  /\ written (world s') = (written (world s) ++ [command cmd])%list
                  /\ value_or_Exception (fun b => b = true) o) s.
Proof.
  eapply wp_mono.
  - apply wp_with with (R := fun (_ : outcome bool) s' =>
                               written (world s') = (written (world s) ++ [command cmd])%list).
    + apply _setCmd_spec.
    + intros o s' E. exact (proj1 (_setCmd_wire _ _ _ _ E)).
  - cbn beta. intros o s' ((Hk & _ & Ho) & Hw). exact (conj Hk (conj Hw Ho)).
Qed.

Lemma _inquire_writes env cmd T s :
  wp (_inquire env cmd T)
     (fun o s' => kept s s'
                  /\ written (world s') = (written (world s) ++ [inquiry cmd])%list
                  /\ value_or_Exception (fun v => v <> PyNone) o) s.
Proof.
  eapply wp_mono.
  - apply wp_with with (R := fun (_ : outcome pyval) s' =>
                               written (world s') = (written (world s) ++ [inquiry cmd])%list).
    + apply _inquire_spec.
    + intros o s' E. exact (proj1 (_inquire_wire _ _ _ _ E)).
  - cbn beta. intros o s' ((Hk & _ & Ho) & Hw). exact (conj Hk (conj Hw Ho)).
Qed.

Lemma _getDelayedReplies_writes s :
  wp _getDelayedReplies (fun _ s' => written (world s') = written (world s)) s.
Proof.
  eapply wp_mono.
  - apply wp_with with (R := fun (_ : outcome unit) s' =>
                               written (world s') = written (world s)).
    + apply _getDelayedReplies_spec.
    + intros o s' E.
      exact (proj1 (@_getDelayedReplies_wire (written (world s)) (lastATCmd (self s))
                      s o s' (conj eq_refl eq_refl) E)).
  - cbn beta. intros o s' [_ Hw]. exact Hw.
Qed.

(** ** The join mode and the keys *)

Lemma setJoinMode_spec env mode s :
  wp (setJoinMode env mode)
     (fun o s' =>
        match o with
        | Return b =>
            b = true /\ 0 <= mode <= 1
            /\ joinMode (self s') = PyInt mode
            /\ written (world s')
               = (written (world s) ++ [command ("CJOINMODE=" ++ Py.str mode)])%list
        | Raise e => is_Exception e = true /\ joinMode (self s') = joinMode (self s)
        end) s.
Proof.
  unfold setJoinMode.
  apply wp_bind, wp_assert; [intros Hm | intros _; split; reflexivity].
  apply andb_prop in Hm. destruct Hm as [H0 H1]. apply Z.leb_le in H0, H1.
  apply wp_bind. eapply wp_mono; [apply _setCmd_writes |].
  intros [b | e] s' (Hk & Hw & Ho); cbn in Ho.
  - subst b. apply wp_bind, wp_modify_self. apply wp_ret.
    repeat split; try assumption.
  - split; [exact Ho | exact (proj1 (proj2 Hk))].
Qed.

(** A setter that is open in one join mode and checks its key. *)
Lemma gated_setter_spec env (m : Z) (check : string -> bool) (prefix : string) (e0 : exn) key s :
  is_Exception e0 = true ->
  wp (ok <- joinMode_is m ;;
      assert ok ;;
      if check key then _setCmd env (prefix ++ key) 2 else raise e0)
     (fun o s' =>
        joinMode (self s') = joinMode (self s)
        /\ match o with
           | Return b =>
               b = true /\ joinMode (self s) = PyInt m /\ check key = true
               /\ written (world s') = (written (world s) ++ [command (prefix ++ key)])%list
           | Raise e => is_Exception e = true
           end) s.
Proof.
  intros He0. unfold joinMode_is.
  apply wp_bind, wp_bind, wp_get_self. apply wp_ret.
  apply wp_bind, wp_assert; [intros Hm | intros _; split; reflexivity].
  assert (Hmode : joinMode (self s) = PyInt m).
  { destruct (joinMode (self s)) as [| n | t | l]; try discriminate.
    apply Z.eqb_eq in Hm. congruence. }
  destruct (check key) eqn:Hc; [| apply wp_raise; split; [reflexivity | exact He0]].
  eapply wp_mono; [apply _setCmd_writes |].
  intros [b | e] s' (Hk & Hw & Ho); cbn in Ho; (split; [exact (proj1 (proj2 Hk)) |]).
  - repeat split; assumption.
  - exact Ho.
Qed.

(** X12.  [setJoinMode] ends, whatever the modem does.  When it returns,
    it returns True, the mode is 0 or 1, the command CJOINMODE= with
    the mode has been written and the mode is recorded in [joinMode];
    when it raises, the recorded mode is as it was. *)
Theorem setJoinMode_records_an_acknowledged_mode env mode s :
  exists o s',
    setJoinMode env mode s = Some (o, s')
    /\ match o with
       | Return b =>
           b = true /\ 0 <= mode <= 1
           /\ joinMode (self s') = PyInt mode
           /\ written (world s')
              = (written (world s) ++ [command ("CJOINMODE=" ++ Py.str mode)])%list
       | Raise e => is_Exception e = true /\ joinMode (self s') = joinMode (self s)
       end.
Proof. exact (setJoinMode_spec env mode s). Qed.

(** X13.  [configureOTAA] of the example program ends and never raises:
    it returns True or False.  It returns True only when the three
    keys have the form their setters ask for, and then the four
    commands have been written, in their order, and the join mode on
    record is OTAA. *)
Theorem configureOTAA_returns_True_or_False env devEui appEui appKey s :
  exists b s',
    configureOTAA env devEui appEui appKey s = Some (Return (Some b), s')
    /\ (b = true ->
        hex16char devEui = true /\ hex16char appEui = true /\ hex32char appKey = true
        /\ joinMode (self s') = PyInt OTAA
        /\ written (world s')
           = (written (world s)
              ++ [command "CJOINMODE=0"; command ("CDEVEUI=" ++ devEui);
                  command ("CAPPEUI=" ++ appEui); command ("CAPPKEY=" ++ appKey)])%list).
Proof.
  assert (H : wp (configureOTAA env devEui appEui appKey)
                 (fun o s' =>
                    exists b, o = Return (Some b)
                      /\ (b = true ->
                          hex16char devEui = true /\ hex16char appEui = true
                          /\ hex32char appKey = true
                          /\ joinMode (self s') = PyInt OTAA
                          /\ written (world s')
                             = (written (world s)
                                ++ [command "CJOINMODE=0"; command ("CDEVEUI=" ++ devEui);
                                    command ("CAPPEUI=" ++ appEui);
                                    command ("CAPPKEY=" ++ appKey)])%list)) s).
  { unfold configureOTAA. cbn [THIS_JOIN_MODE OTAA Z.eqb negb].
    apply wp_try_except, wp_bind.
    eapply wp_mono; [apply setJoinMode_spec |].
    intros [b0 | e] s0 H0.
    2:{ destruct H0 as [He _]. rewrite He. apply wp_ret. exists false.
        split; [reflexivity | discriminate]. }
    destruct H0 as (_ & _ & Hm0 & Hw0). apply wp_bind.
    eapply wp_mono;
      [exact (gated_setter_spec env OTAA hex16char "CDEVEUI=" ASRInvalidDevEui devEui s0 eq_refl) |].
    intros [b1 | e] s1 [Hm1 H1].
    2:{ rewrite H1. apply wp_ret. exists false. split; [reflexivity | discriminate]. }
    destruct H1 as (_ & _ & Hc1 & Hw1). apply wp_bind.
    eapply wp_mono;
      [exact (gated_setter_spec env OTAA hex16char "CAPPEUI=" ASRInvalidAppEui appEui s1 eq_refl) |].
    intros [b2 | e] s2 [Hm2 H2].
    2:{ rewrite H2. apply wp_ret. exists false. split; [reflexivity | discriminate]. }
    destruct H2 as (_ & _ & Hc2 & Hw2). apply wp_bind.
    eapply wp_mono;
      [exact (gated_setter_spec env OTAA hex32char "CAPPKEY=" ASRInvalidAppKey appKey s2 eq_refl) |].
    intros [b3 | e] s3 [Hm3 H3].
    2:{ rewrite H3. apply wp_ret. exists false. split; [reflexivity | discriminate]. }
    destruct H3 as (_ & _ & Hc3 & Hw3).
    apply wp_ret. exists true. split; [reflexivity |]. intros _.
    repeat split; try assumption.
    - congruence.
    - rewrite Hw3, Hw2, Hw1, Hw0. rewrite <- !app_assoc. reflexivity. }
  destruct H as (o & s' & E & b & -> & Hb). exists b, s'. split; assumption.
Qed.

(** ** A set command that is not acknowledged *)

(** X14.  When everything the channel yields during a set command is a
    line that [_setCmd] passes over (neither OK, OK+SEND: nor
    +CME ERROR:), [_setCmd] does not return False: it raises
    ASRReceiveTimeout, with the first reading of the clock at which the
    time-out has elapsed. *)
Theorem set_command_times_out_without_acknowledgement env cmd T s :
  (forall sent, only_passed (device env sent)) ->
  only_passed (rxq (world s)) ->
  exists s',
    _setCmd env cmd T s = Some (Raise ASRReceiveTimeout, s')
    /\ ticks env T <= elapsed env s s' <= Z.max 0 (ticks env T) + Zpos (tick env).
Proof.
  intros Hdev Hq. pose proof (Pos2Z.is_pos (tick env)) as Htick.
  assert (H : wp (_setCmd env cmd T)
                 (fun o s' => o = Raise ASRReceiveTimeout
                              /\ ticks env T <= elapsed env s s'
                                 <= Z.max 0 (ticks env T) + Zpos (tick env)) s).
  { unfold _setCmd, _clearLastError, elapsed.
    apply wp_bind, wp_modify_self. apply wp_bind, wp_modify_self.
    wp_prim. wp_prim. apply wp_bind, wp_time_time.
    cbn [world self now]. set (start := now (world s)).
    apply (wp_while
             (fun (_ : unit) s1 =>
                only_passed (rxq (world s1))
                /\ (now (world s1) - Zpos (tick env) - start < ticks env T
                    \/ now (world s1) = start + Zpos (tick env)))
             (fun (_ : unit) s1 => Z.to_nat (start + ticks env T - now (world s1)))).
    - intros [] s1 (HF & Hprev). unfold setCmd_poll.
      apply wp_bind, wp_time_time.
      destruct (now (world s1) - start >=? ticks env T) eqn:E.
      { rewrite Z.geb_leb in E. apply Z.leb_le in E.
        apply wp_raise. split; [reflexivity |]. cbn. lia. }
      rewrite Z.geb_leb in E. apply Z.leb_gt in E.
      apply wp_poll.
      + intros a l0 q Hrx _. cbn zeta. cbn in Hrx.
        unfold only_passed in HF. rewrite Hrx in HF.
        inversion HF as [| ? ? Hsk HFq]; subst. cbn [snd] in Hsk.
        fold (text_of l0).
        exists (Return (inl tt)), (pop_line (tock env s1)).
        split; [apply passed_line_continues, Hsk |].
        cbn. rewrite Hrx. cbn. split; [split; [exact HFq | left; lia] | lia].
      + intros _. apply wp_ret. cbn. split; [split; [exact HF | left; lia] | lia].
    - cbn. split; [| right; reflexivity].
      apply Forall_app. split.
      + apply drop_ready_Forall, Hq.
      + apply Forall_map. cbn. apply Hdev.
    - cbn. unfold polls. lia. }
  destruct H as (o & s' & E & -> & Ht). exists s'. split; assumption.
Qed.

Lemma set_command_times_out_without_acknowledgement_witness :
  exists s',
    _setCmd chatty "CSAVE" 2 power_on = Some (Raise ASRReceiveTimeout, s')
    /\ 20 <= elapsed chatty power_on s' <= 21.
Proof.
  apply (@set_command_times_out_without_acknowledgement chatty "CSAVE" 2 power_on).
  - intros sent. repeat constructor.
  - constructor.
Defined.

(** ** Checks that come before the command *)

Lemma joinMode_is_other d m :
  joinMode d <> PyInt m -> match joinMode d with PyInt n => n =? m | _ => false end = false.
Proof.
  intros H. destruct (joinMode d) as [| n | t | l]; try reflexivity.
  apply Z.eqb_neq. intros ->. apply H. reflexivity.
Qed.

Lemma gate_closed {A} m (k : M A) s :
  joinMode (self s) <> PyInt m ->
  (ok <- joinMode_is m ;; assert ok ;; k) s = Some (Raise AssertionError, s).
Proof.
  intros H. unfold joinMode_is, bind, get_self, ret. cbv beta iota.
  rewrite (@joinMode_is_other (self s) m H). reflexivity.
Qed.

(** X15.  The setters of the OTAA keys are closed unless the join mode
    on record is OTAA, the setter of the application session key and
    the getter of the device address unless it is ABP: each raises
    AssertionError and leaves the state as it is, so that nothing is
    written.  A driver that has no mode on record is in neither. *)
Theorem key_setters_are_closed_in_the_other_join_mode env key s :
  (joinMode (self s) <> PyInt OTAA ->
   setDevEui env key s = Some (Raise AssertionError, s)
   /\ setAppEui env key s = Some (Raise AssertionError, s)
   /\ setAppKey env key s = Some (Raise AssertionError, s))
  /\ (joinMode (self s) <> PyInt ABP ->
      setAppSKey env key s = Some (Raise AssertionError, s)
      /\ getDevAddr env s = Some (Raise AssertionError, s)).
Proof.
  unfold setDevEui, setAppEui, setAppKey, setAppSKey, getDevAddr.
  split; intros H; repeat split; exact (@gate_closed _ _ _ s H).
Qed.

Lemma key_setters_are_closed_in_the_other_join_mode_witness :
  (setDevEui accepting "0011223344556677" power_on = Some (Raise AssertionError, power_on)
   /\ setAppEui accepting "0011223344556677" power_on = Some (Raise AssertionError, power_on)
   /\ setAppKey accepting "0011223344556677" power_on = Some (Raise AssertionError, power_on))
  /\ (setAppSKey accepting "0011223344556677" power_on = Some (Raise AssertionError, power_on)
      /\ getDevAddr accepting power_on = Some (Raise AssertionError, power_on)).
Proof.
  split.
  - apply (proj1 (key_setters_are_closed_in_the_other_join_mode
                    accepting "0011223344556677" power_on)).
    discriminate.
  - apply (proj2 (key_setters_are_closed_in_the_other_join_mode
                    accepting "0011223344556677" power_on)).
    discriminate.
Defined.

(** X16.  [setRX1Delay] bounds the delay from above only.  A delay
    above 5 is refused with AssertionError before anything is written;
    every other delay, a negative one as well, is sent to the modem. *)
Theorem setRX1Delay_bounds_the_delay_from_above_only env delay s :
  (5 < delay -> setRX1Delay env delay s = Some (Raise AssertionError, s))
  /\ (delay <= 5 ->
      exists o s',
        setRX1Delay env delay s = Some (o, s')
        /\ written (world s')
           = (written (world s) ++ [command ("CRX1DELAY=" ++ Py.str delay)])%list).
Proof.
  unfold setRX1Delay. split; intros H.
  - apply bind_raises. unfold assert.
    replace (delay <=? 5) with false by (symmetry; apply Z.leb_gt; lia). reflexivity.
  - destruct (_setCmd_writes env ("CRX1DELAY=" ++ Py.str delay) 2 s) as (o & s' & E & _ & Hw & _).
    exists o, s'. split; [| exact Hw].
    erewrite bind_run by (apply assert_run, Z.leb_le, H). exact E.
Qed.

Lemma setRX1Delay_bounds_the_delay_from_above_only_witness :
  setRX1Delay silent 6 power_on = Some (Raise AssertionError, power_on)
  /\ exists o s',
       setRX1Delay silent (-1) power_on = Some (o, s')
       /\ written (world s') = ["AT+CRX1DELAY=-1" ++ CRLF].
Proof.
  split.
  - apply (proj1 (setRX1Delay_bounds_the_delay_from_above_only silent 6 power_on)). lia.
  - apply (proj2 (setRX1Delay_bounds_the_delay_from_above_only silent (-1) power_on)). lia.
Defined.



(** ** Downlinks *)

Lemma cut_app sep a b : Py.cut sep a = None -> Py.cut sep (a ++ String sep b) = Some (a, b).
Proof.
  induction a as [| c a IH]; cbn; intros H.
  - rewrite Ascii.eqb_refl. reflexivity.
  - destruct (Ascii.eqb c sep); [discriminate |].
    destruct (Py.cut sep a) as [[u v] |]; [discriminate |].
    rewrite IH by reflexivity. reflexivity.
Qed.

(** Four fields without a comma, joined by commas, split into
    themselves. *)
Lemma split_four_fields t p l m :
  Py.cut "," t = None -> Py.cut "," p = None -> Py.cut "," l = None -> Py.cut "," m = None ->
  Py.split "," 4 (t ++ "," ++ p ++ "," ++ l ++ "," ++ m) = [t; p; l; m].
Proof.
  intros Ht Hp Hl Hm.
  change (t ++ "," ++ p ++ "," ++ l ++ "," ++ m)
    with (t ++ String "," (p ++ String "," (l ++ String "," m))).
  cbn [Py.split].
  rewrite (@cut_app "," t _ Ht), (@cut_app "," p _ Hp), (@cut_app "," l _ Hl), Hm.
  reflexivity.
Qed.

(** X18.  A downlink notice OK+RECV: with four fields free of commas,
    alone in the queue and ready, while a handler is registered.  Both
    [_getDelayedReplies] and [checkForDownlink] call the handler once,
    with the four fields in their order, and end as the handler ends:
    what it raises is passed on.  The drain sets [downlinkRecvd];
    [checkForDownlink] leaves it as it was. *)
Theorem downlink_reaches_the_handler cb s a x t p l m :
  downlinkCallback (self s) = Some cb ->
  rxq (world s) = [(a, x)] -> a <= now (world s) ->
  text_of x = "OK+RECV:" ++ t ++ "," ++ p ++ "," ++ l ++ "," ++ m ->
  Py.utf8_valid [] (text_of x) = true ->
  Py.cut "," t = None -> Py.cut "," p = None -> Py.cut "," l = None -> Py.cut "," m = None ->
  exists s1 s2,
    _getDelayedReplies s
    = Some (match cb t p l m with None => Return tt | Some e => Raise e end, s1)
    /\ calls (world s1) = (calls (world s) ++ [(t, p, l, m)])%list
    /\ downlinkRecvd (self s1) = true
    /\ checkForDownlink s
       = Some (match cb t p l m with None => Return tt | Some e => Raise e end, s2)
    /\ calls (world s2) = (calls (world s) ++ [(t, p, l, m)])%list
    /\ downlinkRecvd (self s2) = downlinkRecvd (self s).
Proof.
  destruct s as [d [t0 q w c]]. cbn [world self rxq now written calls].
  intros Hcb -> Ha Hx Hv Ht Hp Hl Hm.
  pose proof (@split_four_fields t p l m Ht Hp Hl Hm) as Hsplit.
  assert (Hline : forall s0,
             downlinkCallback (self s0) = Some cb ->
             drain_line (text_of x) s0
             = (modify_self (set_downlinkRecvd true) ;;
                call cb t p l m ;; continue tt) s0).
  { intros s0 H0. rewrite Hx. unfold drain_line.
    change ("OK+RECV:" ++ ?r == "+CJOIN:OK") with false.
    change ("OK+RECV:" ++ ?r == "+CJOIN:FAIL") with false.
    change (Py.take 8 ("OK+RECV:" ++ ?r)) with "OK+RECV:".
    change ("OK+RECV:" == "OK+SENT:") with false.
    change ("OK+RECV:" == "OK+RECV:") with true. cbv iota.
    change (Py.drop 8 ("OK+RECV:" ++ ?r)) with r.
    erewrite bind_run by reflexivity. rewrite H0, Hsplit. reflexivity. }
  assert (Hne : (text_of x == "") = false) by (rewrite Hx; reflexivity).
  pose proof (ready_bytes_head x [] Ha) as Hready.
  assert (Hle : (a <=? t0) = true) by (apply Z.leb_le, Ha).
  exists (mkSt (set_downlinkRecvd true
                  (set_LastErrorNum PyNone (set_LastErrorType PyNone d)))
               (mkWorld t0 [] w (c ++ [(t, p, l, m)])%list)),
         (mkSt d (mkWorld t0 [] w (c ++ [(t, p, l, m)])%list)).
  split; [| split; [reflexivity | split; [reflexivity | split; [| split; reflexivity]]]].
  - unfold _getDelayedReplies, _clearLastError.
    unfold bind at 1 2, modify_self, get_world.
    cbn [world self rxq now written calls List.length].
    match goal with
    | |- while _ ?body tt ?s0 = _ =>
        assert (Hbody : body tt s0
                        = match cb t p l m with
                          | None =>
                              Some (Return (inl tt),
                                    mkSt (set_downlinkRecvd true
                                            (set_LastErrorNum PyNone
                                               (set_LastErrorType PyNone d)))
                                         (mkWorld t0 [] w (c ++ [(t, p, l, m)])%list))
                          | Some e =>
                              Some (Raise e,
                                    mkSt (set_downlinkRecvd true
                                            (set_LastErrorNum PyNone
                                               (set_LastErrorType PyNone d)))
                                         (mkWorld t0 [] w (c ++ [(t, p, l, m)])%list))
                          end)
    end.
    { unfold bind at 1 2, in_waiting, readline. cbv beta.
      cbn [world self rxq now written calls]. rewrite Hready. cbv beta iota zeta.
      cbn [world self rxq now written calls]. rewrite Hle. cbv beta iota zeta.
      fold (text_of x). rewrite Hne, (decode_text _ Hv), Hline by exact Hcb.
      unfold bind, modify_self, call, continue, ret.
      cbn [world self rxq now written calls]. destruct (cb t p l m); reflexivity. }
    destruct (cb t p l m) as [e |].
    + apply while_raise. exact Hbody.
    + rewrite while_continue
        with (l' := tt)
             (s' := mkSt (set_downlinkRecvd true
                            (set_LastErrorNum PyNone (set_LastErrorType PyNone d)))
                         (mkWorld t0 [] w (c ++ [(t, p, l, m)])%list))
        by exact Hbody.
      apply while_leave. reflexivity.
  - unfold checkForDownlink.
    unfold bind at 1 2, in_waiting, readline. cbv beta.
    cbn [world self rxq now written calls].
    apply Z.gtb_lt in Hready.
    replace (ready_bytes t0 [(a, x)] =? 0) with false by (symmetry; apply Z.eqb_neq; lia).
    cbv beta iota zeta. cbn [world self rxq now written calls].
    rewrite Hle. cbv beta iota zeta.
    fold (text_of x). rewrite (decode_text _ Hv), Hx.
    change (Py.take 8 ("OK+RECV:" ++ ?r)) with "OK+RECV:".
    change ("OK+RECV:" == "OK+RECV:") with true. cbv iota.
    change (Py.drop 8 ("OK+RECV:" ++ ?r)) with r.
    erewrite bind_run by reflexivity.
    cbn [world self rxq now written calls downlinkCallback].
    rewrite Hcb, Hsplit. unfold call.
    cbn [world self rxq now written calls]. destruct (cb t p l m); reflexivity.
Qed.

Lemma downlink_reaches_the_handler_witness :
  exists s1 s2,
    _getDelayedReplies (listening "OK+RECV:1,2,4,deadbeef") = Some (Return tt, s1)
    /\ calls (world s1) = [("1", "2", "4", "deadbeef")]
    /\ downlinkRecvd (self s1) = true
    /\ checkForDownlink (listening "OK+RECV:1,2,4,deadbeef") = Some (Return tt, s2)
    /\ calls (world s2) = [("1", "2", "4", "deadbeef")]
    /\ downlinkRecvd (self s2) = false.
Proof.
  apply (@downlink_reaches_the_handler accept_downlink (listening "OK+RECV:1,2,4,deadbeef")
           0 ("OK+RECV:1,2,4,deadbeef" ++ CR) "1" "2" "4" "deadbeef");
    first [reflexivity | vm_compute; discriminate].
Defined.

(** X19.  [checkForDownlink] takes the first line that can be read,
    whatever it is.  A line that is not a downlink notice is dropped:
    the call returns, and all that has changed is that the line is no
    longer in the queue.  A join notice read in this way never reaches
    the join flag. *)
Theorem checkForDownlink_drops_any_other_line s a x q :
  rxq (world s) = (a, x) :: q -> a <= now (world s) ->
  Py.utf8_valid [] (text_of x) = true ->
  (Py.take 8 (text_of x) == "OK+RECV:") = false ->
  checkForDownlink s = Some (Return tt, pop_line s).
Proof.
  destruct s as [d [t0 q0 w c]]. cbn [world self rxq now written calls].
  intros -> Ha Hv Hx.
  pose proof (ready_bytes_head x q Ha) as Hready. apply Z.gtb_lt in Hready.
  assert (Hle : (a <=? t0) = true) by (apply Z.leb_le, Ha).
  unfold checkForDownlink.
  unfold bind at 1 2, in_waiting, readline. cbv beta.
  cbn [world self rxq now written calls].
  replace (ready_bytes t0 ((a, x) :: q) =? 0) with false by (symmetry; apply Z.eqb_neq; lia).
  cbv beta iota zeta. cbn [world self rxq now written calls].
  rewrite Hle. cbv beta iota zeta.
  fold (text_of x). rewrite (decode_text _ Hv), Hx. reflexivity.
Qed.

Lemma checkForDownlink_drops_any_other_line_witness :
  checkForDownlink (mkSt new_object (mkWorld 0 [(0, "+CJOIN:OK" ++ CR)] [] []))
  = Some (Return tt, mkSt new_object (mkWorld 0 [] [] [])).
Proof.
  apply (@checkForDownlink_drops_any_other_line
           (mkSt new_object (mkWorld 0 [(0, "+CJOIN:OK" ++ CR)] [] []))
           0 ("+CJOIN:OK" ++ CR) []);
    [reflexivity | cbn; lia | reflexivity | reflexivity].
Defined.

(** ** What [join] and [sendPayload] write *)

Lemma getRX1Delay_writes env s :
  wp (getRX1Delay env)
     (fun _ s' => written (world s') = (written (world s) ++ [inquiry "CRX1DELAY"])%list) s.
Proof.
  unfold getRX1Delay. apply wp_bind.
  eapply wp_mono; [apply _inquire_writes |].
  intros [v | e] s' (_ & Hw & _); [| exact Hw].
  eapply wp_mono; [apply _noneOrInt_spec |].
  intros o s'' (-> & _). exact Hw.
Qed.

(** X20.  Whatever its arguments and whatever the modem does, [join]
    ends, and it has written nothing, or its CJOIN command, or that
    command and the inquiry of the RX1 delay after it; nothing else is
    ever sent.  It returns True only with the join flag set and both
    written. *)
Theorem join_writes_its_command_and_one_inquiry env start autojoin interval retries s :
  exists o s',
    join env start autojoin interval retries s = Some (o, s')
    /\ (written (world s') = written (world s)
        \/ written (world s')
           = (written (world s) ++ [command (join_cmd start autojoin interval retries)])%list
        \/ written (world s')
           = (written (world s) ++ [command (join_cmd start autojoin interval retries);
                                    inquiry "CRX1DELAY"])%list)
    /\ (o = Return true ->
        joined (self s') = true
        /\ written (world s')
           = (written (world s) ++ [command (join_cmd start autojoin interval retries);
                                    inquiry "CRX1DELAY"])%list).
Proof.
  pose proof (Pos2Z.is_pos (tick env)) as Htick.
  set (W1 := (written (world s) ++ [command (join_cmd start autojoin interval retries)])%list).
  set (W2 := (written (world s) ++ [command (join_cmd start autojoin interval retries);
                                    inquiry "CRX1DELAY"])%list).
  set (Q := fun (o : outcome bool) (s' : St) =>
              (written (world s') = written (world s)
               \/ written (world s') = W1 \/ written (world s') = W2)
              /\ (o = Return true -> joined (self s') = true /\ written (world s') = W2)).
  assert (Hearly : forall o, o <> Return true -> Q o s).
  { intros o Ho. split; [left; reflexivity | intros H; contradiction]. }
  assert (H1 : forall o s1, o <> Return true -> written (world s1) = W1 -> Q o s1).
  { intros o s1 Ho Hw. split; [right; left; exact Hw | intros H; contradiction]. }
  assert (H2 : forall o s2, o <> Return true -> written (world s2) = W2 -> Q o s2).
  { intros o s2 Ho Hw. split; [right; right; exact Hw | intros H; contradiction]. }
  change (wp (join env start autojoin interval retries) Q s).
  unfold join.
  do 4 (apply wp_bind, wp_assert; [intros _ | intros _; apply Hearly; discriminate]).
  apply wp_bind, wp_get_self.
  destruct (joined (self s) && negb (start =? 0)); [apply wp_ret, Hearly; discriminate |].
  unfold _clearLastError. apply wp_bind, wp_modify_self. wp_prim. cbn zeta.
  apply wp_bind. eapply wp_mono; [apply _setCmd_writes |].
  cbn [world written]. fold W1.
  intros [ok | e] s1 (_ & Hw1 & Ho); [| apply H1; [discriminate | exact Hw1]].
  cbn in Ho. subst ok. cbn [negb].
  apply wp_bind.
  eapply wp_mono;
    [apply wp_with with (R := fun (_ : outcome (option Z)) (_ : St) => True);
     [apply getRX1Delay_writes | intros; exact I] |].
  cbn beta. intros o s2 [Hw2 _].
  assert (Hw : written (world s2) = W2).
  { rewrite Hw2, Hw1. unfold W1, W2. rewrite <- app_assoc. reflexivity. }
  clear Hw2. destruct o as [d | e]; [| apply H2; [discriminate | exact Hw]].
  apply wp_bind. destruct d as [d |]; [| apply wp_raise, H2; [discriminate | exact Hw]].
  apply wp_ret. apply wp_bind, wp_time_time. apply wp_bind.
  set (B := ticks env (retries * (d + 1))).
  apply (wp_while (fun (_ : unit) (s3 : St) => written (world s3) = W2)
                  (fun (_ : unit) s3 => Z.to_nat (now (world s2) + B - now (world s3)))).
  - intros [] s3 Hw3. unfold join_wait.
    apply wp_bind. eexists _, _. split; [reflexivity |]. cbn beta iota.
    destruct (_ =? 0).
    + apply wp_bind, wp_time_time. fold B.
      destruct (now (world s3) - now (world s2) >=? B) eqn:E;
        [apply wp_raise, H2; [discriminate | exact Hw3] |].
      rewrite Z.geb_leb in E. apply Z.leb_gt in E.
      apply wp_ret. cbn. split; [exact Hw3 | lia].
    + apply wp_ret. apply wp_bind.
      eapply wp_mono; [apply _getDelayedReplies_writes |].
      intros [[] | e] s4 Hw4; [| apply H2; [discriminate | congruence]].
      apply wp_bind, wp_get_self. apply wp_ret.
      split; [right; right; congruence |].
      intros Ht. inversion Ht as [Hj]. split; [reflexivity | congruence].
  - exact Hw.
  - cbn. unfold polls. fold B. lia.
Qed.



(** ** An error on record stays on record *)

Lemma stable_of_wp {A} (P : St -> Prop) (m : M A) :
  (forall s, wp m (fun _ s' => P s -> P s') s) -> stable P m.
Proof. intros H s o s' HP E. exact (wp_run (H s) E HP). Qed.

Lemma stable_self {A} (R : asr6501 -> Prop) (m : M A) :
  (forall s o s', m s = Some (o, s') -> self s' = self s) ->
  stable (fun s => R (self s)) m.
Proof. intros H s o s' HP E. rewrite (H s o s' E). exact HP. Qed.

Lemma error_kept_by_setCmd env cmd T :
  stable (fun s => lastErrorType (self s) <> PyNone) (_setCmd env cmd T).
Proof.
  apply stable_of_wp. intros s. eapply wp_mono; [apply _setCmd_spec |].
  intros o s' ((_ & _ & _ & _ & Hk) & _). exact Hk.
Qed.

Lemma error_kept_by_inquire env cmd T :
  stable (fun s => lastErrorType (self s) <> PyNone) (_inquire env cmd T).
Proof.
  apply stable_of_wp. intros s. eapply wp_mono; [apply _inquire_spec |].
  intros o s' ((_ & _ & _ & _ & Hk) & _). exact Hk.
Qed.

Lemma error_kept_by_drain :
  stable (fun s => lastErrorType (self s) <> PyNone) _getDelayedReplies.
Proof.
  apply stable_drain.
  - intros s H. exact H.
  - intros s a x q rx o s' HP _ _ _ Hrun.
    unfold drain_line, bind, get_self, modify_self, call, raise, continue, leave, ret in Hrun.
    assert (Hp : lastErrorType (self (pop_line s)) <> PyNone) by exact HP.
    revert Hrun Hp. generalize (pop_line s). intros s2 Hrun Hp.
    run_cases_eq Hrun; cbn; first [exact Hp | discriminate].
  - intros s H. exact H.
Qed.

Lemma error_kept_by_getRX1Delay env :
  stable (fun s => lastErrorType (self s) <> PyNone) (getRX1Delay env).
Proof.
  unfold getRX1Delay. apply stable_bind; [apply error_kept_by_inquire |].
  intros v. unfold _noneOrInt.
  destruct v as [| n | t | l]; try apply stable_ret; try apply stable_raise.
  destruct (Py.int t); [apply stable_ret | apply stable_raise].
Qed.

Ltac error_on_self :=
  apply (@stable_self _ (fun d => lastErrorType d <> PyNone));
  let H := fresh in intros ? ? ? H; inversion H; reflexivity.

Lemma error_kept_by_join env start autojoin interval retries :
  stable (fun s => lastErrorType (self s) <> PyNone) (join env start autojoin interval retries).
Proof.
  unfold join.
  do 4 (apply stable_bind; [apply stable_assert | intros _]).
  apply stable_bind; [error_on_self |].
  intros d. destruct (joined d && negb (start =? 0)); [apply stable_ret |].
  apply stable_bind; [apply stable_step; intros s o s' H HP; inversion H; subst; exact HP |].
  intros _.
  apply stable_bind; [error_on_self |].
  intros _. cbv zeta.
  apply stable_bind; [apply error_kept_by_setCmd |].
  intros ok. destruct (negb ok); [apply stable_ret |].
  apply stable_bind; [apply error_kept_by_getRX1Delay |].
  intros d1. apply stable_bind; [destruct d1; [apply stable_ret | apply stable_raise] |].
  intros d2.
  apply stable_bind; [error_on_self |].
  intros t0. apply stable_bind.
  { apply stable_while. intros []. unfold join_wait.
    apply stable_bind; [error_on_self |].
    intros n. destruct (n =? 0); [| apply stable_ret].
    apply stable_bind; [error_on_self |].
    intros t1. destruct (_ >=? _); [apply stable_raise | apply stable_ret]. }
  intros _. apply stable_bind; [apply error_kept_by_drain |].
  intros _. apply stable_bind; [error_on_self |].
  intros d3. apply stable_ret.
Qed.

Lemma error_kept_by_sendPayload env payload confirm nbtrials :
  stable (fun s => lastErrorType (self s) <> PyNone) (sendPayload env payload confirm nbtrials).
Proof.
  destruct payload as [payload |]; [| apply stable_raise].
  cbn [sendPayload]. apply stable_finally_return, stable_try_except; [| intros e; apply stable_ret].
  unfold send_try. cbv zeta.
  apply stable_bind; [apply stable_step; intros s o s' H HP; inversion H; subst; exact HP |].
  intros _. apply stable_bind; [apply error_kept_by_setCmd |].
  intros _. apply stable_bind; [apply error_kept_by_getRX1Delay |].
  intros d1. apply stable_bind; [destruct d1; [apply stable_ret | apply stable_raise] |].
  intros d2.
  apply stable_bind; [error_on_self |].
  intros t0. apply stable_bind; [| intros _; apply stable_ret].
  apply stable_while. intros []. unfold send_wait.
  apply stable_bind; [error_on_self |].
  intros t1. destruct (_ <=? _); [| apply stable_ret].
  apply stable_bind; [apply error_kept_by_drain | intros _; apply stable_ret].
Qed.

(** X22.  Once [getLastATError] reports an error, it reports one after
    every later call of the driver that ends, with or without an
    exception: no transaction, no drain, no [join] and no [sendPayload]
    clears the attribute it looks at. *)
Theorem error_on_record_is_never_cleared env cmd T start autojoin interval retries
        payload confirm nbtrials s :
  getLastATError (self s) <> None ->
  (exists o s', _setCmd env cmd T s = Some (o, s') /\ getLastATError (self s') <> None)
  /\ (exists o s', _inquire env cmd T s = Some (o, s') /\ getLastATError (self s') <> None)
  /\ (exists o s', _getDelayedReplies s = Some (o, s') /\ getLastATError (self s') <> None)
  /\ (exists o s', join env start autojoin interval retries s = Some (o, s')
                   /\ getLastATError (self s') <> None)
  /\ (exists o s', sendPayload env payload confirm nbtrials s = Some (o, s')
                   /\ getLastATError (self s') <> None).
Proof.
  intros H. rewrite getLastATError_None in H.
  assert (Hgo : forall A (m : M A),
             stable (fun s => lastErrorType (self s) <> PyNone) m ->
             wp m (fun _ _ => True) s ->
             exists o s', m s = Some (o, s') /\ getLastATError (self s') <> None).
  { intros A m Hst (o & s' & E & _). exists o, s'. split; [exact E |].
    rewrite getLastATError_None. exact (Hst s o s' H E). }
  repeat split.
  - apply Hgo; [apply error_kept_by_setCmd |].
    eapply wp_mono; [apply _setCmd_spec | intros; exact I].
  - apply Hgo; [apply error_kept_by_inquire |].
    eapply wp_mono; [apply _inquire_spec | intros; exact I].
  - apply Hgo; [apply error_kept_by_drain |].
    eapply wp_mono; [apply _getDelayedReplies_spec | intros; exact I].
  - apply Hgo; [apply error_kept_by_join | apply join_ends].
  - apply Hgo; [apply error_kept_by_sendPayload |].
    destruct payload as [payload |]; [| apply wp_raise; exact I].
    cbn [sendPayload]. apply wp_finally_return, wp_try_except.
    eapply wp_mono; [apply send_try_ends |].
    intros [v | e] s1 _; [exact I |].
    destruct (is_Exception e); [apply wp_ret |]; exact I.
Qed.

Lemma error_on_record_is_never_cleared_witness :
  (exists o s', _setCmd silent "CSAVE" 2 (with_error "+CME ERROR" "1" power_on) = Some (o, s')
                /\ getLastATError (self s') <> None)
  /\ (exists o s', _inquire silent "CSAVE" 2 (with_error "+CME ERROR" "1" power_on) = Some (o, s')
                   /\ getLastATError (self s') <> None)
  /\ (exists o s', _getDelayedReplies (with_error "+CME ERROR" "1" power_on) = Some (o, s')
                   /\ getLastATError (self s') <> None)
  /\ (exists o s', join silent 1 0 8 8 (with_error "+CME ERROR" "1" power_on) = Some (o, s')
                   /\ getLastATError (self s') <> None)
  /\ (exists o s', sendPayload silent (Some "hi") 0 8 (with_error "+CME ERROR" "1" power_on)
                   = Some (o, s')
                   /\ getLastATError (self s') <> None).
Proof.
  apply (@error_on_record_is_never_cleared silent "CSAVE" 2 1 0 8 8 (Some "hi") 0 8
           (with_error "+CME ERROR" "1" power_on)).
  vm_compute. discriminate.
Defined.

(** ** The getters of integers *)

(** Every getter of the table inquires its command and converts the
    reply. *)
Lemma numeric_getters_shape env cmd getter :
  In (cmd, getter) (numeric_getters env) ->
  getter = (v <- _inquire env cmd 2 ;; _noneOrInt v).
Proof.
  unfold numeric_getters. cbn [In]. intros H.
  repeat (destruct H as [H | H]; [inversion H; reflexivity |]).
  contradiction.
Qed.

(** X23.  The getters of integers are documented to return an integer
    or None.  Whatever the modem does, each of them ends, and none of
    them returns None: it returns an integer or it raises. *)
Theorem numeric_getters_never_return_None env cmd getter s :
  In (cmd, getter) (numeric_getters env) ->
  exists o s', getter s = Some (o, s') /\ o <> Return None.
Proof.
  intros Hin. rewrite (numeric_getters_shape Hin).
  assert (H : wp (v <- _inquire env cmd 2 ;; _noneOrInt v) (fun o _ => o <> Return None) s).
  { apply wp_bind. eapply wp_mono; [apply _inquire_spec |].
    intros [v | e] s' (_ & _ & Ho); [| discriminate]. cbn in Ho.
    unfold _noneOrInt. destruct v as [| n | t | l].
    - contradiction.
    - apply wp_ret. discriminate.
    - destruct (Py.int t); [apply wp_ret | apply wp_raise]; discriminate.
    - apply wp_raise. discriminate. }
  destruct H as (o & s' & E & H). exists o, s'. split; assumption.
Qed.

Lemma numeric_getters_never_return_None_witness :
  exists o s', getStatus silent power_on = Some (o, s') /\ o <> Return None.
Proof.
  apply (@numeric_getters_never_return_None silent "CSTATUS" (getStatus silent) power_on).
  unfold numeric_getters. cbn [In]. do 7 right. left. reflexivity.
Defined.



(** ** Signal strengths *)

Lemma chars_head c r : exists k t, chars (String c r) = String c k :: t.
Proof.
  cbn [chars]. destruct r as [| c' r']; [exists "", []; reflexivity |].
  destruct (is_cont c').
  - destruct (chars (String c' r')) as [| h t]; eexists _, _; reflexivity.
  - eexists _, _. reflexivity.
Qed.

Lemma cont_is_no_digit_and_no_colon c :
  is_cont c = true -> Py.digit c = None /\ Ascii.eqb c ":" = false.
Proof.
  destruct c as [[] [] [] [] [] [] [] []]; intros H; try discriminate H; split; reflexivity.
Qed.

Lemma kv_pat_one_byte c : kv_pat (String c "") = None.
Proof. unfold kv_pat. cbn [span_digits]. destruct (Py.digit c); reflexivity. Qed.

Lemma kv_pat_before_cont c c' k :
  is_cont c' = true -> kv_pat (String c (String c' k)) = None.
Proof.
  intros H. destruct (@cont_is_no_digit_and_no_colon c' H) as [Hd Hc].
  unfold kv_pat. cbn [span_digits]. rewrite Hd.
  destruct (Py.digit c); [| reflexivity].
  destruct c' as [[] [] [] [] [] [] [] []]; try reflexivity; discriminate Hc.
Qed.

(** No character of a text is matched by the pattern, which asks for
    two characters at least. *)
Lemma chars_no_match s : Forall (fun h => kv_pat h = None) (chars s).
Proof.
  induction s as [| c r IH]; [constructor |].
  cbn [chars]. destruct r as [| c' r']; [repeat constructor; apply kv_pat_one_byte |].
  destruct (is_cont c') eqn:Hc.
  - destruct (chars_head c' r') as (k & t & E). rewrite E in *.
    inversion IH; subst. constructor; [apply kv_pat_before_cont, Hc | assumption].
  - constructor; [apply kv_pat_one_byte | exact IH].
Qed.

Lemma rssi_entries_no_match l d s :
  Forall (fun h => kv_pat h = None) l -> rssi_entries l d s = Some (Return d, s).
Proof.
  induction 1 as [| h l Hh _ IH]; [reflexivity |].
  cbn [rssi_entries]. rewrite Hh. exact IH.
Qed.







(** X26.  When the answer to the inquiry of the signal strengths has no
    header +CRSSI:, a line of data and OK as for any other inquiry,
    [_inquire] returns a text, and [getRSSI], which goes over it
    character by character, finds no entry: it returns the empty
    dictionary and raises nothing. *)
Theorem getRSSI_without_header_is_empty env freqBandIdx s pre kv ok rest v :
  nothing_on_its_way s ->
  device env (written (world s) ++ [inquiry ("CRSSI 000" ++ Py.str freqBandIdx)])
  = at_once (pre ++ kv :: ok :: rest) ->
  Forall (fun x => skipped x = true) pre ->
  is_text (text_of kv) = true -> plain (text_of kv) = true ->
  text_of ok = "OK" ->
  reply_pat (text_of kv) = Some v ->
  Z.of_nat (List.length pre + 2) * Zpos (tick env) < ticks env 2 ->
  getRSSI env freqBandIdx s
  = Some (Return [],
          answered env ("CRSSI 000" ++ Py.str freqBandIdx)
                   (inquiry ("CRSSI 000" ++ Py.str freqBandIdx))
                   (List.length pre + 2) rest s).
Proof.
  intros Hway Hdev Hpre Hkv Hplain Hok Hv Ht.
  unfold getRSSI.
  erewrite bind_run
    by exact (@_inquire_answered_value env _ 2 s pre kv ok rest v
                Hway Hdev Hpre Hkv Hplain Hok Hv Ht).
  apply rssi_entries_no_match, chars_no_match.
Qed.

Lemma getRSSI_without_header_is_empty_witness :
  getRSSI (bench [("AT+CRSSI 0001?", ["AT+CRSSI 0001?"; "0:-101"; "OK"])]) 1 power_on
  = Some (Return [],
          answered (bench [("AT+CRSSI 0001?", ["AT+CRSSI 0001?"; "0:-101"; "OK"])])
                   "CRSSI 0001" (inquiry "CRSSI 0001") 3 [] power_on).
Proof.
  apply (@getRSSI_without_header_is_empty
           (bench [("AT+CRSSI 0001?", ["AT+CRSSI 0001?"; "0:-101"; "OK"])]) 1 power_on
           ["AT+CRSSI 0001?" ++ CR] ("0:-101" ++ CR) ("OK" ++ CR) [] "-101");
    [reflexivity | reflexivity | repeat constructor | reflexivity | reflexivity
     | reflexivity | reflexivity | reflexivity].
Defined.

(** ** Construction *)


(** ** The end of a key *)

Lemma take_app_length a b : Py.take (String.length a) (a ++ b) = a.
Proof. induction a as [| c a IH]; cbn; [destruct b; reflexivity | rewrite IH; reflexivity]. Qed.

Lemma drop_app_length a b : Py.drop (String.length a) (a ++ b) = b.
Proof. induction a as [| c a IH]; cbn; [destruct b; reflexivity | exact IH]. Qed.

Lemma hex_pairs_with_tail n body tail :
  String.length body = (2 * n)%nat -> all_upper_hex body = true ->
  hex_pairs n (body ++ tail) = ((tail == "") || (tail == String "010" "")).
Proof.
  intros Hlen Hhex. unfold hex_pairs. cbv zeta. rewrite <- Hlen.
  rewrite take_app_length, drop_app_length, Hhex, Nat.eqb_refl. reflexivity.
Qed.

(** X28.  The patterns of the keys end with an anchor that also matches
    before a final newline.  A key of the right length in upper-case
    hexadecimal digits followed by one newline passes the check of its
    setter, and the newline is written to the modem inside the command,
    before the carriage return and newline that end it. *)
Theorem key_with_a_final_newline_is_sent_with_it env body s :
  String.length body = 32%nat -> all_upper_hex body = true ->
  hex32char (body ++ String "010" "") = true
  /\ exists o s',
       setNwkSKey env (body ++ String "010" "") s = Some (o, s')
       /\ written (world s')
          = (written (world s)
             ++ [command ("CNWKSKEY=" ++ body ++ String "010" "")])%list.
Proof.
  intros Hlen Hhex.
  assert (Hok : hex32char (body ++ String "010" "") = true).
  { unfold hex32char. rewrite (@hex_pairs_with_tail 16 body _ Hlen Hhex). reflexivity. }
  split; [exact Hok |].
  unfold setNwkSKey. rewrite Hok.
  destruct (_setCmd_writes env ("CNWKSKEY=" ++ body ++ String "010" "") 2 s)
    as (o & s' & E & _ & Hw & _).
  exists o, s'. split; [exact E | exact Hw].
Qed.

Lemma key_with_a_final_newline_is_sent_with_it_witness :
  hex32char ("00112233445566778899AABBCCDDEEFF" ++ String "010" "") = true
  /\ exists o s',
       setNwkSKey silent ("00112233445566778899AABBCCDDEEFF" ++ String "010" "") power_on
       = Some (o, s')
       /\ written (world s')
          = ["AT+CNWKSKEY=" ++ "00112233445566778899AABBCCDDEEFF" ++ String "010" "" ++ CRLF].
Proof.
  apply (@key_with_a_final_newline_is_sent_with_it silent
           "00112233445566778899AABBCCDDEEFF" power_on); reflexivity.
Defined.

(** ** The example program *)



(** ** The class *)

(** X30.  [setClass] for class B without a ping slot period: the
    parameter that was not given is formatted as it is, and the text
    None is sent to the modem in its place. *)
Theorem setClass_sends_a_missing_parameter_as_None env param2 param3 param4 s :
  exists o s',
    setClass env 1 0 None param2 param3 param4 s = Some (o, s')
    /\ written (world s') = (written (world s) ++ [command "CCLASS=1,None"])%list.
Proof.
  destruct (_setCmd_writes env "CCLASS=1,None" 2 s) as (o & s' & E & _ & Hw & _).
  exists o, s'. split; [exact E | exact Hw].
Qed.
